(** * expo-moose: the dashboard list and the PV system detail screen

    A shallow embedding of the search / pagination logic of the dashboard
    screen ([DashboardScreen]) and of the data aggregation of the detail
    screen ([PvSystemDetailScreen]), with the properties of the written
    specification stated over it; then what the two screens render, the
    chart, the weather and the devices of the detail screen and the form of
    the login page ([LoginPage]), with further properties of the code.

    Conventions of the embedding.
    - A JavaScript [number] is a finite double, held as the rational it
      denotes ([Q]).  A division and a multiplication give the double
      nearest to the exact result ([Js.div], [Js.mul]); the sums of the
      period totals are exact.  [NaN] and the infinities are no numbers of
      the model: they appear as the text ["NaN"] where a value that is not
      there is printed, and as results of [Number] on a string.
    - A JavaScript string is a [string]; [toLowerCase] and [trim] act on the
      ASCII letters and the ASCII white space.
    - A value that may be [null] or [undefined] is an [option], where the
      code treats the two alike; the [value] of a channel, which the
      dashboard tests against [null] only, keeps them apart.
    - An awaited call is a [Settled] value: what it resolved to, or the
      reason it was rejected with.
    - A component's [useState] cells are the fields of a record; an event
      handler is a function on that record.  An [async] function is cut at
      its [await]: the part that runs when it is called (it says which
      requests leave), and the part that runs when the requests settle.  The
      second part reads the variables of the render that called it, so it
      takes that render's state as a separate argument. *)

From Stdlib Require Import String Ascii List ZArith NArith QArith Qabs Lia Bool.
From Stdlib Require Import Sorting.Sorted Sorting.Permutation Lqa.
Import ListNotations.
Close Scope Q_scope.
Open Scope string_scope.

Set Implicit Arguments.

(** ** JavaScript primitives *)

Module Js.

(** *** Strings *)

Definition is_upper (c : ascii) : bool :=
  let n := nat_of_ascii c in (65 <=? n)%nat && (n <=? 90)%nat.

Definition lower_ascii (c : ascii) : ascii :=
  if is_upper c then ascii_of_nat (nat_of_ascii c + 32) else c.

(** [String.prototype.toLowerCase]. *)
Fixpoint toLowerCase (s : string) : string :=
  match s with
  | EmptyString => EmptyString
  | String c s' => String (lower_ascii c) (toLowerCase s')
  end.

(** [String.prototype.includes]: [sub] occurs in [s] at some position. *)
Fixpoint includes (s sub : string) : bool :=
  String.prefix sub s
  || match s with
     | EmptyString => false
     | String _ s' => includes s' sub
     end.

(** White space removed by [trim]: space, tab, line feed, vertical tab, form
    feed and carriage return. *)
Definition is_white (c : ascii) : bool :=
  let n := nat_of_ascii c in
  (n =? 32)%nat || ((9 <=? n)%nat && (n <=? 13)%nat).

Fixpoint trimStart (s : string) : string :=
  match s with
  | EmptyString => EmptyString
  | String c s' => if is_white c then trimStart s' else s
  end.

Fixpoint trimEnd (s : string) : string :=
  match s with
  | EmptyString => EmptyString
  | String c s' =>
      match trimEnd s' with
      | EmptyString => if is_white c then EmptyString else String c EmptyString
      | r => String c r
      end
  end.

(** [String.prototype.trim]. *)
Definition trim (s : string) : string := trimEnd (trimStart s).

(** Truthiness of a string: the empty string is falsy. *)
Definition truthy (s : string) : bool :=
  match s with EmptyString => false | _ => true end.

(** [Array.prototype.join] with a separator. *)
Fixpoint join (sep : string) (l : list string) : string :=
  match l with
  | [] => EmptyString
  | [x] => x
  | x :: rest => x ++ sep ++ join sep rest
  end.

(** *** Double-precision arithmetic *)

(** [2^e] for an integer [e]. *)
Definition pow2 (e : Z) : Q :=
  if (0 <=? e)%Z then inject_Z (2 ^ e) else 1 # Z.to_pos (2 ^ (- e)).

(** The integer nearest to [n / d], the even one of two. *)
Definition round_even (n d : Z) : Z :=
  let q := (n / d)%Z in
  match (2 * (n mod d) ?= d)%Z with
  | Lt => q
  | Gt => (q + 1)%Z
  | Eq => if Z.even q then q else (q + 1)%Z
  end.

(** [n / d] brought to the scale [2^e]. *)
Definition scaled (n d e : Z) : Z * Z :=
  if (0 <=? e)%Z then (n, d * 2 ^ e)%Z else (n * 2 ^ (- e), d)%Z.

(** The exponent of the last place of the double for [n / d]: the one that
    leaves a significand of 53 bits, and -1074 at least. *)
Definition exponent (n d : Z) : Z :=
  let e := (Z.log2 n - Z.log2 d - 52)%Z in
  let (a, b) := scaled n d e in
  Z.max (if (a <? b * 2 ^ 52)%Z then e - 1 else e) (-1074).

(** The double nearest to [x], the one with the even significand of two
    (the rounding of IEEE 754 arithmetic).  The range of the doubles has no
    upper end here: no operation of the code leaves it from numbers
    within it. *)
Definition double (x : Q) : Q :=
  let n := Z.abs (Qnum x) in
  let d := Zpos (Qden x) in
  if (n =? 0)%Z then 0%Q
  else
    let e := exponent n d in
    let (a, b) := scaled n d e in
    let v := (inject_Z (round_even a b) * pow2 e)%Q in
    if (Qnum x <? 0)%Z then (- v)%Q else v.

(** [x / y] and [x * y] on doubles, for a divisor that is not zero. *)
Definition div (x y : Q) : Q := double (x / y).
Definition mul (x y : Q) : Q := double (x * y).

(** *** Numbers and their decimal notation *)

Definition digit_char (d : N) : ascii := ascii_of_N (48 + d).

(** The decimal digits of [n], most significant first, put in front of
    [acc]; [fuel] bounds the number of digits. *)
Fixpoint digits_acc (fuel : nat) (n : N) (acc : list ascii) : list ascii :=
  match fuel with
  | O => acc
  | S k =>
      let acc' := digit_char (n mod 10) :: acc in
      if (n / 10 =? 0)%N then acc' else digits_acc k (n / 10) acc'
  end.

Definition digits (n : N) : list ascii :=
  digits_acc (S (N.to_nat (N.log2 n))) n [].

(** The number a list of decimal digits denotes. *)
Definition digit_val (c : ascii) : N := N_of_ascii c - 48.

Definition digits_val (l : list ascii) : N :=
  fold_left (fun acc c => 10 * acc + digit_val c)%N l 0%N.

Definition is_digit (c : ascii) : bool :=
  let n := N_of_ascii c in (48 <=? n)%N && (n <=? 57)%N.

(** Nearest integer to [x * 10^f] for [0 <= x], the larger one of two. *)
Definition round_scaled (f : nat) (x : Q) : N :=
  Z.to_N ((2 * Qnum x * 10 ^ Z.of_nat f + Zpos (Qden x)) / (2 * Zpos (Qden x))).

(** The fixed notation of step 10 of [Number.prototype.toFixed]: the digits
    of [n], padded with zeros on the left to [f + 1] digits, with a point
    before the last [f] of them. *)
Definition fixed_digits (f : nat) (n : N) : list ascii :=
  let m := digits n in
  let k := length m in
  let m := if (k <=? f)%nat then (repeat "0"%char (S f - k) ++ m)%list else m in
  let k := length m in
  match f with
  | O => m
  | _ => (firstn (k - f) m ++ "."%char :: skipn (k - f) m)%list
  end.

Fixpoint strip_zeros (l : list ascii) : list ascii :=
  match l with
  | "0"%char :: l' => strip_zeros l'
  | _ => l
  end.

(** The integer of the fewest significant digits that reads back as the
    double [x], an integer of [len] digits; of two with as few digits the
    nearer to [x], and of two as near the one with the even last digit.
    [k] is the number of digits tried. *)
Fixpoint shortest_acc (fuel k len : nat) (x : N) : N :=
  match fuel with
  | O => x
  | S fuel' =>
      let scale := (10 ^ N.of_nat (len - k))%N in
      let lo := (x / scale * scale)%N in
      let hi := (lo + scale)%N in
      let reads v :=
        Qeq_bool (double (inject_Z (Z.of_N v))) (inject_Z (Z.of_N x)) in
      match reads lo, reads hi with
      | true, true =>
          if (x - lo <? hi - x)%N then lo
          else if (hi - x <? x - lo)%N then hi
          else if N.even (x / scale) then lo else hi
      | true, false => lo
      | false, true => hi
      | false, false => shortest_acc fuel' (S k) len x
      end
  end.

(** Seventeen digits read back as any double. *)
Definition shortest (x : N) : N := shortest_acc 17 1 (length (digits x)) x.

(** The notation of [Number::toString] for an integer of at least 22
    digits: its significant digits (a point after the first when there are
    several), then the exponent. *)
Definition exponential (n : N) : list ascii :=
  let ds := digits n in
  let e := digits (N.of_nat (length ds - 1)) in
  match rev (strip_zeros (rev ds)) with
  | [] => ds
  | [d] => d :: "e"%char :: "+"%char :: e
  | d :: rest => (d :: "."%char :: rest ++ "e"%char :: "+"%char :: e)%list
  end.

(** [Number.prototype.toFixed(f)] of the double [x]: its exact value is
    rounded to [f] decimals. *)
Definition toFixed (f : nat) (x : Q) : string :=
  let s := if Qlt_le_dec x 0%Q then "-" else "" in
  let x := Qabs x in
  let m :=
    if Qle_bool (inject_Z (10 ^ 21)) x
    then exponential (shortest (Z.to_N (Qnum x / Zpos (Qden x))))
    else fixed_digits f (round_scaled f x) in
  s ++ string_of_list_ascii m.

(** What [Number(s)] gives for a string: a number, or one of the three
    values that are no numbers of the model. *)
Inductive Numeric : Type :=
| finite (q : Q)
| NaN
| plusInfinity
| minusInfinity.

(** [x <= k] and [x < k] for a number [k]; a comparison with [NaN] is
    false. *)
Definition numeric_le (x : Numeric) (k : Q) : bool :=
  match x with
  | finite q => Qle_bool q k
  | minusInfinity => true
  | NaN | plusInfinity => false
  end.

Definition numeric_lt (x : Numeric) (k : Q) : bool :=
  match x with
  | finite q => negb (Qle_bool k q)
  | minusInfinity => true
  | NaN | plusInfinity => false
  end.

(** [value || 0] on an optional number: [null] and [0] both give [0]. *)
Definition or_zero (v : option Q) : Q :=
  match v with
  | Some q => q
  | None => 0%Q
  end.

(** [a || b] on strings: [b] when [a] is missing or empty. *)
Definition or_string (a : option string) (b : string) : string :=
  match a with
  | Some s => if truthy s then s else b
  | None => b
  end.

(** *** Arrays *)

(** [Array.prototype.find]. *)
Definition find {A : Type} (p : A -> bool) (l : list A) : option A :=
  List.find p l.

(** [Array.prototype.slice(0, n)]. *)
Definition slice0 {A : Type} (n : nat) (l : list A) : list A := firstn n l.

(** [Array.prototype.sort(cmp)].  The sort is stable, and for a consistent
    comparator its result is the stable sorted arrangement, whatever the
    engine's algorithm; insertion from the right computes it: an element
    goes in front of the first one it does not compare greater than. *)
Fixpoint insert {A : Type} (cmp : A -> A -> Z) (x : A) (l : list A) : list A :=
  match l with
  | [] => [x]
  | y :: l' => if (cmp x y <=? 0)%Z then x :: l else y :: insert cmp x l'
  end.

Definition sort {A : Type} (cmp : A -> A -> Z) (l : list A) : list A :=
  fold_right (insert cmp) [] l.

End Js.

(** ** Awaited calls *)

Inductive Settled (A : Type) : Type :=
| Fulfilled (value : A)
| Rejected (reason : string).

Arguments Fulfilled {A} value.
Arguments Rejected {A} reason.

(** ** Types of the remote data client ([@/api/api]) *)

(** A channel of the live telemetry or of an aggregate answer.  Its value
    is a number or [null], or it is not there ([undefined]). *)
Module Channel.
Inductive Value : Type :=
| number (q : Q)
| null
| undefined.
Record t : Type := mk { channelName : string; value : Value }.

(** [value ?? null]. *)
Definition orNull (v : Value) : option Q :=
  match v with
  | number q => Some q
  | null | undefined => None
  end.
End Channel.

(** A channel of the weather answer: a number (temperature, cloud cover) or
    a string (the symbol code); [null] also stands for a value that is not
    there, which [findChannelValue] turns into [null]. *)
Module WeatherChannel.
Inductive Value : Type :=
| number (q : Q)
| text (s : string)
| null.
Record t : Type := mk { channelName : string; value : Value }.
End WeatherChannel.

Module Address.
Record t : Type := mk {
  street : option string;
  city : option string;
  state : option string;
  country : option string }.
End Address.

Module PvSystemMetadata.
Record t : Type := mk {
  pvSystemId : string;
  name : string;
  address : Address.t;
  pictureURL : option string;
  peakPower : option Q;
  lastImport : string }.
End PvSystemMetadata.

Module FlowDataResponse.
Record Status : Type := mkStatus { isOnline : bool }.
Record Data : Type := mkData {
  logDateTime : option string;
  channels : option (list Channel.t) }.
Record t : Type := mk { status : option Status; data : option Data }.
End FlowDataResponse.

(** The detail screen calls [data.reduce] and [channels.map] on an answer
    without a guard: the two arrays are always there. *)
Module AggregatedDataResponse.
Record Row : Type := mkRow {
  logDateTime : string;
  channels : list Channel.t }.
Record t : Type := mk {
  pvSystemId : string;
  deviceId : option string;
  data : list Row }.
End AggregatedDataResponse.

Module HistoricalDataResponse.
Record Point : Type := mkPoint {
  logDateTime : string;
  logDuration : Z;
  channels : list Channel.t }.
Record t : Type := mk {
  pvSystemId : string;
  deviceId : option string;
  data : list Point }.
End HistoricalDataResponse.

Module CurrentWeatherResponse.
Record Data : Type := mkData {
  logDateTime : string;
  channels : list WeatherChannel.t }.
Record t : Type := mk { data : option Data }.
End CurrentWeatherResponse.

Module SystemMessage.
Record t : Type := mk {
  pvSystemId : string;
  deviceId : string;
  stateType : string;
  stateSeverity : string;
  stateCode : Z;
  logDateTime : string;
  text : string }.
End SystemMessage.

Module DeviceMetadata.
Record t : Type := mk {
  deviceId : string;
  deviceType : string;
  deviceName : option string;
  isActive : bool }.
End DeviceMetadata.

(** What the remote data client answers at the time of a call. *)
Module Remote.
Record t : Type := mk {
  getPvSystemFlowData : string -> Settled (option FlowDataResponse.t);
  getPvSystemDetails : string -> Settled PvSystemMetadata.t;
  getPvSystemAggregatedData : string -> Settled AggregatedDataResponse.t }.
End Remote.

(** What the host gives: the collation of [localeCompare], the clock, the
    parsing of a date string ([None] for an invalid date) and the local
    notation of a date. *)
Module Host.
Record t : Type := mk {
  localeCompare : string -> string -> Z;
  now : Z;
  parseDate : string -> option Z;
  toLocaleDateString : option Z -> string }.
End Host.


(** ** The dashboard screen ([DashboardScreen]) *)

Module Dashboard.

Inductive Status : Type := online | offline | warning.

Definition Status_eqb (a b : Status) : bool :=
  match a, b with
  | online, online | offline, offline | warning, warning => true
  | _, _ => false
  end.

Module EnhancedPvSystem.
Record t : Type := mk {
  id : string;
  name : string;
  address : string;
  status : Status;
  power : string;
  daily : string;
  lastUpdated : string;
  pictureURL : option string;
  peakPower : option Q;
  isActive : bool }.
End EnhancedPvSystem.

Module BasicPvSystem.
Record t : Type := mk {
  id : string;
  name : string;
  address : string;
  pictureURL : option string }.
End BasicPvSystem.

Definition SYSTEMS_PER_PAGE : nat := 10.

(** *** Helper functions *)

Definition formatAddress (address : Address.t) : string :=
  let parts :=
    flat_map
      (fun p => match p with
                | Some s => if Js.truthy s then [s] else []
                | None => []
                end)
      [Address.street address; Address.city address;
       Address.state address; Address.country address] in
  Js.join ", " parts.

Definition determineStatus (flowData : option FlowDataResponse.t) : Status :=
  match flowData with
  | None => offline
  | Some fd =>
      match FlowDataResponse.status fd with
      | None => offline
      | Some s => if FlowDataResponse.isOnline s then online else offline
      end
  end.

Definition channelNamed (n : string) (c : Channel.t) : bool :=
  String.eqb (Channel.channelName c) n.

Definition extractPower (flowData : option FlowDataResponse.t) : string :=
  match flowData with
  | None => "0 kW"
  | Some fd =>
      match FlowDataResponse.data fd with
      | None => "0 kW"
      | Some d =>
          match FlowDataResponse.channels d with
          | None => "0 kW"
          | Some channels =>
              match Js.find (channelNamed "PowerPV") channels with
              | Some powerChannel =>
                  match Channel.value powerChannel with
                  | Channel.null => "0 kW"
                  | Channel.number powerValue =>
                      Js.toFixed 1 (Js.div powerValue 1000) ++ " kW"
                  | Channel.undefined => "NaN" ++ " kW"
                  end
              | None => "0 kW"
              end
          end
      end
  end.

Definition formatLastUpdated (h : Host.t) (dateTimeString : string) : string :=
  match Host.parseDate h dateTimeString with
  | None => Host.toLocaleDateString h None
  | Some date =>
      let diffMs := (Host.now h - date)%Z in
      let diffMins := (diffMs / 60000)%Z in
      if (diffMins <? 1)%Z then "just now"
      else if (diffMins <? 60)%Z then
        string_of_list_ascii (Js.digits (Z.to_N diffMins)) ++ " min ago"
      else if (diffMins <? 1440)%Z then
        string_of_list_ascii (Js.digits (Z.to_N (diffMins / 60))) ++ " hr ago"
      else Host.toLocaleDateString h (Some date)
  end.

Definition isEnergyChannel (c : Channel.t) : bool :=
  channelNamed "EnergyProductionTotal" c
  || channelNamed "EnergyProduction" c
  || channelNamed "EnergyDay" c.

Definition extractDailyEnergy
    (aggrData : option AggregatedDataResponse.t) : string :=
  match aggrData with
  | None => "0 kWh"
  | Some a =>
      match AggregatedDataResponse.data a with
      | [] => "0 kWh"
      | row0 :: _ =>
          match Js.find isEnergyChannel (AggregatedDataResponse.channels row0)
          with
          | Some energyChannel =>
              match Channel.value energyChannel with
              | Channel.null => "0 kWh"
              | Channel.number energyValue =>
                  Js.toFixed 1 (Js.div energyValue 1000) ++ " kWh"
              | Channel.undefined => "NaN" ++ " kWh"
              end
          | None => "0 kWh"
          end
      end
  end.

Definition flowLogDateTime (flowData : option FlowDataResponse.t)
  : option string :=
  match flowData with
  | None => None
  | Some fd =>
      match FlowDataResponse.data fd with
      | None => None
      | Some d => FlowDataResponse.logDateTime d
      end
  end.

Definition formatPvSystemData (h : Host.t)
    (system : PvSystemMetadata.t)
    (flowData : option FlowDataResponse.t)
    (aggrToday : option AggregatedDataResponse.t) : EnhancedPvSystem.t :=
  let address := formatAddress (PvSystemMetadata.address system) in
  let status := determineStatus flowData in
  let power := extractPower flowData in
  let daily := extractDailyEnergy aggrToday in
  EnhancedPvSystem.mk
    (PvSystemMetadata.pvSystemId system)
    (PvSystemMetadata.name system)
    address
    status
    power
    daily
    (formatLastUpdated h
       (Js.or_string (flowLogDateTime flowData)
          (PvSystemMetadata.lastImport system)))
    (PvSystemMetadata.pictureURL system)
    (PvSystemMetadata.peakPower system)
    (Status_eqb status online).

Definition formatBasicSystemData (system : PvSystemMetadata.t)
  : BasicPvSystem.t :=
  BasicPvSystem.mk
    (PvSystemMetadata.pvSystemId system)
    (PvSystemMetadata.name system)
    (formatAddress (PvSystemMetadata.address system))
    (PvSystemMetadata.pictureURL system).

(** *** The component's state *)

Record State : Type := mkState {
  refreshing : bool;
  pvSystems : list EnhancedPvSystem.t;
  filteredSystems : list EnhancedPvSystem.t;
  searchQuery : string;
  loading : bool;
  error : option string;
  totalSystems : nat;
  currentPage : nat;
  hasMorePages : bool;
  isLoadingMore : bool;
  allSystemsBasicInfo : list BasicPvSystem.t;
  isSearching : bool;
  isLoadingAllSystems : bool }.

(** The state of the first render. *)
Definition initial : State :=
  mkState false [] [] "" true None 0 0 true false [] false true.

Definition setRefreshing v (s : State) :=
  mkState v (pvSystems s) (filteredSystems s) (searchQuery s) (loading s)
    (error s) (totalSystems s) (currentPage s) (hasMorePages s)
    (isLoadingMore s) (allSystemsBasicInfo s) (isSearching s)
    (isLoadingAllSystems s).
Definition setPvSystems v (s : State) :=
  mkState (refreshing s) v (filteredSystems s) (searchQuery s) (loading s)
    (error s) (totalSystems s) (currentPage s) (hasMorePages s)
    (isLoadingMore s) (allSystemsBasicInfo s) (isSearching s)
    (isLoadingAllSystems s).
Definition setFilteredSystems v (s : State) :=
  mkState (refreshing s) (pvSystems s) v (searchQuery s) (loading s)
    (error s) (totalSystems s) (currentPage s) (hasMorePages s)
    (isLoadingMore s) (allSystemsBasicInfo s) (isSearching s)
    (isLoadingAllSystems s).
Definition setSearchQuery v (s : State) :=
  mkState (refreshing s) (pvSystems s) (filteredSystems s) v (loading s)
    (error s) (totalSystems s) (currentPage s) (hasMorePages s)
    (isLoadingMore s) (allSystemsBasicInfo s) (isSearching s)
    (isLoadingAllSystems s).
Definition setLoading v (s : State) :=
  mkState (refreshing s) (pvSystems s) (filteredSystems s) (searchQuery s) v
    (error s) (totalSystems s) (currentPage s) (hasMorePages s)
    (isLoadingMore s) (allSystemsBasicInfo s) (isSearching s)
    (isLoadingAllSystems s).
Definition setError v (s : State) :=
  mkState (refreshing s) (pvSystems s) (filteredSystems s) (searchQuery s)
    (loading s) v (totalSystems s) (currentPage s) (hasMorePages s)
    (isLoadingMore s) (allSystemsBasicInfo s) (isSearching s)
    (isLoadingAllSystems s).
Definition setTotalSystems v (s : State) :=
  mkState (refreshing s) (pvSystems s) (filteredSystems s) (searchQuery s)
    (loading s) (error s) v (currentPage s) (hasMorePages s)
    (isLoadingMore s) (allSystemsBasicInfo s) (isSearching s)
    (isLoadingAllSystems s).
Definition setCurrentPage v (s : State) :=
  mkState (refreshing s) (pvSystems s) (filteredSystems s) (searchQuery s)
    (loading s) (error s) (totalSystems s) v (hasMorePages s)
    (isLoadingMore s) (allSystemsBasicInfo s) (isSearching s)
    (isLoadingAllSystems s).
Definition setHasMorePages v (s : State) :=
  mkState (refreshing s) (pvSystems s) (filteredSystems s) (searchQuery s)
    (loading s) (error s) (totalSystems s) (currentPage s) v
    (isLoadingMore s) (allSystemsBasicInfo s) (isSearching s)
    (isLoadingAllSystems s).
Definition setIsLoadingMore v (s : State) :=
  mkState (refreshing s) (pvSystems s) (filteredSystems s) (searchQuery s)
    (loading s) (error s) (totalSystems s) (currentPage s) (hasMorePages s)
    v (allSystemsBasicInfo s) (isSearching s) (isLoadingAllSystems s).
Definition setAllSystemsBasicInfo v (s : State) :=
  mkState (refreshing s) (pvSystems s) (filteredSystems s) (searchQuery s)
    (loading s) (error s) (totalSystems s) (currentPage s) (hasMorePages s)
    (isLoadingMore s) v (isSearching s) (isLoadingAllSystems s).
Definition setIsSearching v (s : State) :=
  mkState (refreshing s) (pvSystems s) (filteredSystems s) (searchQuery s)
    (loading s) (error s) (totalSystems s) (currentPage s) (hasMorePages s)
    (isLoadingMore s) (allSystemsBasicInfo s) v (isLoadingAllSystems s).
Definition setIsLoadingAllSystems v (s : State) :=
  mkState (refreshing s) (pvSystems s) (filteredSystems s) (searchQuery s)
    (loading s) (error s) (totalSystems s) (currentPage s) (hasMorePages s)
    (isLoadingMore s) (allSystemsBasicInfo s) (isSearching s) v.

(** The list the [FlatList] shows. *)
Definition displayed (s : State) : list EnhancedPvSystem.t :=
  filteredSystems s.

(** A request for a slice of the systems list leaving the screen. *)
Inductive Request : Type :=
| GetPvSystems (offset limit : nat).

(** *** Search *)

Definition matchesBasic (lowercaseQuery : string) (system : BasicPvSystem.t)
  : bool :=
  Js.includes (Js.toLowerCase (BasicPvSystem.name system)) lowercaseQuery
  || Js.includes (Js.toLowerCase (BasicPvSystem.id system)) lowercaseQuery
  || Js.includes (Js.toLowerCase (BasicPvSystem.address system)) lowercaseQuery.

Definition matchesEnhanced (lowercaseQuery : string)
    (system : EnhancedPvSystem.t) : bool :=
  Js.includes (Js.toLowerCase (EnhancedPvSystem.name system)) lowercaseQuery
  || Js.includes (Js.toLowerCase (EnhancedPvSystem.id system)) lowercaseQuery
  || Js.includes (Js.toLowerCase (EnhancedPvSystem.address system))
       lowercaseQuery.

(** The record the [catch] of a search result builds. *)
Definition partialSystem (basicSystem : BasicPvSystem.t) : EnhancedPvSystem.t :=
  EnhancedPvSystem.mk
    (BasicPvSystem.id basicSystem)
    (BasicPvSystem.name basicSystem)
    (BasicPvSystem.address basicSystem)
    offline
    "0 kW"
    "0 kWh"
    "unknown"
    (BasicPvSystem.pictureURL basicSystem)
    None
    false.

(** The body mapped over [systemsToLoad]: the three awaits are in one [try],
    a rejection of any of them goes to the [catch]. *)
Definition enrichSearchResult (r : Remote.t) (h : Host.t)
    (pvSystems : list EnhancedPvSystem.t) (basicSystem : BasicPvSystem.t)
  : EnhancedPvSystem.t :=
  let id := BasicPvSystem.id basicSystem in
  match Js.find (fun sys => String.eqb (EnhancedPvSystem.id sys) id) pvSystems
  with
  | Some existingSystem => existingSystem
  | None =>
      match Remote.getPvSystemFlowData r id with
      | Rejected _ => partialSystem basicSystem
      | Fulfilled flowData =>
          match Remote.getPvSystemDetails r id with
          | Rejected _ => partialSystem basicSystem
          | Fulfilled fullSystemData =>
              match Remote.getPvSystemAggregatedData r id with
              | Rejected _ => partialSystem basicSystem
              | Fulfilled aggrToday =>
                  formatPvSystemData h fullSystemData flowData (Some aggrToday)
              end
          end
      end
  end.

(** [applySearchFilter(query)], called in a render whose state was [cl] and
    writing to the current state [st]. *)
Definition applySearchFilter (r : Remote.t) (h : Host.t) (cl : State)
    (query : string) (st : State) : State :=
  let st := setIsSearching true st in
  if negb (Js.truthy (Js.trim query)) then
    setFilteredSystems (pvSystems cl) (setIsSearching false st)
  else
    let lowercaseQuery := Js.toLowerCase query in
    let matchedBasicSystems :=
      filter (matchesBasic lowercaseQuery) (allSystemsBasicInfo cl) in
    if (length matchedBasicSystems =? 0)%nat then
      setIsSearching false (setFilteredSystems [] st)
    else
      let systemsToLoad := Js.slice0 20 matchedBasicSystems in
      let enhancedMatchedSystems :=
        map (enrichSearchResult r h (pvSystems cl)) systemsToLoad in
      setIsSearching false (setFilteredSystems enhancedMatchedSystems st).

(** The effect on [searchQuery, allSystemsBasicInfo]. *)
Definition searchEffect (r : Remote.t) (h : Host.t) (st : State) : State :=
  if (0 <? length (allSystemsBasicInfo st))%nat then
    applySearchFilter r h st (searchQuery st) st
  else if (0 <? length (pvSystems st))%nat then
    let lowercaseQuery := Js.toLowerCase (searchQuery st) in
    let filtered := filter (matchesEnhanced lowercaseQuery) (pvSystems st) in
    setFilteredSystems filtered st
  else st.

(** [onChangeText] of the search field: the effect runs when the query
    differs from the one before. *)
Definition typeQuery (r : Remote.t) (h : Host.t) (q : string) (st : State)
  : State :=
  if String.eqb q (searchQuery st) then st
  else searchEffect r h (setSearchQuery q st).

(** *** Loading a page *)

(** The body mapped over [systemsData]: [flowData] and [aggrToday] start as
    [null] and keep what was assigned before a rejection. *)
Definition enrichPageItem (r : Remote.t) (h : Host.t)
    (system : PvSystemMetadata.t) : EnhancedPvSystem.t :=
  let id := PvSystemMetadata.pvSystemId system in
  match Remote.getPvSystemFlowData r id with
  | Rejected _ => formatPvSystemData h system None None
  | Fulfilled flowData =>
      match Remote.getPvSystemAggregatedData r id with
      | Rejected _ => formatPvSystemData h system flowData None
      | Fulfilled aggrToday =>
          formatPvSystemData h system flowData (Some aggrToday)
      end
  end.

(** The comparator given to [sort]. *)
Definition compareSystems (h : Host.t) (a b : EnhancedPvSystem.t) : Z :=
  if EnhancedPvSystem.isActive a && negb (EnhancedPvSystem.isActive b)
  then (-1)%Z
  else if negb (EnhancedPvSystem.isActive a) && EnhancedPvSystem.isActive b
  then 1%Z
  else Host.localeCompare h (EnhancedPvSystem.name a) (EnhancedPvSystem.name b).

(** [loadPvSystemsPage(page, showLoading)] up to its first [await]. *)
Definition loadPvSystemsPage_begin (page : nat) (showLoading : bool)
    (st : State) : State * list Request :=
  let st :=
    if showLoading then
      if (page =? 0)%nat then setLoading true st else setIsLoadingMore true st
    else st in
  let offset := page * SYSTEMS_PER_PAGE in
  (st, [GetPvSystems offset SYSTEMS_PER_PAGE]).

(** [loadPvSystemsPage] after [getPvSystems] settled with [fetched]; [cl] is
    the state of the render that made the call. *)
Definition loadPvSystemsPage_resume (r : Remote.t) (h : Host.t) (cl : State)
    (page : nat) (fetched : Settled (option (list PvSystemMetadata.t)))
    (st : State) : State :=
  match fetched with
  | Rejected _ =>
      setIsLoadingMore false
        (setLoading false
           (setError (Some "Failed to load PV systems. Please try again.") st))
  | Fulfilled None | Fulfilled (Some []) =>
      let st :=
        if (page =? 0)%nat then setError (Some "No PV systems found") st
        else st in
      setIsLoadingMore false (setLoading false (setHasMorePages false st))
  | Fulfilled (Some systemsData) =>
      let st :=
        setHasMorePages (length systemsData =? SYSTEMS_PER_PAGE)%nat st in
      let enhancedSystems := map (enrichPageItem r h) systemsData in
      let sortedSystems := Js.sort (compareSystems h) enhancedSystems in
      let st :=
        setPvSystems
          (if (page =? 0)%nat then sortedSystems
           else pvSystems st ++ sortedSystems)%list st in
      let st :=
        if Js.truthy (Js.trim (searchQuery cl)) then
          applySearchFilter r h cl (searchQuery cl) st
        else
          setFilteredSystems
            (if (page =? 0)%nat then sortedSystems
             else filteredSystems st ++ sortedSystems)%list st in
      setIsLoadingMore false (setLoading false (setCurrentPage page st))
  end.

(** [handleLoadMore]: the call of [loadPvSystemsPage] it makes, if any. *)
Definition handleLoadMore (st : State) : option (nat * bool) :=
  if negb (isLoadingMore st) && hasMorePages st
     && negb (Js.truthy (Js.trim (searchQuery st)))
  then Some (currentPage st + 1, false)
  else None.

(** [onRefresh] up to the first [await] of the page load it starts. *)
Definition onRefresh_begin (st : State) : State * list Request :=
  loadPvSystemsPage_begin 0 false
    (setHasMorePages true (setCurrentPage 0 (setRefreshing true st))).

(** [loadAllSystemsBasicInfo] after [getPvSystems(0, 1000)] settled. *)
Definition loadAllSystemsBasicInfo_resume
    (fetched : Settled (option (list PvSystemMetadata.t))) (st : State)
  : State :=
  match fetched with
  | Rejected _ | Fulfilled None | Fulfilled (Some []) =>
      setIsLoadingAllSystems false st
  | Fulfilled (Some allSystemsData) =>
      let basicSystemsInfo := map formatBasicSystemData allSystemsData in
      setIsLoadingAllSystems false
        (setTotalSystems (length basicSystemsInfo)
           (setAllSystemsBasicInfo basicSystemsInfo st))
  end.

(** *** The screen with its page loads in flight *)

(** A page load that has not settled: the page it asked for, the state of
    the render that called [loadPvSystemsPage], and whether [onRefresh]
    made the call. *)
Record Pending : Type := mkPending {
  page : nat;
  closure : State;
  viaRefresh : bool }.

Record Screen : Type := mkScreen { ui : State; inflight : list Pending }.

Definition call_loadPvSystemsPage (p : nat) (showLoading : bool)
    (sc : Screen) : Screen :=
  let (st, _) := loadPvSystemsPage_begin p showLoading (ui sc) in
  mkScreen st (inflight sc ++ [mkPending p (ui sc) false])%list.

(** The first effect of the component. *)
Definition mount : Screen :=
  call_loadPvSystemsPage 0 true (mkScreen initial []).

(** [onEndReached] of the list, and the press of the footer's button. *)
Definition onEndReached (sc : Screen) : Screen :=
  match handleLoadMore (ui sc) with
  | Some (p, showLoading) => call_loadPvSystemsPage p showLoading sc
  | None => sc
  end.

(** [onRefresh] is memoised with no dependencies: the [loadPvSystemsPage] it
    calls is the one of the first render. *)
Definition onRefresh (sc : Screen) : Screen :=
  let (st, _) := onRefresh_begin (ui sc) in
  mkScreen st (inflight sc ++ [mkPending 0 initial true])%list.

(** The oldest page load in flight settles. *)
Definition settle (r : Remote.t) (h : Host.t)
    (fetched : Settled (option (list PvSystemMetadata.t))) (sc : Screen)
  : Screen :=
  match inflight sc with
  | [] => sc
  | p :: rest =>
      let st :=
        loadPvSystemsPage_resume r h (closure p) (page p) fetched (ui sc) in
      mkScreen (if viaRefresh p then setRefreshing false st else st) rest
  end.

(** The directory load settles; a new directory makes the search effect run
    again. *)
Definition directoryLoaded (r : Remote.t) (h : Host.t)
    (fetched : Settled (option (list PvSystemMetadata.t))) (sc : Screen)
  : Screen :=
  let st := loadAllSystemsBasicInfo_resume fetched (ui sc) in
  match fetched with
  | Fulfilled (Some (_ :: _)) => mkScreen (searchEffect r h st) (inflight sc)
  | _ => mkScreen st (inflight sc)
  end.

Inductive Event : Type :=
| EndReached
| Refreshed
| Typed (q : string)
| PageSettled (fetched : Settled (option (list PvSystemMetadata.t)))
| DirectorySettled (fetched : Settled (option (list PvSystemMetadata.t))).

Definition step (r : Remote.t) (h : Host.t) (ev : Event) (sc : Screen)
  : Screen :=
  match ev with
  | EndReached => onEndReached sc
  | Refreshed => onRefresh sc
  | Typed q => mkScreen (typeQuery r h q (ui sc)) (inflight sc)
  | PageSettled fetched => settle r h fetched sc
  | DirectorySettled fetched => directoryLoaded r h fetched sc
  end.

(** A run of the screen from its mount. *)
Definition run (r : Remote.t) (h : Host.t) (evs : list Event) : Screen :=
  fold_left (fun sc ev => step r h ev sc) evs mount.

(** The pages the loads in flight ask for. *)
Definition pagesInFlight (sc : Screen) : list nat := map page (inflight sc).

End Dashboard.

(** ** The detail screen ([PvSystemDetailScreen]) *)

Module Detail.

Inductive Period : Type := day | week | month | year.
Inductive DashboardPeriod : Type := dp_today | dp_week | dp_month | dp_year.
Inductive SystemStatus : Type := online | offline | warning.

(** [findChannelValue]: the value of the first channel of that name; [null]
    for no channel list, no such channel, or a [null] value. *)
Definition findChannelValue (channels : option (list Channel.t))
    (channelName : string) : option Q :=
  match channels with
  | None => None
  | Some cs =>
      match Js.find (fun c => String.eqb (Channel.channelName c) channelName) cs
      with
      | Some c => Channel.orNull (Channel.value c)
      | None => None
      end
  end.

(** *** The component's state *)

Record State : Type := mkState {
  refreshing : bool;
  hasAccess : option bool;
  isAdmin : bool;
  checkingAccess : bool;
  pvSystemDetails : option PvSystemMetadata.t;
  flowData : option FlowDataResponse.t;
  aggregatedDataToday : option AggregatedDataResponse.t;
  aggregatedDataTotal : option AggregatedDataResponse.t;
  weatherData : option CurrentWeatherResponse.t;
  messages : list SystemMessage.t;
  devices : list DeviceMetadata.t;
  loading : bool;
  error : option string;
  demoMode : bool;
  energyHistData : option HistoricalDataResponse.t;
  selectedChartPeriod : Period;
  chartLoading : bool;
  selectedDashboardPeriod : DashboardPeriod;
  weeklyEnergyProduction : option Q;
  monthlyEnergyProduction : option Q;
  yearlyEnergyProduction : option Q;
  dailyCo2Savings : option Q;
  weeklyCo2Savings : option Q;
  monthlyCo2Savings : option Q;
  yearlyCo2Savings : option Q }.

(** The state of the first render. *)
Definition initial : State :=
  mkState false None false true None None None None None [] [] true None false
    None day false dp_today None None None None None None None.

Definition setRefreshing (v : bool) (s : State) : State :=
  mkState
    v (hasAccess s) (isAdmin s) (checkingAccess s) (pvSystemDetails s)
    (flowData s) (aggregatedDataToday s) (aggregatedDataTotal s)
    (weatherData s) (messages s) (devices s) (loading s) (error s)
    (demoMode s) (energyHistData s) (selectedChartPeriod s)
    (chartLoading s) (selectedDashboardPeriod s) (weeklyEnergyProduction s)
    (monthlyEnergyProduction s) (yearlyEnergyProduction s)
    (dailyCo2Savings s) (weeklyCo2Savings s) (monthlyCo2Savings s)
    (yearlyCo2Savings s).
Definition setHasAccess (v : option bool) (s : State) : State :=
  mkState
    (refreshing s) v (isAdmin s) (checkingAccess s) (pvSystemDetails s)
    (flowData s) (aggregatedDataToday s) (aggregatedDataTotal s)
    (weatherData s) (messages s) (devices s) (loading s) (error s)
    (demoMode s) (energyHistData s) (selectedChartPeriod s)
    (chartLoading s) (selectedDashboardPeriod s) (weeklyEnergyProduction s)
    (monthlyEnergyProduction s) (yearlyEnergyProduction s)
    (dailyCo2Savings s) (weeklyCo2Savings s) (monthlyCo2Savings s)
    (yearlyCo2Savings s).
Definition setIsAdmin (v : bool) (s : State) : State :=
  mkState
    (refreshing s) (hasAccess s) v (checkingAccess s) (pvSystemDetails s)
    (flowData s) (aggregatedDataToday s) (aggregatedDataTotal s)
    (weatherData s) (messages s) (devices s) (loading s) (error s)
    (demoMode s) (energyHistData s) (selectedChartPeriod s)
    (chartLoading s) (selectedDashboardPeriod s) (weeklyEnergyProduction s)
    (monthlyEnergyProduction s) (yearlyEnergyProduction s)
    (dailyCo2Savings s) (weeklyCo2Savings s) (monthlyCo2Savings s)
    (yearlyCo2Savings s).
Definition setCheckingAccess (v : bool) (s : State) : State :=
  mkState
    (refreshing s) (hasAccess s) (isAdmin s) v (pvSystemDetails s)
    (flowData s) (aggregatedDataToday s) (aggregatedDataTotal s)
    (weatherData s) (messages s) (devices s) (loading s) (error s)
    (demoMode s) (energyHistData s) (selectedChartPeriod s)
    (chartLoading s) (selectedDashboardPeriod s) (weeklyEnergyProduction s)
    (monthlyEnergyProduction s) (yearlyEnergyProduction s)
    (dailyCo2Savings s) (weeklyCo2Savings s) (monthlyCo2Savings s)
    (yearlyCo2Savings s).
Definition setPvSystemDetails (v : option PvSystemMetadata.t)
    (s : State) : State :=
  mkState
    (refreshing s) (hasAccess s) (isAdmin s) (checkingAccess s) v
    (flowData s) (aggregatedDataToday s) (aggregatedDataTotal s)
    (weatherData s) (messages s) (devices s) (loading s) (error s)
    (demoMode s) (energyHistData s) (selectedChartPeriod s)
    (chartLoading s) (selectedDashboardPeriod s) (weeklyEnergyProduction s)
    (monthlyEnergyProduction s) (yearlyEnergyProduction s)
    (dailyCo2Savings s) (weeklyCo2Savings s) (monthlyCo2Savings s)
    (yearlyCo2Savings s).
Definition setFlowData (v : option FlowDataResponse.t) (s : State) : State :=
  mkState
    (refreshing s) (hasAccess s) (isAdmin s) (checkingAccess s)
    (pvSystemDetails s) v (aggregatedDataToday s) (aggregatedDataTotal s)
    (weatherData s) (messages s) (devices s) (loading s) (error s)
    (demoMode s) (energyHistData s) (selectedChartPeriod s)
    (chartLoading s) (selectedDashboardPeriod s) (weeklyEnergyProduction s)
    (monthlyEnergyProduction s) (yearlyEnergyProduction s)
    (dailyCo2Savings s) (weeklyCo2Savings s) (monthlyCo2Savings s)
    (yearlyCo2Savings s).
Definition setAggregatedDataToday (v : option AggregatedDataResponse.t)
    (s : State) : State :=
  mkState
    (refreshing s) (hasAccess s) (isAdmin s) (checkingAccess s)
    (pvSystemDetails s) (flowData s) v (aggregatedDataTotal s)
    (weatherData s) (messages s) (devices s) (loading s) (error s)
    (demoMode s) (energyHistData s) (selectedChartPeriod s)
    (chartLoading s) (selectedDashboardPeriod s) (weeklyEnergyProduction s)
    (monthlyEnergyProduction s) (yearlyEnergyProduction s)
    (dailyCo2Savings s) (weeklyCo2Savings s) (monthlyCo2Savings s)
    (yearlyCo2Savings s).
Definition setAggregatedDataTotal (v : option AggregatedDataResponse.t)
    (s : State) : State :=
  mkState
    (refreshing s) (hasAccess s) (isAdmin s) (checkingAccess s)
    (pvSystemDetails s) (flowData s) (aggregatedDataToday s) v
    (weatherData s) (messages s) (devices s) (loading s) (error s)
    (demoMode s) (energyHistData s) (selectedChartPeriod s)
    (chartLoading s) (selectedDashboardPeriod s) (weeklyEnergyProduction s)
    (monthlyEnergyProduction s) (yearlyEnergyProduction s)
    (dailyCo2Savings s) (weeklyCo2Savings s) (monthlyCo2Savings s)
    (yearlyCo2Savings s).
Definition setWeatherData (v : option CurrentWeatherResponse.t)
    (s : State) : State :=
  mkState
    (refreshing s) (hasAccess s) (isAdmin s) (checkingAccess s)
    (pvSystemDetails s) (flowData s) (aggregatedDataToday s)
    (aggregatedDataTotal s) v (messages s) (devices s) (loading s)
    (error s) (demoMode s) (energyHistData s) (selectedChartPeriod s)
    (chartLoading s) (selectedDashboardPeriod s) (weeklyEnergyProduction s)
    (monthlyEnergyProduction s) (yearlyEnergyProduction s)
    (dailyCo2Savings s) (weeklyCo2Savings s) (monthlyCo2Savings s)
    (yearlyCo2Savings s).
Definition setMessages (v : list SystemMessage.t) (s : State) : State :=
  mkState
    (refreshing s) (hasAccess s) (isAdmin s) (checkingAccess s)
    (pvSystemDetails s) (flowData s) (aggregatedDataToday s)
    (aggregatedDataTotal s) (weatherData s) v (devices s) (loading s)
    (error s) (demoMode s) (energyHistData s) (selectedChartPeriod s)
    (chartLoading s) (selectedDashboardPeriod s) (weeklyEnergyProduction s)
    (monthlyEnergyProduction s) (yearlyEnergyProduction s)
    (dailyCo2Savings s) (weeklyCo2Savings s) (monthlyCo2Savings s)
    (yearlyCo2Savings s).
Definition setDevices (v : list DeviceMetadata.t) (s : State) : State :=
  mkState
    (refreshing s) (hasAccess s) (isAdmin s) (checkingAccess s)
    (pvSystemDetails s) (flowData s) (aggregatedDataToday s)
    (aggregatedDataTotal s) (weatherData s) (messages s) v (loading s)
    (error s) (demoMode s) (energyHistData s) (selectedChartPeriod s)
    (chartLoading s) (selectedDashboardPeriod s) (weeklyEnergyProduction s)
    (monthlyEnergyProduction s) (yearlyEnergyProduction s)
    (dailyCo2Savings s) (weeklyCo2Savings s) (monthlyCo2Savings s)
    (yearlyCo2Savings s).
Definition setLoading (v : bool) (s : State) : State :=
  mkState
    (refreshing s) (hasAccess s) (isAdmin s) (checkingAccess s)
    (pvSystemDetails s) (flowData s) (aggregatedDataToday s)
    (aggregatedDataTotal s) (weatherData s) (messages s) (devices s) v
    (error s) (demoMode s) (energyHistData s) (selectedChartPeriod s)
    (chartLoading s) (selectedDashboardPeriod s) (weeklyEnergyProduction s)
    (monthlyEnergyProduction s) (yearlyEnergyProduction s)
    (dailyCo2Savings s) (weeklyCo2Savings s) (monthlyCo2Savings s)
    (yearlyCo2Savings s).
Definition setError (v : option string) (s : State) : State :=
  mkState
    (refreshing s) (hasAccess s) (isAdmin s) (checkingAccess s)
    (pvSystemDetails s) (flowData s) (aggregatedDataToday s)
    (aggregatedDataTotal s) (weatherData s) (messages s) (devices s)
    (loading s) v (demoMode s) (energyHistData s) (selectedChartPeriod s)
    (chartLoading s) (selectedDashboardPeriod s) (weeklyEnergyProduction s)
    (monthlyEnergyProduction s) (yearlyEnergyProduction s)
    (dailyCo2Savings s) (weeklyCo2Savings s) (monthlyCo2Savings s)
    (yearlyCo2Savings s).
Definition setDemoMode (v : bool) (s : State) : State :=
  mkState
    (refreshing s) (hasAccess s) (isAdmin s) (checkingAccess s)
    (pvSystemDetails s) (flowData s) (aggregatedDataToday s)
    (aggregatedDataTotal s) (weatherData s) (messages s) (devices s)
    (loading s) (error s) v (energyHistData s) (selectedChartPeriod s)
    (chartLoading s) (selectedDashboardPeriod s) (weeklyEnergyProduction s)
    (monthlyEnergyProduction s) (yearlyEnergyProduction s)
    (dailyCo2Savings s) (weeklyCo2Savings s) (monthlyCo2Savings s)
    (yearlyCo2Savings s).
Definition setEnergyHistData (v : option HistoricalDataResponse.t)
    (s : State) : State :=
  mkState
    (refreshing s) (hasAccess s) (isAdmin s) (checkingAccess s)
    (pvSystemDetails s) (flowData s) (aggregatedDataToday s)
    (aggregatedDataTotal s) (weatherData s) (messages s) (devices s)
    (loading s) (error s) (demoMode s) v (selectedChartPeriod s)
    (chartLoading s) (selectedDashboardPeriod s) (weeklyEnergyProduction s)
    (monthlyEnergyProduction s) (yearlyEnergyProduction s)
    (dailyCo2Savings s) (weeklyCo2Savings s) (monthlyCo2Savings s)
    (yearlyCo2Savings s).
Definition setSelectedChartPeriod (v : Period) (s : State) : State :=
  mkState
    (refreshing s) (hasAccess s) (isAdmin s) (checkingAccess s)
    (pvSystemDetails s) (flowData s) (aggregatedDataToday s)
    (aggregatedDataTotal s) (weatherData s) (messages s) (devices s)
    (loading s) (error s) (demoMode s) (energyHistData s) v
    (chartLoading s) (selectedDashboardPeriod s) (weeklyEnergyProduction s)
    (monthlyEnergyProduction s) (yearlyEnergyProduction s)
    (dailyCo2Savings s) (weeklyCo2Savings s) (monthlyCo2Savings s)
    (yearlyCo2Savings s).
Definition setChartLoading (v : bool) (s : State) : State :=
  mkState
    (refreshing s) (hasAccess s) (isAdmin s) (checkingAccess s)
    (pvSystemDetails s) (flowData s) (aggregatedDataToday s)
    (aggregatedDataTotal s) (weatherData s) (messages s) (devices s)
    (loading s) (error s) (demoMode s) (energyHistData s)
    (selectedChartPeriod s) v (selectedDashboardPeriod s)
    (weeklyEnergyProduction s) (monthlyEnergyProduction s)
    (yearlyEnergyProduction s) (dailyCo2Savings s) (weeklyCo2Savings s)
    (monthlyCo2Savings s) (yearlyCo2Savings s).
Definition setSelectedDashboardPeriod (v : DashboardPeriod)
    (s : State) : State :=
  mkState
    (refreshing s) (hasAccess s) (isAdmin s) (checkingAccess s)
    (pvSystemDetails s) (flowData s) (aggregatedDataToday s)
    (aggregatedDataTotal s) (weatherData s) (messages s) (devices s)
    (loading s) (error s) (demoMode s) (energyHistData s)
    (selectedChartPeriod s) (chartLoading s) v (weeklyEnergyProduction s)
    (monthlyEnergyProduction s) (yearlyEnergyProduction s)
    (dailyCo2Savings s) (weeklyCo2Savings s) (monthlyCo2Savings s)
    (yearlyCo2Savings s).
Definition setWeeklyEnergyProduction (v : option Q) (s : State) : State :=
  mkState
    (refreshing s) (hasAccess s) (isAdmin s) (checkingAccess s)
    (pvSystemDetails s) (flowData s) (aggregatedDataToday s)
    (aggregatedDataTotal s) (weatherData s) (messages s) (devices s)
    (loading s) (error s) (demoMode s) (energyHistData s)
    (selectedChartPeriod s) (chartLoading s) (selectedDashboardPeriod s) v
    (monthlyEnergyProduction s) (yearlyEnergyProduction s)
    (dailyCo2Savings s) (weeklyCo2Savings s) (monthlyCo2Savings s)
    (yearlyCo2Savings s).
Definition setMonthlyEnergyProduction (v : option Q) (s : State) : State :=
  mkState
    (refreshing s) (hasAccess s) (isAdmin s) (checkingAccess s)
    (pvSystemDetails s) (flowData s) (aggregatedDataToday s)
    (aggregatedDataTotal s) (weatherData s) (messages s) (devices s)
    (loading s) (error s) (demoMode s) (energyHistData s)
    (selectedChartPeriod s) (chartLoading s) (selectedDashboardPeriod s)
    (weeklyEnergyProduction s) v (yearlyEnergyProduction s)
    (dailyCo2Savings s) (weeklyCo2Savings s) (monthlyCo2Savings s)
    (yearlyCo2Savings s).
Definition setYearlyEnergyProduction (v : option Q) (s : State) : State :=
  mkState
    (refreshing s) (hasAccess s) (isAdmin s) (checkingAccess s)
    (pvSystemDetails s) (flowData s) (aggregatedDataToday s)
    (aggregatedDataTotal s) (weatherData s) (messages s) (devices s)
    (loading s) (error s) (demoMode s) (energyHistData s)
    (selectedChartPeriod s) (chartLoading s) (selectedDashboardPeriod s)
    (weeklyEnergyProduction s) (monthlyEnergyProduction s) v
    (dailyCo2Savings s) (weeklyCo2Savings s) (monthlyCo2Savings s)
    (yearlyCo2Savings s).
Definition setDailyCo2Savings (v : option Q) (s : State) : State :=
  mkState
    (refreshing s) (hasAccess s) (isAdmin s) (checkingAccess s)
    (pvSystemDetails s) (flowData s) (aggregatedDataToday s)
    (aggregatedDataTotal s) (weatherData s) (messages s) (devices s)
    (loading s) (error s) (demoMode s) (energyHistData s)
    (selectedChartPeriod s) (chartLoading s) (selectedDashboardPeriod s)
    (weeklyEnergyProduction s) (monthlyEnergyProduction s)
    (yearlyEnergyProduction s) v (weeklyCo2Savings s) (monthlyCo2Savings s)
    (yearlyCo2Savings s).
Definition setWeeklyCo2Savings (v : option Q) (s : State) : State :=
  mkState
    (refreshing s) (hasAccess s) (isAdmin s) (checkingAccess s)
    (pvSystemDetails s) (flowData s) (aggregatedDataToday s)
    (aggregatedDataTotal s) (weatherData s) (messages s) (devices s)
    (loading s) (error s) (demoMode s) (energyHistData s)
    (selectedChartPeriod s) (chartLoading s) (selectedDashboardPeriod s)
    (weeklyEnergyProduction s) (monthlyEnergyProduction s)
    (yearlyEnergyProduction s) (dailyCo2Savings s) v (monthlyCo2Savings s)
    (yearlyCo2Savings s).
Definition setMonthlyCo2Savings (v : option Q) (s : State) : State :=
  mkState
    (refreshing s) (hasAccess s) (isAdmin s) (checkingAccess s)
    (pvSystemDetails s) (flowData s) (aggregatedDataToday s)
    (aggregatedDataTotal s) (weatherData s) (messages s) (devices s)
    (loading s) (error s) (demoMode s) (energyHistData s)
    (selectedChartPeriod s) (chartLoading s) (selectedDashboardPeriod s)
    (weeklyEnergyProduction s) (monthlyEnergyProduction s)
    (yearlyEnergyProduction s) (dailyCo2Savings s) (weeklyCo2Savings s) v
    (yearlyCo2Savings s).
Definition setYearlyCo2Savings (v : option Q) (s : State) : State :=
  mkState
    (refreshing s) (hasAccess s) (isAdmin s) (checkingAccess s)
    (pvSystemDetails s) (flowData s) (aggregatedDataToday s)
    (aggregatedDataTotal s) (weatherData s) (messages s) (devices s)
    (loading s) (error s) (demoMode s) (energyHistData s)
    (selectedChartPeriod s) (chartLoading s) (selectedDashboardPeriod s)
    (weeklyEnergyProduction s) (monthlyEnergyProduction s)
    (yearlyEnergyProduction s) (dailyCo2Savings s) (weeklyCo2Savings s)
    (monthlyCo2Savings s) v.

(** *** The session collaborator ([@/utils/auth]) *)

Module User.
Record t : Type := mk { id : string; role : string }.
End User.

Module Auth.
Record t : Type := mk { hasSystemAccess : string -> string -> bool }.
End Auth.

(** *** Requests *)

Inductive From : Type := today | weekFromDate | monthFromDate | yearFromDate.

Inductive AggrQuery : Type :=
| ByDuration (from : From) (duration : nat) (channel : option string)
| ByPeriodTotal (channel : string).

Inductive Request : Type :=
| GetPvSystemDetails (id : string)
| GetPvSystemFlowData (id : string)
| GetPvSystemAggregatedData (id : string) (q : AggrQuery)
| GetCurrentWeather (id : string)
| GetPvSystemMessages (id : string) (stateseverity : string) (limit : nat)
| GetPvSystemDevices (id : string)
| GetPvSystemHistoricalData (id : string) (channel : string).

(** The route parameter is usable when it is a non-empty string. *)
Definition validId (pvSystemId : option string) : option string :=
  match pvSystemId with
  | Some id => if Js.truthy id then Some id else None
  | None => None
  end.

(** *** The access check *)

(** [checkAccess] up to its [await]; without a route parameter it returns at
    once and its [finally] runs. *)
Definition checkAccess_begin (pvSystemId : option string) (st : State)
  : State :=
  let st := setCheckingAccess true st in
  match validId pvSystemId with
  | None => setCheckingAccess false st
  | Some _ => st
  end.

(** [checkAccess] after [getCurrentUser] settled. *)
Definition checkAccess_settle (auth : Auth.t) (id : string)
    (user : Settled (option User.t)) (st : State) : State :=
  match user with
  | Rejected _ => setCheckingAccess false (setHasAccess (Some false) st)
  | Fulfilled None => setCheckingAccess false (setHasAccess (Some false) st)
  | Fulfilled (Some u) =>
      let st := setIsAdmin (String.eqb (User.role u) "admin") st in
      let access := Auth.hasSystemAccess auth (User.id u) id in
      let st := setHasAccess (Some access) st in
      let st := if negb access then setLoading false st else st in
      setCheckingAccess false st
  end.

(** *** The batch of fetches *)

Definition batchRequests (id : string) : list Request :=
  [ GetPvSystemDetails id;
    GetPvSystemFlowData id;
    GetPvSystemAggregatedData id (ByDuration today 1 None);
    GetPvSystemAggregatedData id
      (ByDuration weekFromDate 7 (Some "EnergyProductionTotal"));
    GetPvSystemAggregatedData id
      (ByDuration monthFromDate 30 (Some "EnergyProductionTotal"));
    GetPvSystemAggregatedData id
      (ByDuration yearFromDate 365 (Some "EnergyProductionTotal"));
    GetPvSystemAggregatedData id (ByDuration today 1 (Some "SavingsCO2"));
    GetPvSystemAggregatedData id (ByDuration weekFromDate 7 (Some "SavingsCO2"));
    GetPvSystemAggregatedData id
      (ByDuration monthFromDate 30 (Some "SavingsCO2"));
    GetPvSystemAggregatedData id
      (ByDuration yearFromDate 365 (Some "SavingsCO2"));
    GetPvSystemAggregatedData id (ByPeriodTotal "SavingsCO2");
    GetCurrentWeather id;
    GetPvSystemMessages id "Error" 10;
    GetPvSystemDevices id ].

(** What [Promise.allSettled] gives back, one result per request. *)
Record Batch : Type := mkBatch {
  details : Settled PvSystemMetadata.t;
  flow : Settled (option FlowDataResponse.t);
  aggrToday : Settled AggregatedDataResponse.t;
  aggrWeek : Settled AggregatedDataResponse.t;
  aggrMonth : Settled AggregatedDataResponse.t;
  aggrYear : Settled AggregatedDataResponse.t;
  aggrCo2Today : Settled AggregatedDataResponse.t;
  aggrCo2Week : Settled AggregatedDataResponse.t;
  aggrCo2Month : Settled AggregatedDataResponse.t;
  aggrCo2Year : Settled AggregatedDataResponse.t;
  aggrTotal : Settled AggregatedDataResponse.t;
  weather : Settled CurrentWeatherResponse.t;
  msgs : Settled (option (list SystemMessage.t));
  devs : Settled (option (list DeviceMetadata.t)) }.

(** The [reduce] over the rows of an aggregate answer.  The additions are
    exact: the rounding of a sum of doubles is not modelled. *)
Definition sumChannel (channelName : string)
    (rows : list AggregatedDataResponse.Row) : Q :=
  fold_left
    (fun total item =>
       let value :=
         findChannelValue (Some (AggregatedDataResponse.channels item))
           channelName in
       (total + Js.or_zero value)%Q)
    rows 0%Q.

(** A setter applied to a fulfilled result, nothing for a rejected one. *)
Definition whenFulfilled {A : Type} (r : Settled A) (f : A -> State -> State)
    (st : State) : State :=
  match r with
  | Fulfilled v => f v st
  | Rejected _ => st
  end.

Definition firstRowChannels (a : AggregatedDataResponse.t)
  : option (list Channel.t) :=
  match AggregatedDataResponse.data a with
  | [] => None
  | row0 :: _ => Some (AggregatedDataResponse.channels row0)
  end.

(** [fetchAllData] up to [await Promise.allSettled]. *)
Definition fetchAllData_begin (pvSystemId : option string) (st : State)
  : State * list Request :=
  match hasAccess st with
  | Some false => (st, [])
  | _ =>
      let st := setError None (setLoading true st) in
      match validId pvSystemId with
      | None =>
          let st :=
            setError
              (Some "Failed to load system data: Invalid or missing PV System ID")
              st in
          (setRefreshing false (setLoading false st), [])
      | Some id => (st, batchRequests id)
      end
  end.

(** [fetchAllData] after the batch settled. *)
Definition fetchAllData_settle (b : Batch) (st : State) : State :=
  match details b with
  | Rejected reason =>
      let st :=
        setError (Some ("Failed to load system data: " ++ reason)) st in
      setRefreshing false (setLoading false st)
  | Fulfilled d =>
      let st := setPvSystemDetails (Some d) st in
      let st := whenFulfilled (flow b) setFlowData st in
      let st :=
        whenFulfilled (aggrToday b)
          (fun v => setAggregatedDataToday (Some v)) st in
      let st :=
        whenFulfilled (aggrWeek b)
          (fun v =>
             setWeeklyEnergyProduction
               (Some (sumChannel "EnergyProductionTotal"
                        (AggregatedDataResponse.data v)))) st in
      let st :=
        whenFulfilled (aggrMonth b)
          (fun v =>
             setMonthlyEnergyProduction
               (Some (sumChannel "EnergyProductionTotal"
                        (AggregatedDataResponse.data v)))) st in
      let st :=
        whenFulfilled (aggrYear b)
          (fun v =>
             setYearlyEnergyProduction
               (Some (sumChannel "EnergyProductionTotal"
                        (AggregatedDataResponse.data v)))) st in
      let st :=
        whenFulfilled (aggrTotal b)
          (fun v => setAggregatedDataTotal (Some v)) st in
      let st :=
        whenFulfilled (weather b) (fun v => setWeatherData (Some v)) st in
      let st :=
        match msgs b with
        | Fulfilled (Some l) => setMessages l st
        | Fulfilled None => setMessages [] st
        | Rejected _ => setMessages [] st
        end in
      let st :=
        whenFulfilled (devs b)
          (fun v => setDevices (match v with Some l => l | None => [] end))
          st in
      let st :=
        whenFulfilled (aggrCo2Today b)
          (fun v =>
             setDailyCo2Savings
               (findChannelValue (firstRowChannels v) "SavingsCO2")) st in
      let st :=
        whenFulfilled (aggrCo2Week b)
          (fun v =>
             setWeeklyCo2Savings
               (Some (sumChannel "SavingsCO2" (AggregatedDataResponse.data v))))
          st in
      let st :=
        whenFulfilled (aggrCo2Month b)
          (fun v =>
             setMonthlyCo2Savings
               (Some (sumChannel "SavingsCO2" (AggregatedDataResponse.data v))))
          st in
      let st :=
        whenFulfilled (aggrCo2Year b)
          (fun v =>
             setYearlyCo2Savings
               (Some (sumChannel "SavingsCO2" (AggregatedDataResponse.data v))))
          st in
      setRefreshing false (setLoading false st)
  end.

(** *** The chart's data *)

Definition chartRequest (id : string) (period : Period) : Request :=
  match period with
  | day => GetPvSystemHistoricalData id "EnergyProductionTotal"
  | week =>
      GetPvSystemAggregatedData id
        (ByDuration weekFromDate 7 (Some "EnergyProductionTotal"))
  | month =>
      GetPvSystemAggregatedData id
        (ByDuration monthFromDate 30 (Some "EnergyProductionTotal"))
  | year =>
      GetPvSystemAggregatedData id
        (ByDuration yearFromDate 365 (Some "EnergyProductionTotal"))
  end.

(** [fetchHistoricalData(period)] up to its [await]. *)
Definition fetchHistoricalData_begin (pvSystemId : option string)
    (period : Period) (st : State) : State * list Request :=
  match validId pvSystemId, hasAccess st with
  | None, _ => (st, [])
  | _, Some false => (st, [])
  | Some id, _ =>
      (setEnergyHistData None (setChartLoading true st),
       [chartRequest id period])
  end.

(** The reshaping of an aggregate answer into the shape of a historical
    series. *)
Definition adaptAggregated (energyData : AggregatedDataResponse.t)
  : HistoricalDataResponse.t :=
  HistoricalDataResponse.mk
    (AggregatedDataResponse.pvSystemId energyData)
    (match AggregatedDataResponse.deviceId energyData with
     | Some d => if Js.truthy d then Some d else None
     | None => None
     end)
    (map
       (fun item =>
          HistoricalDataResponse.mkPoint
            (let t := AggregatedDataResponse.logDateTime item in
             if Js.includes t "T" then t else t ++ "T00:00:00Z")
            86400
            (AggregatedDataResponse.channels item))
       (AggregatedDataResponse.data energyData)).

(** What the chart's request settled to: a historical series for the day
    window, an aggregate answer for the others. *)
Inductive ChartAnswer : Type :=
| DayAnswer (r : Settled (option HistoricalDataResponse.t))
| AggregateAnswer (r : Settled (option AggregatedDataResponse.t)).

(** [fetchHistoricalData] after its request settled. *)
Definition fetchHistoricalData_settle (a : ChartAnswer) (st : State) : State :=
  let st :=
    match a with
    | DayAnswer (Fulfilled (Some energyData)) =>
        match HistoricalDataResponse.data energyData with
        | [] => setEnergyHistData None st
        | _ => setEnergyHistData (Some energyData) st
        end
    | DayAnswer _ => setEnergyHistData None st
    | AggregateAnswer (Fulfilled (Some energyData)) =>
        match AggregatedDataResponse.data energyData with
        | [] => setEnergyHistData None st
        | _ => setEnergyHistData (Some (adaptAggregated energyData)) st
        end
    | AggregateAnswer _ => setEnergyHistData None st
    end in
  setChartLoading false st.

(** *** Effects and handlers *)

(** The effect on [pvSystemId, hasAccess, checkingAccess]. *)
Definition dataLoadEffect (pvSystemId : option string) (st : State)
  : State * list Request :=
  if checkingAccess st then (st, [])
  else
    match hasAccess st with
    | Some false => (setLoading false st, [])
    | _ =>
        match validId pvSystemId with
        | None =>
            (setLoading false
               (setError (Some "Invalid or missing PV System ID.") st), [])
        | Some _ => fetchAllData_begin pvSystemId st
        end
    end.

(** The effect on [selectedChartPeriod, pvSystemId, hasAccess,
    checkingAccess]. *)
Definition historicalEffect (pvSystemId : option string) (st : State)
  : State * list Request :=
  match hasAccess st, validId pvSystemId, checkingAccess st with
  | Some true, Some _, false =>
      fetchHistoricalData_begin pvSystemId (selectedChartPeriod st) st
  | _, _, _ => (st, [])
  end.

(** [onRefresh]. *)
Definition onRefresh (pvSystemId : option string) (st : State)
  : State * list Request :=
  let st := setRefreshing true st in
  let (st1, reqs1) := fetchAllData_begin pvSystemId st in
  let (st2, reqs2) :=
    fetchHistoricalData_begin pvSystemId (selectedChartPeriod st) st1 in
  (st2, reqs1 ++ reqs2)%list.

(** [addDemoErrorMessage], with the message it drew. *)
Definition addDemoErrorMessage (newErrorMessage : SystemMessage.t)
    (st : State) : State :=
  if negb (demoMode st) then st
  else setMessages (newErrorMessage :: messages st) st.

(** *** Derived values *)

Definition flowChannels (st : State) : option (list Channel.t) :=
  match flowData st with
  | None => None
  | Some fd =>
      match FlowDataResponse.data fd with
      | None => None
      | Some d => FlowDataResponse.channels d
      end
  end.

Definition currentPowerOutput (st : State) : option Q :=
  findChannelValue (flowChannels st) "PowerPV".

Definition dailyEnergyProduction (st : State) : option Q :=
  findChannelValue
    (match aggregatedDataToday st with
     | None => None
     | Some a => firstRowChannels a
     end)
    "EnergyProductionTotal".

Definition systemIsOnline (st : State) : bool :=
  match flowData st with
  | None => false
  | Some fd =>
      match FlowDataResponse.status fd with
      | None => false
      | Some s => FlowDataResponse.isOnline s
      end
  end.

Definition latestErrorMessages (st : State) : list SystemMessage.t :=
  filter (fun m => String.eqb (SystemMessage.stateSeverity m) "Error")
    (messages st).

Definition systemStatus (st : State) : SystemStatus :=
  if negb (systemIsOnline st) then offline
  else if (0 <? length (latestErrorMessages st))%nat then warning
  else online.

(** [calculateEarnings]: the rate is 0.40 dollars per kWh. *)
Definition calculateEarnings (energyWh : option Q) : string :=
  match energyWh with
  | None => "N/A"
  | Some e =>
      let earningsDollars := Js.mul (Js.div e 1000) (Js.double (4 # 10)) in
      "$" ++ Js.toFixed 2 earningsDollars
  end.

Definition kilo (unit : string) (v : option Q) : string :=
  match v with
  | Some x => Js.toFixed 1 (Js.div x 1000) ++ " " ++ unit
  | None => "N/A"
  end.

Definition kilograms (v : option Q) : string :=
  match v with
  | Some x => Js.toFixed 1 x ++ " kg"
  | None => "N/A"
  end.

Record Card : Type := mkCard {
  card_id : string;
  title : string;
  metrics : list (string * string) }.

(** [dashboardData]: the four cards with their labelled values. *)
Definition dashboardData (st : State) : list Card :=
  [ mkCard "today" "Today"
      [ ("Current Power", kilo "kW" (currentPowerOutput st));
        ("Energy", kilo "kWh" (dailyEnergyProduction st));
        ("CO₂ Saved", kilograms (dailyCo2Savings st));
        ("Earnings", calculateEarnings (dailyEnergyProduction st)) ];
    mkCard "week" "Week"
      [ ("Current Power", kilo "kW" (currentPowerOutput st));
        ("Weekly Energy", kilo "kWh" (weeklyEnergyProduction st));
        ("CO₂ Saved", kilograms (weeklyCo2Savings st));
        ("Earnings", calculateEarnings (weeklyEnergyProduction st)) ];
    mkCard "month" "Month"
      [ ("Monthly Energy", kilo "kWh" (monthlyEnergyProduction st));
        ("Avg Daily Energy",
         kilo "kWh"
           (option_map (fun x => Js.div x 30) (monthlyEnergyProduction st)));
        ("CO₂ Saved", kilograms (monthlyCo2Savings st));
        ("Earnings", calculateEarnings (monthlyEnergyProduction st)) ];
    mkCard "year" "Year"
      [ ("Yearly Energy", kilo "kWh" (yearlyEnergyProduction st));
        ("Avg Monthly Energy",
         kilo "kWh"
           (option_map (fun x => Js.div x 12) (yearlyEnergyProduction st)));
        ("CO₂ Saved", kilograms (yearlyCo2Savings st));
        ("Earnings", calculateEarnings (yearlyEnergyProduction st)) ] ].

(** The value shown under a label on a card. *)
Definition metric (cardId label : string) (st : State) : option string :=
  match
    List.find (fun c => String.eqb (card_id c) cardId) (dashboardData st)
  with
  | Some c =>
      option_map snd (List.find (fun m => String.eqb (fst m) label) (metrics c))
  | None => None
  end.

(** *** What the screen renders *)

Inductive View : Type :=
| AccessDenied
| LoadingView
| ErrorView (message : string) (retry : bool)
| NoDataView (retry : bool)
| MainView.

Definition render (st : State) : View :=
  match hasAccess st, checkingAccess st with
  | Some false, false => AccessDenied
  | _, _ =>
      if (loading st && negb (refreshing st)) || checkingAccess st
      then LoadingView
      else
        match error st with
        | Some e => if Js.truthy e then ErrorView e true else
            match pvSystemDetails st with
            | None => NoDataView true
            | Some _ => MainView
            end
        | None =>
            match pvSystemDetails st with
            | None => NoDataView true
            | Some _ => MainView
            end
        end
  end.

(** *** Runs of the screen *)

(** The screen is mounted for one route parameter; what happens to it then:
    its effects run after a render, the access check settles, the user pulls
    to refresh or presses Retry, picks a chart period or adds a demo
    message, and requests settle. *)
Inductive Event : Type :=
| RunEffects
| AccessChecked (user : Settled (option User.t))
| Refresh
| SelectChartPeriod (p : Period)
| BatchSettled (b : Batch)
| ChartSettled (a : ChartAnswer)
| DemoError (m : SystemMessage.t).

(** The controls a view offers: Retry and pull-to-refresh are on the error,
    no-data and main views, the chart's periods and the demo button on the
    main view only. *)
Definition enabled (ev : Event) (st : State) : bool :=
  match ev with
  | Refresh =>
      match render st with
      | ErrorView _ _ | NoDataView _ | MainView => true
      | _ => false
      end
  | SelectChartPeriod _ | DemoError _ =>
      match render st with
      | MainView => true
      | _ => false
      end
  | _ => true
  end.

(** One event: the state after it and the requests that leave.  The two
    effects of a render run one after the other; the second reads no field
    the first writes. *)
Definition step (auth : Auth.t) (id : string) (ev : Event) (st : State)
  : State * list Request :=
  if negb (enabled ev st) then (st, [])
  else
    match ev with
    | RunEffects =>
        let (st1, r1) := dataLoadEffect (Some id) st in
        let (st2, r2) := historicalEffect (Some id) st1 in
        (st2, r1 ++ r2)%list
    | AccessChecked user => (checkAccess_settle auth id user st, [])
    | Refresh => onRefresh (Some id) st
    | SelectChartPeriod p =>
        historicalEffect (Some id) (setSelectedChartPeriod p st)
    | BatchSettled b => (fetchAllData_settle b st, [])
    | ChartSettled a => (fetchHistoricalData_settle a st, [])
    | DemoError m => (addDemoErrorMessage m st, [])
    end.

(** A run: the final state and all the requests that left, in order. *)
Fixpoint run (auth : Auth.t) (id : string) (evs : list Event) (st : State)
  : State * list Request :=
  match evs with
  | [] => (st, [])
  | ev :: rest =>
      let (st1, r1) := step auth id ev st in
      let (st2, r2) := run auth id rest st1 in
      (st2, r1 ++ r2)%list
  end.

End Detail.

(** ** Properties used in the statements *)

Module Props.

Import Dashboard.

(** A comparator [sort] can work with: it goes one way or the other on every
    pair, and its "not greater" is transitive. *)
Definition Consistent {A : Type} (cmp : A -> A -> Z) : Prop :=
  (forall a b, (0 < cmp a b)%Z -> (cmp b a <= 0)%Z)
  /\ (forall a b c, (cmp a b <= 0)%Z -> (cmp b c <= 0)%Z -> (cmp a c <= 0)%Z).

(** [a] does not compare greater than [b]. *)
Definition notGreater {A : Type} (cmp : A -> A -> Z) (a b : A) : Prop :=
  (cmp a b <= 0)%Z.

(** The order of a sorted page between an earlier record [a] and a later
    record [b]: an active [b] has an active [a] before it, and with equal
    activity the names are in the order of [localeCompare]. *)
Definition pageOrder (h : Host.t) (a b : EnhancedPvSystem.t) : Prop :=
  (EnhancedPvSystem.isActive b = true -> EnhancedPvSystem.isActive a = true)
  /\ (EnhancedPvSystem.isActive a = EnhancedPvSystem.isActive b ->
      (Host.localeCompare h (EnhancedPvSystem.name a)
         (EnhancedPvSystem.name b) <= 0)%Z).

(** No inactive record with an active one somewhere after it. *)
Fixpoint activeFirstb (l : list EnhancedPvSystem.t) : bool :=
  match l with
  | [] => true
  | a :: l' =>
      (EnhancedPvSystem.isActive a
       || negb (existsb EnhancedPvSystem.isActive l'))
      && activeFirstb l'
  end.

(** The status of a record is not "warning"; no record loaded or shown by a
    state has that status. *)
Definition NotWarning (e : EnhancedPvSystem.t) : Prop :=
  EnhancedPvSystem.status e <> warning.

Definition NoWarning (st : State) : Prop :=
  Forall NotWarning (pvSystems st) /\ Forall NotWarning (filteredSystems st).

(** [sub] occurs in [s]. *)
Definition Occurs (sub s : string) : Prop :=
  exists pre post, s = pre ++ sub ++ post.

(** The record of a failed enrichment, as the specification words it. *)
Definition OfflineZero (e : EnhancedPvSystem.t) : Prop :=
  EnhancedPvSystem.status e = offline
  /\ EnhancedPvSystem.power e = "0 kW"
  /\ EnhancedPvSystem.daily e = "0 kWh".

Definition rejected {A : Type} (r : Settled A) : Prop :=
  match r with
  | Rejected _ => True
  | Fulfilled _ => False
  end.

Definition fulfilled {A : Type} (r : Settled A) : Prop :=
  match r with
  | Rejected _ => False
  | Fulfilled _ => True
  end.

(** The live telemetry fetch succeeded and reported the system online. *)
Definition flowOnline (r : Settled (option FlowDataResponse.t)) : Prop :=
  exists fd s,
    r = Fulfilled (Some fd)
    /\ FlowDataResponse.status fd = Some s
    /\ FlowDataResponse.isOnline s = true.


(** What a cell holds after a batch: the value made from its own result when
    that one is fulfilled, the value it held before when it is rejected. *)
Definition kept {A B : Type} (r : Settled A) (g : A -> B) (old : B) : B :=
  match r with
  | Fulfilled v => g v
  | Rejected _ => old
  end.


(** The access check of a run settles on "no access": the session has no
    user, the lookup failed, or the user has no access to the system. *)
Definition denies (auth : Detail.Auth.t) (id : string)
    (user : Settled (option Detail.User.t)) : bool :=
  match user with
  | Fulfilled (Some u) =>
      negb (Detail.Auth.hasSystemAccess auth (Detail.User.id u) id)
  | _ => true
  end.

(** Access is refused, or the check is still running and nothing was
    granted. *)
Definition Guarded (st : Detail.State) : Prop :=
  Detail.hasAccess st = Some false
  \/ (Detail.hasAccess st = None /\ Detail.checkingAccess st = true).

(** Access is refused and the check is over. *)
Definition Refused (st : Detail.State) : Prop :=
  Detail.hasAccess st = Some false /\ Detail.checkingAccess st = false.

Definition deniedRun (auth : Detail.Auth.t) (id : string)
    (evs : list Detail.Event) : bool :=
  forallb
    (fun ev =>
       match ev with
       | Detail.AccessChecked user => denies auth id user
       | _ => true
       end)
    evs.

Definition accessChecked (evs : list Detail.Event) : bool :=
  existsb
    (fun ev => match ev with Detail.AccessChecked _ => true | _ => false end)
    evs.

End Props.

(** ** Sample data *)

Module Sample.

Import Dashboard.

(** A collation for the examples: letter case put aside, then character by
    character. *)
Fixpoint collate (a b : string) : Z :=
  match a, b with
  | EmptyString, EmptyString => 0%Z
  | EmptyString, String _ _ => (-1)%Z
  | String _ _, EmptyString => 1%Z
  | String c a', String d b' =>
      let x := nat_of_ascii (Js.lower_ascii c) in
      let y := nat_of_ascii (Js.lower_ascii d) in
      if (x <? y)%nat then (-1)%Z
      else if (y <? x)%nat then 1%Z
      else collate a' b'
  end.

Definition host : Host.t :=
  Host.mk collate 0%Z (fun _ => None) (fun _ => "Invalid Date").

Definition noAddress : Address.t := Address.mk None None None None.

Definition system (id name : string) : PvSystemMetadata.t :=
  PvSystemMetadata.mk id name noAddress None None "".

Definition tenIds : list string :=
  ["s01"; "s02"; "s03"; "s04"; "s05"; "s06"; "s07"; "s08"; "s09"; "s10"].

Definition pageOne : list PvSystemMetadata.t :=
  map (fun id => system id ("Plant " ++ id)) tenIds.

Definition pageTwo : list PvSystemMetadata.t :=
  map (fun id => system id ("Roof " ++ id))
    ["s11"; "s12"; "s13"; "s14"; "s15"; "s16"; "s17"; "s18"; "s19"; "s20"].

Definition pageThree : list PvSystemMetadata.t := [system "s21" "Barn s21"].

Definition onlineFlow (watts : Q) : FlowDataResponse.t :=
  FlowDataResponse.mk
    (Some (FlowDataResponse.mkStatus true))
    (Some (FlowDataResponse.mkData (Some "2025-01-01T12:00:00Z")
             (Some [Channel.mk "PowerPV" (Channel.number watts)]))).

Definition todayAggregate (id : string) (wh : Q) : AggregatedDataResponse.t :=
  AggregatedDataResponse.mk id None
    [AggregatedDataResponse.mkRow "2025-01-01"
       [Channel.mk "EnergyProductionTotal" (Channel.number wh)]].

(** Every request fails. *)
Definition remoteDown : Remote.t :=
  Remote.mk (fun _ => Rejected "network") (fun _ => Rejected "network")
    (fun _ => Rejected "network").

(** Only [s21] answers, and it is online. *)
Definition remoteOneOnline : Remote.t :=
  Remote.mk
    (fun id =>
       if String.eqb id "s21" then Fulfilled (Some (onlineFlow 3200))
       else Rejected "network")
    (fun id =>
       if String.eqb id "s21" then Fulfilled (system "s21" "Barn s21")
       else Rejected "network")
    (fun id =>
       if String.eqb id "s21" then Fulfilled (todayAggregate id 12500)
       else Rejected "network").

(** The live telemetry answers, the aggregate of today does not. *)
Definition remoteFlowOnly : Remote.t :=
  Remote.mk (fun _ => Fulfilled (Some (onlineFlow 3200)))
    (fun id => Fulfilled (system id "Alpha Roof"))
    (fun _ => Rejected "timeout").

(** The live telemetry answers, the system details do not. *)
Definition remoteNoDetails : Remote.t :=
  Remote.mk (fun _ => Fulfilled (Some (onlineFlow 3200)))
    (fun _ => Rejected "timeout")
    (fun id => Fulfilled (todayAggregate id 12500)).

Definition alphaBasic : BasicPvSystem.t :=
  BasicPvSystem.mk "s01" "Alpha" "" None.

Definition loaded (id : string) : EnhancedPvSystem.t :=
  EnhancedPvSystem.mk id ("Plant " ++ id) "" offline "0 kW" "0 kWh" "unknown"
    None None false.

(** Twenty-one loaded systems, no directory. *)
Definition twentyOneLoaded : State :=
  setLoading false
    (setFilteredSystems (map loaded (tenIds ++ tenIds ++ ["s21"]))
       (setPvSystems (map loaded (tenIds ++ tenIds ++ ["s21"])) initial)).

Definition alphaLoaded : EnhancedPvSystem.t :=
  EnhancedPvSystem.mk "s01" "Alpha" "" offline "0 kW" "0 kWh" "unknown" None
    None false.

(** One loaded system, no directory. *)
Definition oneLoaded : State :=
  setLoading false
    (setFilteredSystems [alphaLoaded] (setPvSystems [alphaLoaded] initial)).

(** A directory of twenty-five systems, nothing loaded. *)
Definition bigDirectory : State :=
  setLoading false
    (setAllSystemsBasicInfo
       (map (fun id => BasicPvSystem.mk id ("Plant " ++ id) "" None)
          (tenIds ++ tenIds ++ ["s21"; "s22"; "s23"; "s24"; "s25"])%list)
       initial).

(** The answer of the directory load: twenty-five systems, the ten of the
    first page among them. *)
Definition plantDirectory : list PvSystemMetadata.t :=
  (pageOne
   ++ map (fun id => system id ("Plant " ++ id))
        ["s11"; "s12"; "s13"; "s14"; "s15"; "s16"; "s17"; "s18"; "s19"; "s20";
         "s21"; "s22"; "s23"; "s24"; "s25"])%list.

(** A directory of one system, nothing loaded. *)
Definition directoryOnly : State :=
  setLoading false (setAllSystemsBasicInfo [alphaBasic] initial).

(** The screen after the first page came back full. *)
Definition afterPageOne : Screen :=
  settle remoteDown host (Fulfilled (Some pageOne)) mount.

(** Ten systems that do not answer on the first page, then a page with the
    one system that is online. *)
Definition twoPages : Screen :=
  settle remoteOneOnline host (Fulfilled (Some pageThree))
    (onEndReached
       (settle remoteOneOnline host (Fulfilled (Some pageOne)) mount)).

End Sample.

Module SampleDetail.

Import Detail.

Definition rows (channelName : string) (values : list (option Q))
  : list AggregatedDataResponse.Row :=
  map
    (fun v =>
       AggregatedDataResponse.mkRow "2025-01-01"
         [Channel.mk channelName
            (match v with
             | Some q => Channel.number q
             | None => Channel.null
             end)])
    values.

Definition aggregate (channelName : string) (values : list (option Q))
  : AggregatedDataResponse.t :=
  AggregatedDataResponse.mk "s01" None (rows channelName values).

(** The week of the specification's example. *)
Definition weekValues : list (option Q) :=
  [Some 1000%Q; Some 1200%Q; Some 900%Q; None; Some 1100%Q; Some 950%Q;
   Some 1050%Q].

Definition errorMessage : SystemMessage.t :=
  SystemMessage.mk "s01" "inv-1" "Error" "Error" 567 "2025-01-01T10:00:00Z"
    "Inverter communication timeout".

(** Every fetch of the batch answers. *)
Definition goodBatch : Batch :=
  mkBatch
    (Fulfilled (Sample.system "s01" "Alpha Roof"))
    (Fulfilled (Some (Sample.onlineFlow 3200)))
    (Fulfilled (aggregate "EnergyProductionTotal" [Some 12500%Q]))
    (Fulfilled (aggregate "EnergyProductionTotal" weekValues))
    (Fulfilled (aggregate "EnergyProductionTotal" [Some 30000%Q; Some 31000%Q]))
    (Fulfilled (aggregate "EnergyProductionTotal" [Some 400000%Q]))
    (Fulfilled (aggregate "SavingsCO2" [Some 5%Q]))
    (Fulfilled (aggregate "SavingsCO2" [Some 5%Q; Some 6%Q]))
    (Fulfilled (aggregate "SavingsCO2" [Some 20%Q]))
    (Fulfilled (aggregate "SavingsCO2" [Some 200%Q]))
    (Fulfilled (aggregate "SavingsCO2" [Some 1000%Q]))
    (Fulfilled (CurrentWeatherResponse.mk None))
    (Fulfilled (Some []))
    (Fulfilled (Some [])).

(** The same batch with the live telemetry fetch rejected. *)
Definition flowFailedBatch : Batch :=
  mkBatch (details goodBatch) (Rejected "timeout") (aggrToday goodBatch)
    (aggrWeek goodBatch) (aggrMonth goodBatch) (aggrYear goodBatch)
    (aggrCo2Today goodBatch) (aggrCo2Week goodBatch) (aggrCo2Month goodBatch)
    (aggrCo2Year goodBatch) (aggrTotal goodBatch) (weather goodBatch)
    (msgs goodBatch) (devs goodBatch).

(** The same batch with the system details fetch rejected. *)
Definition detailsFailedBatch : Batch :=
  mkBatch (Rejected "timeout") (flow goodBatch) (aggrToday goodBatch)
    (aggrWeek goodBatch) (aggrMonth goodBatch) (aggrYear goodBatch)
    (aggrCo2Today goodBatch) (aggrCo2Week goodBatch) (aggrCo2Month goodBatch)
    (aggrCo2Year goodBatch) (aggrTotal goodBatch) (weather goodBatch)
    (msgs goodBatch) (devs goodBatch).

(** The screen once the access check let the user in. *)
Definition granted : State :=
  setCheckingAccess false (setHasAccess (Some true) initial).

(** A session whose user has access to no system. *)
Definition noAccess : Auth.t := Auth.mk (fun _ _ => false).

Definition visitor : User.t := User.mk "u7" "user".

(** What a user without access can make happen on the screen. *)
Definition deniedEvents : list Event :=
  [RunEffects; AccessChecked (Fulfilled (Some visitor)); RunEffects; Refresh;
   SelectChartPeriod week; RunEffects].

End SampleDetail.

(** ** More of the dashboard screen: what it renders *)

Module DashboardView.

Import Dashboard.

(** [renderFooter]. *)
Inductive Footer : Type :=
| EndOfSearchResults (showingUpTo20 : bool)
| LoadingMore
| NoMoreSystems
| LoadMoreButton
| NoFooter.

Definition renderFooter (st : State) : Footer :=
  if Js.truthy (Js.trim (searchQuery st)) then
    EndOfSearchResults
      (Js.truthy (searchQuery st) && (0 <? length (filteredSystems st))%nat)
  else if isLoadingMore st then LoadingMore
  else if negb (hasMorePages st) && (0 <? length (pvSystems st))%nat
  then NoMoreSystems
  else if hasMorePages st && negb (Js.truthy (Js.trim (searchQuery st)))
  then LoadMoreButton
  else NoFooter.

(** The body of the screen under the search bar: the spinner while
    [loading], else the error with its Retry, else the list with its
    footer. *)
Inductive View : Type :=
| LoadingView
| ErrorView (message : string)
| ListView (items : list EnhancedPvSystem.t) (footer : Footer).

Definition render (st : State) : View :=
  if loading st then LoadingView
  else
    match error st with
    | Some e =>
        if Js.truthy e then ErrorView e
        else ListView (filteredSystems st) (renderFooter st)
    | None => ListView (filteredSystems st) (renderFooter st)
    end.

End DashboardView.

(** ** More of the detail screen: weather, chart, devices, demo messages *)

Module DetailView.

Import Detail.

(** [String(n).padStart(2, "0")] for a number that is not negative. *)
Definition pad2 (n : nat) : list ascii :=
  let s := Js.digits (N.of_nat n) in
  (repeat "0"%char (2 - length s) ++ s)%list.

(** The fields of a [Date] that [formatApiDateString] reads; [getMonth]
    counts from zero. *)
Record DateFields : Type := mkDateFields {
  getFullYear : nat;
  getMonth : nat;
  getDate : nat;
  getHours : nat;
  getMinutes : nat;
  getSeconds : nat }.

(** [formatApiDateString]. *)
Definition formatApiDateString (date : DateFields) : string :=
  let year := Js.digits (N.of_nat (getFullYear date)) in
  let month := pad2 (getMonth date + 1) in
  let day := pad2 (getDate date) in
  let hours := pad2 (getHours date) in
  let minutes := pad2 (getMinutes date) in
  let seconds := pad2 (getSeconds date) in
  string_of_list_ascii
    (year ++ "-"%char :: month ++ "-"%char :: day ++ "T"%char :: hours
     ++ ":"%char :: minutes ++ ":"%char :: seconds ++ ["Z"%char])%list.

(** *** Weather *)

(** [findChannelValue] on the channels of the weather answer. *)
Definition findWeatherValue (channels : list WeatherChannel.t)
    (channelName : string) : WeatherChannel.Value :=
  match
    Js.find (fun c => String.eqb (WeatherChannel.channelName c) channelName)
      channels
  with
  | Some c => WeatherChannel.value c
  | None => WeatherChannel.null
  end.

(** The number a value is taken for in a comparison and by [Number];
    [toNumber] is [Number] on a string. *)
Definition asNumber (toNumber : string -> Js.Numeric)
    (v : WeatherChannel.Value) : Js.Numeric :=
  match v with
  | WeatherChannel.number q => Js.finite q
  | WeatherChannel.text s => toNumber s
  | WeatherChannel.null => Js.finite 0
  end.

(** Truthiness of a value: zero, the empty string and [null] are falsy. *)
Definition truthyValue (v : WeatherChannel.Value) : bool :=
  match v with
  | WeatherChannel.number q => negb (Qeq_bool q 0)
  | WeatherChannel.text s => Js.truthy s
  | WeatherChannel.null => false
  end.

Inductive Assessment : Type := Excellent | Good | Fair | Poor | Unknown.

(** The colour that goes with each text of [getWeatherAssessment]. *)
Definition assessmentColor (a : Assessment) : string :=
  match a with
  | Excellent => "#4CAF50"
  | Good => "#8BC34A"
  | Fair => "#FFC107"
  | Poor => "#FF9800"
  | Unknown => "#9E9E9E"
  end.

(** [getWeatherAssessment], from the two values it closes over. *)
Definition getWeatherAssessment (toNumber : string -> Js.Numeric)
    (cloudCover weatherSymbol : WeatherChannel.Value) : Assessment :=
  match cloudCover with
  | WeatherChannel.null =>
      if truthyValue weatherSymbol then
        let symbol := asNumber toNumber weatherSymbol in
        if Js.numeric_le symbol 1 then Excellent
        else if Js.numeric_le symbol 3 then Good
        else if Js.numeric_le symbol 5 then Fair
        else Poor
      else Unknown
  | _ =>
      let cc := asNumber toNumber cloudCover in
      if Js.numeric_lt cc 30 then Excellent
      else if Js.numeric_lt cc 60 then Good
      else if Js.numeric_lt cc 80 then Fair
      else Poor
  end.

(** The assessment the weather widget shows, [None] for the "unavailable"
    card. *)
Definition weatherAssessment (toNumber : string -> Js.Numeric) (st : State)
  : option Assessment :=
  match weatherData st with
  | None => None
  | Some w =>
      match CurrentWeatherResponse.data w with
      | None => None
      | Some d =>
          let channels := CurrentWeatherResponse.channels d in
          Some
            (getWeatherAssessment toNumber
               (findWeatherValue channels "CloudCover")
               (findWeatherValue channels "Symbol"))
      end
  end.

(** *** The energy chart *)

(** What the chart needs of the host's [Date]: the instant of a date string
    ([None] for an invalid date) and the local fields of an instant. *)
Record Calendar : Type := mkCalendar {
  getTime : string -> option Z;
  hoursOf : Z -> nat;
  minutesOf : Z -> nat;
  dateOf : Z -> nat;
  monthOf : Z -> nat;
  monthShort : Z -> string }.

(** The comparator of [sortedData]; a difference with an invalid date is
    [NaN], which [sort] takes as zero. *)
Definition byTime (cal : Calendar) (a b : HistoricalDataResponse.Point) : Z :=
  match getTime cal (HistoricalDataResponse.logDateTime a),
        getTime cal (HistoricalDataResponse.logDateTime b) with
  | Some x, Some y => (x - y)%Z
  | _, _ => 0%Z
  end.

(** [Math.ceil(total / 6)]. *)
Definition labelStride (total : nat) : nat := (total + 5) / 6.

(** The test that blanks a label. *)
Definition labelSkipped (index total : nat) : bool :=
  (12 <? total)%nat && negb (index mod labelStride total =? 0)%nat.

Definition natString (n : nat) : string :=
  string_of_list_ascii (Js.digits (N.of_nat n)).

(** [getFormattedLabel]. *)
Definition getFormattedLabel (cal : Calendar) (period : Period)
    (dateStr : string) (index total : nat) : string :=
  if labelSkipped index total then ""
  else
    match getTime cal dateStr with
    | None => ""
    | Some date =>
        match period with
        | day =>
            let hours := hoursOf cal date in
            let minutes := minutesOf cal date in
            string_of_list_ascii (pad2 hours)
            ++ (if (0 <? minutes)%nat
                then ":" ++ string_of_list_ascii (pad2 minutes) else "")
        | week | month =>
            natString (dateOf cal date) ++ "/" ++ natString (monthOf cal date + 1)
        | year => monthShort cal date
        end
    end.

(** [Math.max(0, x)]. *)
Definition max0 (x : Q) : Q := if Qlt_le_dec x 0 then 0%Q else x.

(** The value plotted for a point, in kWh. *)
Definition chartValue (item : HistoricalDataResponse.Point) : Q :=
  match
    findChannelValue (Some (HistoricalDataResponse.channels item))
      "EnergyProductionTotal"
  with
  | Some value => max0 (Js.div value 1000)
  | None => 0%Q
  end.

Definition validData (cal : Calendar)
    (data : list HistoricalDataResponse.Point)
  : list HistoricalDataResponse.Point :=
  filter
    (fun item =>
       match getTime cal (HistoricalDataResponse.logDateTime item) with
       | Some _ => true
       | None => false
       end)
    (Js.sort (byTime cal) data).

Record ChartData : Type := mkChartData {
  labels : list string;
  values : list Q;
  withDots : bool }.

Definition chartData (cal : Calendar) (period : Period)
    (data : list HistoricalDataResponse.Point) : ChartData :=
  let valid := validData cal data in
  mkChartData
    (map
       (fun p : nat * HistoricalDataResponse.Point =>
          getFormattedLabel cal period
            (HistoricalDataResponse.logDateTime (snd p)) (fst p) (length valid))
       (combine (seq 0 (length valid)) valid))
    (map chartValue valid)
    (length valid <=? 31)%nat.




(** *** Devices *)

(** The devices section: the cards of the first three devices and the
    count of the line "n more devices available", if it is there. *)
Definition devicesSection (st : State)
  : list DeviceMetadata.t * option nat :=
  (Js.slice0 3 (devices st),
   if (3 <? length (devices st))%nat then Some (length (devices st) - 3)
   else None).

(** *** Demo mode *)

Definition errorCodes : list (Z * string) :=
  [ (567, "Inverter communication timeout");
    (101, "Grid voltage too high");
    (302, "Temperature sensor fault");
    (736, "Fan malfunction detected");
    (415, "Battery connection error") ]%Z.

(** The message [addDemoErrorMessage] builds: [pick] is
    [Math.floor(Math.random() * errorCodes.length)], [device] is
    [Math.floor(Math.random() * 1000)], [now] the current time in ISO
    notation. *)
Definition newErrorMessage (pvSystemId : string) (pick device : nat)
    (now : string) : SystemMessage.t :=
  let randomError := nth pick errorCodes (0%Z, "") in
  SystemMessage.mk pvSystemId
    ("demo-device-" ++ natString device)
    "Error"
    "Error"
    (fst randomError)
    now
    ("Demo Error: " ++ snd randomError).

(** [toggleDemoMode]: the state, and the value stored under ["demo_mode"]. *)
Definition toggleDemoMode (st : State) : State * string :=
  let newDemoMode := negb (demoMode st) in
  (setDemoMode newDemoMode st, if newDemoMode then "true" else "false").

End DetailView.

(** ** The login page ([LoginPage]) *)

Module Login.

Record Errors : Type := mkErrors { e_username : string; e_password : string }.

Record State : Type := mkState {
  username : string;
  password : string;
  secureTextEntry : bool;
  isLoading : bool;
  errors : Errors }.

Definition initial : State := mkState "" "" true false (mkErrors "" "").

Definition setErrors (v : Errors) (s : State) : State :=
  mkState (username s) (password s) (secureTextEntry s) (isLoading s) v.
Definition setIsLoading (v : bool) (s : State) : State :=
  mkState (username s) (password s) (secureTextEntry s) v (errors s).
Definition setUsername (v : string) (s : State) : State :=
  mkState v (password s) (secureTextEntry s) (isLoading s) (errors s).
Definition setPassword (v : string) (s : State) : State :=
  mkState (username s) v (secureTextEntry s) (isLoading s) (errors s).
Definition setSecureTextEntry (v : bool) (s : State) : State :=
  mkState (username s) (password s) v (isLoading s) (errors s).

(** [validateForm]: the state with the new errors, and [isValid]. *)
Definition validateForm (st : State) : State * bool :=
  let badUsername := negb (Js.truthy (Js.trim (username st))) in
  let badPassword := negb (Js.truthy (password st)) in
  let newErrors :=
    mkErrors (if badUsername then "Username is required" else "")
      (if badPassword then "Password is required" else "") in
  (setErrors newErrors st, negb badUsername && negb badPassword).

(** The call [signIn(username, password)]. *)
Inductive Request : Type :=
| SignIn (username password : string).

(** [handleLogin] up to its [await]. *)
Definition handleLogin_begin (st : State) : State * list Request :=
  let (st, isValid) := validateForm st in
  if negb isValid then (st, [])
  else (setIsLoading true st, [SignIn (username st) (password st)]).

(** What the page does once the sign-in settled. *)
Inductive Outcome : Type :=
| Replace (path : string)
| Alert (title message : string).

(** [handleLogin] after [signIn] settled. *)
Definition handleLogin_settle (user : Settled (option Detail.User.t))
    (st : State) : State * Outcome :=
  let outcome :=
    match user with
    | Fulfilled (Some _) => Replace "/(tabs)/dashboard"
    | Fulfilled None =>
        Alert "Login Failed" "Invalid username or password. Please try again."
    | Rejected _ =>
        Alert "Login Error" "An error occurred during login. Please try again."
    end in
  (setIsLoading false st, outcome).

(** [onChangeText] of the two fields. *)
Definition changeUsername (text : string) (st : State) : State :=
  let st' := setUsername text st in
  if Js.truthy (e_username (errors st))
  then setErrors (mkErrors "" (e_password (errors st))) st'
  else st'.

Definition changePassword (text : string) (st : State) : State :=
  let st' := setPassword text st in
  if Js.truthy (e_password (errors st))
  then setErrors (mkErrors (e_username (errors st)) "") st'
  else st'.

Definition togglePasswordVisibility (st : State) : State :=
  setSecureTextEntry (negb (secureTextEntry st)) st.

(** The button is disabled while the page or the session is loading. *)
Definition loginEnabled (sessionLoading : bool) (st : State) : bool :=
  negb (isLoading st || sessionLoading).

End Login.

(** ** Properties used in the further statements *)

Module MoreProps.

(** A string has a character that is not white space. *)
Fixpoint nonBlank (s : string) : bool :=
  match s with
  | EmptyString => false
  | String c s' => negb (Js.is_white c) || nonBlank s'
  end.

(** The order of the assessments, best first. *)
Definition rank (a : DetailView.Assessment) : nat :=
  match a with
  | DetailView.Excellent => 0
  | DetailView.Good => 1
  | DetailView.Fair => 2
  | DetailView.Poor => 3
  | DetailView.Unknown => 4
  end.

(** The two errors the dashboard ever sets. *)
Definition knownError (e : option string) : Prop :=
  e = None
  \/ e = Some "No PV systems found"
  \/ e = Some "Failed to load PV systems. Please try again.".

(** The view is the list. *)
Definition showsList (v : DashboardView.View) : bool :=
  match v with
  | DashboardView.ListView _ _ => true
  | _ => false
  end.

(** The fields of a date with a year of four digits and the other fields
    of at most two. *)
Definition wellFormed (d : DetailView.DateFields) : Prop :=
  (1000 <= N.of_nat (DetailView.getFullYear d) < 10000)%N
  /\ DetailView.getMonth d < 12
  /\ DetailView.getDate d < 100
  /\ DetailView.getHours d < 100
  /\ DetailView.getMinutes d < 100
  /\ DetailView.getSeconds d < 100.

(** A label of the chart is not blank. *)
Definition labelled (l : string) : bool := Js.truthy l.

(** The number written in the [len] characters of [s] from [start]. *)
Definition field (start len : nat) (s : string) : N :=
  Js.digits_val (list_ascii_of_string (String.substring start len s)).

End MoreProps.

(** ** More sample data *)

Module SampleMore.

(** A host whose clock stands at 10 000 000 ms and that reads a date string
    of digits as that many milliseconds. *)
Definition host : Host.t :=
  Host.mk Sample.collate 10000000%Z
    (fun s =>
       match s with
       | EmptyString => None
       | _ => Some (Z.of_N (Js.digits_val (list_ascii_of_string s)))
       end)
    (fun _ => "1/1/1970").

Definition calendar : DetailView.Calendar :=
  DetailView.mkCalendar (Host.parseDate host)
    (fun t => Z.to_nat ((t / 3600000) mod 24))
    (fun t => Z.to_nat ((t / 60000) mod 60))
    (fun _ => 1) (fun _ => 0) (fun _ => "Jan").

Definition point (t : string) (wh : option Q) : HistoricalDataResponse.Point :=
  HistoricalDataResponse.mkPoint t 3600
    [Channel.mk "EnergyProductionTotal"
       (match wh with
        | Some q => Channel.number q
        | None => Channel.null
        end)].

(** Fourteen hourly points, one of them with a negative value and one with
    none. *)
Definition fourteenPoints : list HistoricalDataResponse.Point :=
  [ point "0" (Some 1500%Q);
    point "3600000" (Some 1500%Q);
    point "7200000" (Some 1500%Q);
    point "10800000" (Some 1500%Q);
    point "14400000" (Some 1500%Q);
    point "18000000" (Some 1500%Q);
    point "21600000" (Some 1500%Q);
    point "25200000" (Some 1500%Q);
    point "28800000" (Some 1500%Q);
    point "32400000" (Some 1500%Q);
    point "36000000" (Some 1500%Q);
    point "39600000" (Some 1500%Q);
    point "43200000" (Some (-20)%Q);
    point "46800000" None ].

(** [Number] on the strings of the examples: the empty string and the
    strings of decimal digits. *)
Definition toNumber (s : string) : Js.Numeric :=
  if forallb Js.is_digit (list_ascii_of_string s)
  then Js.finite (inject_Z (Z.of_N (Js.digits_val (list_ascii_of_string s))))
  else Js.NaN.

(** A weather answer with a symbol code and no cloud cover. *)
Definition symbolOnly (code : string) : CurrentWeatherResponse.t :=
  CurrentWeatherResponse.mk
    (Some
       (CurrentWeatherResponse.mkData "2025-01-01T12:00:00Z"
          [ WeatherChannel.mk "Temp" (WeatherChannel.number 21);
            WeatherChannel.mk "Symbol" (WeatherChannel.text code) ])).

Definition newYear : DetailView.DateFields :=
  DetailView.mkDateFields 2025 0 1 9 5 0.

(** The detail screen after a batch whose details fetch failed. *)
Definition failedOnce : Detail.State :=
  Detail.fetchAllData_settle SampleDetail.detailsFailedBatch
    SampleDetail.granted.

(** The detail screen in demo mode with the system online. *)
Definition demoOnline : Detail.State :=
  Detail.setDemoMode true
    (Detail.fetchAllData_settle SampleDetail.goodBatch SampleDetail.granted).

Definition filledForm : Login.State :=
  Login.setPassword "secret" (Login.setUsername " ada " Login.initial).

End SampleMore.

(** * Theorems *)

Unset Implicit Arguments.

(** ** Pagination *)

Section Pagination.

Import Dashboard.

Variables (r : Remote.t) (h : Host.t).

(** A search leaves the pagination cells and the paginated list alone. *)
Lemma applySearchFilter_paging cl q st :
  hasMorePages (applySearchFilter r h cl q st) = hasMorePages st
  /\ isLoadingMore (applySearchFilter r h cl q st) = isLoadingMore st
  /\ searchQuery (applySearchFilter r h cl q st) = searchQuery st
  /\ currentPage (applySearchFilter r h cl q st) = currentPage st
  /\ pvSystems (applySearchFilter r h cl q st) = pvSystems st.
Proof.
  unfold applySearchFilter.
  destruct (negb (Js.truthy (Js.trim q))); [repeat split|].
  destruct (length _ =? 0)%nat; repeat split.
Qed.

(** After a page with items, [hasMorePages] says whether the page was full. *)
Lemma resume_hasMorePages cl page l st :
  l <> [] ->
  hasMorePages (loadPvSystemsPage_resume r h cl page (Fulfilled (Some l)) st)
  = (length l =? SYSTEMS_PER_PAGE)%nat.
Proof.
  intros Hl. destruct l as [|x l]; [congruence|].
  unfold loadPvSystemsPage_resume.
  destruct (Js.truthy (Js.trim (searchQuery cl))).
  - cbn [hasMorePages setIsLoadingMore setLoading setCurrentPage].
    rewrite (proj1 (applySearchFilter_paging _ _ _)). reflexivity.
  - reflexivity.
Qed.

(** A page shorter than the page size, an empty page or no page at all ends
    the pagination: [hasMorePages] is false and load-more makes no call. *)
Lemma short_page_ends_pagination cl page fetched st :
  match fetched with
  | Fulfilled (Some l) => length l < SYSTEMS_PER_PAGE
  | Fulfilled None => True
  | Rejected _ => False
  end ->
  let st' := loadPvSystemsPage_resume r h cl page fetched st in
  hasMorePages st' = false /\ handleLoadMore st' = None.
Proof.
  intros Hf st'.
  assert (Hm : hasMorePages st' = false).
  { subst st'. destruct fetched as [[l|]|]; [|reflexivity|contradiction].
    destruct l as [|x l]; [reflexivity|].
    rewrite resume_hasMorePages by discriminate.
    apply Nat.eqb_neq. lia. }
  split; [exact Hm|].
  unfold handleLoadMore. rewrite Hm, andb_false_r. reflexivity.
Qed.

(** A page of exactly the page size keeps the pagination going. *)
Lemma full_page_has_more cl page l st :
  length l = SYSTEMS_PER_PAGE ->
  hasMorePages (loadPvSystemsPage_resume r h cl page (Fulfilled (Some l)) st)
  = true.
Proof.
  intros Hl. rewrite resume_hasMorePages.
  - rewrite Hl. reflexivity.
  - intros ->. discriminate.
Qed.

(** Load-more makes no call when the loading flag is up, when no more pages
    exist, or when the trimmed query is not empty. *)
Lemma handleLoadMore_guards st :
  isLoadingMore st = true \/ hasMorePages st = false
  \/ Js.trim (searchQuery st) <> "" ->
  handleLoadMore st = None.
Proof.
  unfold handleLoadMore. intros [H | [H | H]].
  - rewrite H. reflexivity.
  - rewrite H, andb_false_r. reflexivity.
  - destruct (Js.trim (searchQuery st)); [congruence|].
    cbn. rewrite andb_false_r. reflexivity.
Qed.

(** Load-more passes [showLoading = false]: the call it makes raises no
    flag, the state is the one before. *)
Lemma onEndReached_ui sc : ui (onEndReached sc) = ui sc.
Proof.
  unfold onEndReached, handleLoadMore.
  destruct (_ && _); reflexivity.
Qed.

(** So a second load-more before the first page load settled asks for the
    same page again. *)
Lemma onEndReached_twice sc p showLoading :
  handleLoadMore (ui sc) = Some (p, showLoading) ->
  pagesInFlight (onEndReached (onEndReached sc))
  = (pagesInFlight sc ++ [p; p])%list.
Proof.
  intros H.
  assert (H1 : pagesInFlight (onEndReached sc) = (pagesInFlight sc ++ [p])%list).
  { unfold onEndReached. rewrite H. unfold pagesInFlight. cbn.
    rewrite map_app. reflexivity. }
  unfold onEndReached at 1. rewrite onEndReached_ui, H.
  unfold pagesInFlight in *. cbn. rewrite map_app, H1, <- app_assoc.
  reflexivity.
Qed.

(** No page load settling and no load-more raises [isLoadingMore]. *)
Lemma isLoadingMore_stays_down cl page fetched st :
  isLoadingMore (loadPvSystemsPage_resume r h cl page fetched st) = false.
Proof.
  unfold loadPvSystemsPage_resume.
  destruct fetched as [[[|x l]|]|]; reflexivity.
Qed.

Lemma searchEffect_isLoadingMore st :
  isLoadingMore (searchEffect r h st) = isLoadingMore st.
Proof.
  unfold searchEffect. destruct (0 <? length (allSystemsBasicInfo st))%nat.
  - apply applySearchFilter_paging.
  - destruct (0 <? length (pvSystems st))%nat; reflexivity.
Qed.

(** In no run of the screen is [isLoadingMore] ever up: every call of
    [loadPvSystemsPage] is for page 0 or with [showLoading = false]. *)
Lemma isLoadingMore_never_raised evs :
  isLoadingMore (ui (run r h evs)) = false.
Proof.
  unfold run.
  assert (H : forall sc, isLoadingMore (ui sc) = false ->
                         isLoadingMore
                           (ui (fold_left (fun sc ev => step r h ev sc) evs sc))
                         = false).
  { induction evs as [|ev evs IH]; intros sc Hsc; [exact Hsc|].
    cbn [fold_left]. apply IH. destruct ev as [| |q|fetched|fetched]; cbn [step].
    - rewrite onEndReached_ui. exact Hsc.
    - exact Hsc.
    - cbn [ui]. unfold typeQuery. destruct (String.eqb q _); [exact Hsc|].
      rewrite searchEffect_isLoadingMore. exact Hsc.
    - unfold settle. destruct (inflight sc) as [|p rest]; [exact Hsc|].
      cbn [ui]. destruct (viaRefresh p); [cbn|];
        apply isLoadingMore_stays_down.
    - unfold directoryLoaded.
      destruct fetched as [[[|x l]|]|]; cbn [ui]; try exact Hsc.
      rewrite searchEffect_isLoadingMore. exact Hsc. }
  apply H. reflexivity.
Qed.

End Pagination.

(** C1, at the input where the code leaves it: the first page came back
    full, the end of the list is reached twice before the next page is
    there.  The second load-more is not a no-op while the first load is in
    flight: page 1 is asked for twice, [isLoadingMore] was never raised, and
    after both loads settled the ten systems of page 1 are shown twice. *)
Theorem C1_load_more_repeats_while_in_flight :
  let sc := Sample.afterPageOne in
  let twice := Dashboard.onEndReached (Dashboard.onEndReached sc) in
  let settled :=
    Dashboard.settle Sample.remoteDown Sample.host
      (Fulfilled (Some Sample.pageTwo))
      (Dashboard.settle Sample.remoteDown Sample.host
         (Fulfilled (Some Sample.pageTwo)) twice) in
  Dashboard.hasMorePages (Dashboard.ui sc) = true
  /\ Dashboard.pagesInFlight sc = []
  /\ Dashboard.pagesInFlight (Dashboard.onEndReached sc) = [1]
  /\ Dashboard.isLoadingMore (Dashboard.ui (Dashboard.onEndReached sc)) = false
  /\ Dashboard.pagesInFlight twice = [1; 1]
  /\ map Dashboard.EnhancedPvSystem.id
       (Dashboard.displayed (Dashboard.ui settled))
     = (Sample.tenIds
        ++ map PvSystemMetadata.pvSystemId Sample.pageTwo
        ++ map PvSystemMetadata.pvSystemId Sample.pageTwo)%list.
Proof. vm_compute. repeat split. Qed.

(** ** The order of a page *)

Section Sorting.

Variable A : Type.
Variable cmp : A -> A -> Z.
Hypothesis cmp_ok : Props.Consistent cmp.

Lemma insert_perm x l : Permutation (Js.insert cmp x l) (x :: l).
Proof.
  induction l as [|y l IH]; cbn.
  - apply Permutation_refl.
  - destruct (cmp x y <=? 0)%Z.
    + apply Permutation_refl.
    + eapply perm_trans; [apply perm_skip, IH | apply perm_swap].
Qed.

Lemma sort_perm l : Permutation (Js.sort cmp l) l.
Proof.
  induction l as [|x l IH]; cbn.
  - constructor.
  - eapply perm_trans; [apply insert_perm | apply perm_skip, IH].
Qed.

Lemma insert_sorted x l :
  StronglySorted (Props.notGreater cmp) l ->
  StronglySorted (Props.notGreater cmp) (Js.insert cmp x l).
Proof.
  destruct cmp_ok as [Htot Htrans]. unfold Props.notGreater.
  induction 1 as [|y l Hs IH Hy]; cbn.
  - constructor; constructor.
  - destruct (Z.leb_spec (cmp x y) 0) as [Hxy | Hxy].
    + constructor.
      * constructor; assumption.
      * constructor; [exact Hxy|].
        eapply Forall_impl; [|exact Hy].
        intros z Hz. exact (Htrans x y z Hxy Hz).
    + constructor; [exact IH|].
      eapply Permutation_Forall.
      * apply Permutation_sym, insert_perm.
      * constructor; [apply Htot; exact Hxy | exact Hy].
Qed.

Lemma sort_sorted l : StronglySorted (Props.notGreater cmp) (Js.sort cmp l).
Proof.
  induction l as [|x l IH]; cbn.
  - constructor.
  - apply insert_sorted, IH.
Qed.

End Sorting.

Lemma StronglySorted_weaken (A : Type) (R S : A -> A -> Prop) l :
  (forall a b, R a b -> S a b) -> StronglySorted R l -> StronglySorted S l.
Proof.
  intros HRS. induction 1 as [|x l Hs IH Hx]; constructor.
  - exact IH.
  - eapply Forall_impl; [|exact Hx]. intros b. apply HRS.
Qed.

Section PageOrder.

Import Dashboard.

Lemma compareSystems_consistent h :
  Props.Consistent (Host.localeCompare h) ->
  Props.Consistent (compareSystems h).
Proof.
  intros [Htot Htrans]. split.
  - intros a b. unfold compareSystems.
    destruct (EnhancedPvSystem.isActive a), (EnhancedPvSystem.isActive b);
      cbn; try lia; apply Htot.
  - intros a b c. unfold compareSystems.
    destruct (EnhancedPvSystem.isActive a), (EnhancedPvSystem.isActive b),
      (EnhancedPvSystem.isActive c); cbn; try lia; apply Htrans.
Qed.

Lemma compareSystems_pageOrder h a b :
  (compareSystems h a b <= 0)%Z -> Props.pageOrder h a b.
Proof.
  unfold compareSystems, Props.pageOrder.
  destruct (EnhancedPvSystem.isActive a), (EnhancedPvSystem.isActive b);
    cbn; intros H; split; intros; try congruence; try lia.
Qed.

Lemma pageOrder_activeFirst h l :
  StronglySorted (Props.pageOrder h) l -> Props.activeFirstb l = true.
Proof.
  induction 1 as [|a l Hs IH Ha]; cbn; [reflexivity|].
  rewrite IH, andb_true_r.
  destruct (EnhancedPvSystem.isActive a) eqn:Ea; [reflexivity|]. cbn.
  apply negb_true_iff.
  destruct (existsb EnhancedPvSystem.isActive l) eqn:Ex; [|reflexivity].
  apply existsb_exists in Ex. destruct Ex as [b [Hb Hact]].
  rewrite Forall_forall in Ha. destruct (Ha b Hb) as [H1 _].
  rewrite (H1 Hact) in Ea. discriminate.
Qed.

Lemma collate_consistent : Props.Consistent Sample.collate.
Proof.
  split.
  - intros a. induction a as [|c a IH]; intros [|d b]; cbn [Sample.collate];
      try lia.
    generalize (nat_of_ascii (Js.lower_ascii c)),
      (nat_of_ascii (Js.lower_ascii d)).
    intros x y.
    destruct (Nat.ltb_spec x y); destruct (Nat.ltb_spec y x); try lia.
    apply IH.
  - intros a. induction a as [|c a IH]; intros [|d b] [|e s];
      cbn [Sample.collate]; try lia.
    generalize (nat_of_ascii (Js.lower_ascii c)),
        (nat_of_ascii (Js.lower_ascii d)), (nat_of_ascii (Js.lower_ascii e)).
    intros x y z.
    destruct (Nat.ltb_spec x y); destruct (Nat.ltb_spec y x);
      destruct (Nat.ltb_spec y z); destruct (Nat.ltb_spec z y);
      destruct (Nat.ltb_spec x z); destruct (Nat.ltb_spec z x);
      try lia.
    apply IH.
Qed.

(** After a page with items came back while no query is typed, the list
    shown is the sorted page (page 0) or the list before with the sorted
    page behind it. *)
Lemma resume_displayed r h cl page systems st :
  systems <> [] ->
  Js.trim (searchQuery cl) = "" ->
  let sorted := Js.sort (compareSystems h) (map (enrichPageItem r h) systems) in
  let st' :=
    loadPvSystemsPage_resume r h cl page (Fulfilled (Some systems)) st in
  displayed st'
  = (if (page =? 0)%nat then sorted else displayed st ++ sorted)%list
  /\ pvSystems st'
     = (if (page =? 0)%nat then sorted else pvSystems st ++ sorted)%list.
Proof.
  intros Hs Hq. destruct systems as [|x l]; [congruence|].
  unfold loadPvSystemsPage_resume. rewrite Hq. cbn [Js.truthy].
  split; reflexivity.
Qed.

End PageOrder.

(** C2, as the code has it: each page is sorted on its own.  For a
    comparator [localeCompare] that [sort] can work with, and with no query
    typed, the page that came back is shown as a rearrangement of its
    enriched records in which every active record is before every inactive
    one and, within equal activity, names are in the order of
    [localeCompare]; page 0 replaces the list and a later page is put behind
    the list shown so far, which is left as it was. *)
Theorem C2_each_page_sorted :
  forall (r : Remote.t) (h : Host.t) (cl : Dashboard.State) (page : nat)
         (systems : list PvSystemMetadata.t) (st : Dashboard.State),
    Props.Consistent (Host.localeCompare h) ->
    systems <> [] ->
    Js.trim (Dashboard.searchQuery cl) = "" ->
    exists sorted,
      Permutation sorted (map (Dashboard.enrichPageItem r h) systems)
      /\ StronglySorted (Props.pageOrder h) sorted
      /\ Dashboard.displayed
           (Dashboard.loadPvSystemsPage_resume r h cl page
              (Fulfilled (Some systems)) st)
         = (if (page =? 0)%nat then sorted
            else Dashboard.displayed st ++ sorted)%list.
Proof.
  intros r h cl page systems st Hc Hs Hq.
  exists (Js.sort (Dashboard.compareSystems h)
            (map (Dashboard.enrichPageItem r h) systems)).
  split; [apply sort_perm|]. split.
  - eapply StronglySorted_weaken; [apply compareSystems_pageOrder|].
    apply sort_sorted, compareSystems_consistent, Hc.
  - apply (resume_displayed r h cl page systems st Hs Hq).
Qed.

Lemma C2_each_page_sorted_witness :
  Props.Consistent (Host.localeCompare Sample.host)
  /\ exists sorted,
       Permutation sorted
         (map (Dashboard.enrichPageItem Sample.remoteOneOnline Sample.host)
            (Sample.pageThree ++ Sample.pageOne)%list)
       /\ StronglySorted (Props.pageOrder Sample.host) sorted
       /\ Dashboard.displayed
            (Dashboard.loadPvSystemsPage_resume Sample.remoteOneOnline
               Sample.host Dashboard.initial 0
               (Fulfilled (Some (Sample.pageThree ++ Sample.pageOne)%list))
               Dashboard.initial)
          = sorted.
Proof.
  split; [exact collate_consistent|].
  apply (C2_each_page_sorted Sample.remoteOneOnline Sample.host
           Dashboard.initial 0 (Sample.pageThree ++ Sample.pageOne)%list
           Dashboard.initial).
  - exact collate_consistent.
  - discriminate.
  - reflexivity.
Defined.

(** C2 as stated fails on the accumulated list: the first page brings ten
    systems that are not online, the second page one that is; the list shown
    has the active record last, behind ten inactive ones. *)
Lemma C2_accumulated_list_not_sorted :
  map Dashboard.EnhancedPvSystem.isActive
    (Dashboard.displayed (Dashboard.ui Sample.twoPages))
  = (repeat false 10 ++ [true])%list
  /\ Props.activeFirstb (Dashboard.displayed (Dashboard.ui Sample.twoPages))
     = false.
Proof. vm_compute. split; reflexivity. Qed.

(** ** Enrichment failures *)

Section Enrichment.

Import Dashboard.

Variables (r : Remote.t) (h : Host.t).

(** The record of a page item: identity from the list entry, the rest from
    what the two fetches gave before one of them failed. *)
Lemma enrichPageItem_spec sys :
  let id := PvSystemMetadata.pvSystemId sys in
  let e := enrichPageItem r h sys in
  EnhancedPvSystem.id e = id
  /\ EnhancedPvSystem.name e = PvSystemMetadata.name sys
  /\ (Props.rejected (Remote.getPvSystemFlowData r id) -> Props.OfflineZero e)
  /\ (Props.rejected (Remote.getPvSystemAggregatedData r id) ->
      EnhancedPvSystem.daily e = "0 kWh")
  /\ (forall fd, Remote.getPvSystemFlowData r id = Fulfilled fd ->
      EnhancedPvSystem.status e = determineStatus fd
      /\ EnhancedPvSystem.power e = extractPower fd).
Proof.
  cbn zeta. unfold enrichPageItem, Props.OfflineZero.
  destruct (Remote.getPvSystemFlowData r (PvSystemMetadata.pvSystemId sys))
    as [fd|];
    destruct (Remote.getPvSystemAggregatedData r
                (PvSystemMetadata.pvSystemId sys));
    cbn [Props.rejected];
    (split; [reflexivity|]); (split; [reflexivity|]);
    (split; [first [contradiction | intros _; repeat split]|]);
    (split; [first [contradiction | intros _; reflexivity]|]);
    intros fd' Hfd; inversion Hfd; subst; split; reflexivity.
Qed.

(** Every item of the page is in the paginated list afterwards, whatever
    the query. *)
Lemma page_item_loaded cl page systems st sys :
  In sys systems ->
  In (enrichPageItem r h sys)
    (pvSystems
       (loadPvSystemsPage_resume r h cl page (Fulfilled (Some systems)) st)).
Proof.
  intros Hin.
  assert (Hs : In (enrichPageItem r h sys)
                 (Js.sort (compareSystems h) (map (enrichPageItem r h) systems))).
  { eapply Permutation_in; [apply Permutation_sym, sort_perm|].
    apply in_map, Hin. }
  destruct systems as [|x l]; [contradiction|].
  unfold loadPvSystemsPage_resume.
  cbn [pvSystems setIsLoadingMore setLoading setCurrentPage].
  destruct (Js.truthy (Js.trim (searchQuery cl))).
  - rewrite (proj2 (proj2 (proj2 (proj2
              (applySearchFilter_paging r h cl (searchQuery cl) _))))).
    cbn [pvSystems setPvSystems].
    destruct (page =? 0)%nat; [exact Hs|]. apply in_or_app. right. exact Hs.
  - cbn [pvSystems setFilteredSystems setPvSystems].
    destruct (page =? 0)%nat; [exact Hs|]. apply in_or_app. right. exact Hs.
Qed.

(** With no query typed it is in the list shown, too. *)
Lemma page_item_displayed cl page systems st sys :
  In sys systems ->
  Js.trim (searchQuery cl) = "" ->
  In (enrichPageItem r h sys)
    (displayed
       (loadPvSystemsPage_resume r h cl page (Fulfilled (Some systems)) st)).
Proof.
  intros Hin Hq.
  assert (Hs : systems <> []) by (intros ->; contradiction).
  destruct (resume_displayed r h cl page systems st Hs Hq) as [Hd _].
  rewrite Hd.
  assert (In (enrichPageItem r h sys)
            (Js.sort (compareSystems h) (map (enrichPageItem r h) systems))).
  { eapply Permutation_in; [apply Permutation_sym, sort_perm|].
    apply in_map, Hin. }
  destruct (page =? 0)%nat; [assumption|]. apply in_or_app. right. assumption.
Qed.

(** The record of a search result that was not loaded before: the partial
    offline record as soon as one of the three fetches fails. *)
Lemma enrichSearchResult_failed loaded b :
  Js.find (fun sys => String.eqb (EnhancedPvSystem.id sys) (BasicPvSystem.id b))
    loaded = None ->
  Props.rejected (Remote.getPvSystemFlowData r (BasicPvSystem.id b))
  \/ Props.rejected (Remote.getPvSystemDetails r (BasicPvSystem.id b))
  \/ Props.rejected (Remote.getPvSystemAggregatedData r (BasicPvSystem.id b)) ->
  enrichSearchResult r h loaded b = partialSystem b.
Proof.
  intros Hf Hrej. unfold enrichSearchResult. rewrite Hf.
  destruct (Remote.getPvSystemFlowData r (BasicPvSystem.id b)); [|reflexivity].
  destruct (Remote.getPvSystemDetails r (BasicPvSystem.id b)); [|reflexivity].
  destruct (Remote.getPvSystemAggregatedData r (BasicPvSystem.id b));
    [|reflexivity].
  cbn in Hrej. tauto.
Qed.

(** What a search with a non-blank query shows: the enriched first twenty
    matches of the directory. *)
Lemma applySearchFilter_displayed cl q st :
  Js.trim q <> "" ->
  displayed (applySearchFilter r h cl q st)
  = map (enrichSearchResult r h (pvSystems cl))
      (Js.slice0 20
         (filter (matchesBasic (Js.toLowerCase q)) (allSystemsBasicInfo cl))).
Proof.
  intros Hq. unfold applySearchFilter.
  destruct (Js.trim q) eqn:Et; [congruence|]. cbn [Js.truthy negb].
  destruct (filter _ _) as [|x l]; reflexivity.
Qed.

End Enrichment.

(** C3, as the code has it.  No item is dropped for a failed enrichment:
    every item of a page is in the paginated list afterwards, and in the
    list shown when no query is typed.  On a page, an item whose live
    telemetry fetch fails is shown offline with "0 kW" and "0 kWh"; an item
    whose aggregate fetch alone fails is shown with "0 kWh" and with the
    status and power its telemetry gave.  In a search, a matched item (among
    the first twenty, and not loaded before) with any of its three fetches
    failing is shown offline with "0 kW" and "0 kWh". *)
Theorem C3_failed_item_kept :
  forall (r : Remote.t) (h : Host.t) (cl st : Dashboard.State),
    (forall page systems sys,
        In sys systems ->
        let id := PvSystemMetadata.pvSystemId sys in
        let st' :=
          Dashboard.loadPvSystemsPage_resume r h cl page
            (Fulfilled (Some systems)) st in
        exists e,
          In e (Dashboard.pvSystems st')
          /\ (Js.trim (Dashboard.searchQuery cl) = "" ->
              In e (Dashboard.displayed st'))
          /\ Dashboard.EnhancedPvSystem.id e = id
          /\ (Props.rejected (Remote.getPvSystemFlowData r id) ->
              Props.OfflineZero e)
          /\ (Props.rejected (Remote.getPvSystemAggregatedData r id) ->
              Dashboard.EnhancedPvSystem.daily e = "0 kWh")
          /\ (forall fd,
                 Remote.getPvSystemFlowData r id = Fulfilled fd ->
                 Dashboard.EnhancedPvSystem.status e
                 = Dashboard.determineStatus fd
                 /\ Dashboard.EnhancedPvSystem.power e
                    = Dashboard.extractPower fd))
    /\ (forall q b,
           Js.trim q <> "" ->
           In b (Js.slice0 20
                   (filter (Dashboard.matchesBasic (Js.toLowerCase q))
                      (Dashboard.allSystemsBasicInfo cl))) ->
           Js.find
             (fun sys =>
                String.eqb (Dashboard.EnhancedPvSystem.id sys)
                  (Dashboard.BasicPvSystem.id b))
             (Dashboard.pvSystems cl) = None ->
           let id := Dashboard.BasicPvSystem.id b in
           Props.rejected (Remote.getPvSystemFlowData r id)
           \/ Props.rejected (Remote.getPvSystemDetails r id)
           \/ Props.rejected (Remote.getPvSystemAggregatedData r id) ->
           exists e,
             In e (Dashboard.displayed
                     (Dashboard.applySearchFilter r h cl q st))
             /\ Dashboard.EnhancedPvSystem.id e = id
             /\ Props.OfflineZero e).
Proof.
  intros r h cl st. split.
  - intros page systems sys Hin id st'.
    exists (Dashboard.enrichPageItem r h sys).
    split; [apply page_item_loaded; assumption|].
    split; [intros Hq; apply page_item_displayed; assumption|].
    destruct (enrichPageItem_spec r h sys) as (H1 & _ & H3 & H4 & H5).
    split; [exact H1|]. split; [exact H3|]. split; [exact H4 | exact H5].
  - intros q b Hq Hin Hfind id Hrej.
    exists (Dashboard.partialSystem b). split.
    + rewrite applySearchFilter_displayed by assumption.
      rewrite <- (enrichSearchResult_failed r h _ b Hfind Hrej).
      apply in_map, Hin.
    + split; [reflexivity|]. repeat split.
Qed.

Lemma C3_failed_item_kept_witness :
  (exists e,
      In e (Dashboard.displayed
              (Dashboard.loadPvSystemsPage_resume Sample.remoteDown Sample.host
                 Dashboard.initial 0 (Fulfilled (Some Sample.pageThree))
                 Dashboard.initial))
      /\ Dashboard.EnhancedPvSystem.id e = "s21"
      /\ Props.OfflineZero e)
  /\ (exists e,
         In e (Dashboard.displayed
                 (Dashboard.applySearchFilter Sample.remoteNoDetails
                    Sample.host Sample.directoryOnly "alp"
                    Sample.directoryOnly))
         /\ Dashboard.EnhancedPvSystem.id e = "s01"
         /\ Props.OfflineZero e).
Proof.
  split.
  - destruct
      (proj1
         (C3_failed_item_kept Sample.remoteDown Sample.host Dashboard.initial
            Dashboard.initial)
         0 Sample.pageThree (Sample.system "s21" "Barn s21")
         (or_introl eq_refl))
      as (e & _ & Hin & Hid & Hoff & _).
    exists e. split; [exact (Hin eq_refl)|]. split; [exact Hid|].
    apply Hoff. exact I.
  - assert (Hq : Js.trim "alp" <> "") by discriminate.
    destruct
      (proj2
         (C3_failed_item_kept Sample.remoteNoDetails Sample.host
            Sample.directoryOnly Sample.directoryOnly)
         "alp" Sample.alphaBasic Hq (or_introl eq_refl) eq_refl
         (or_intror (or_introl I)))
      as (e & Hin & Hid & Hoff).
    exists e. split; [exact Hin|]. split; [exact Hid | exact Hoff].
Defined.

(** C3 as stated fails on a page: the live telemetry of the item answers
    (online, 3200 W) and its aggregate fetch is rejected; the item is shown
    online with "3.2 kW", only its daily energy is "0 kWh". *)
Lemma C3_aggregate_failure_keeps_telemetry :
  Props.rejected (Remote.getPvSystemAggregatedData Sample.remoteFlowOnly "s01")
  /\ map
       (fun e =>
          (Dashboard.EnhancedPvSystem.id e, Dashboard.EnhancedPvSystem.status e,
           Dashboard.EnhancedPvSystem.power e,
           Dashboard.EnhancedPvSystem.daily e))
       (Dashboard.displayed
          (Dashboard.loadPvSystemsPage_resume Sample.remoteFlowOnly Sample.host
             Dashboard.initial 0
             (Fulfilled (Some [Sample.system "s01" "Alpha Roof"]))
             Dashboard.initial))
     = [("s01", Dashboard.online, "3.2 kW", "0 kWh")].
Proof. vm_compute. split; [exact I | reflexivity]. Qed.

(** ** Search *)

Section Search.

Import Dashboard.

Variables (r : Remote.t) (h : Host.t).

Lemma prefix_spec sub s :
  String.prefix sub s = true <-> exists post, s = sub ++ post.
Proof.
  revert s. induction sub as [|c sub IH]; intros s; cbn.
  - split; [intros _; exists s; reflexivity | destruct s; reflexivity].
  - destruct s as [|d s]; cbn.
    + split; [discriminate | intros [post H]; discriminate H].
    + destruct (Ascii.ascii_dec c d) as [<- | Hne].
      * rewrite IH. split; intros [post H]; exists post.
        -- rewrite H. reflexivity.
        -- inversion H. reflexivity.
      * split; [discriminate|]. intros [post H]. inversion H. congruence.
Qed.

(** [includes] is the occurrence of a substring. *)
Lemma includes_spec s sub :
  Js.includes s sub = true <-> Props.Occurs sub s.
Proof.
  unfold Props.Occurs. induction s as [|d s IH]; cbn [Js.includes].
  - rewrite orb_false_r, prefix_spec. split.
    + intros [post H]. exists "", post. exact H.
    + intros [pre [post H]]. destruct pre; [exists post; exact H|].
      discriminate H.
  - rewrite orb_true_iff, prefix_spec, IH. split.
    + intros [[post H] | [pre [post H]]].
      * exists "", post. exact H.
      * exists (String d pre), post. cbn. rewrite H. reflexivity.
    + intros [pre [post H]]. destruct pre as [|e pre].
      * left. exists post. exact H.
      * right. cbn in H. inversion H. exists pre, post. reflexivity.
Qed.

Lemma includes_empty s : Js.includes s "" = true.
Proof. destruct s; reflexivity. Qed.

Lemma filter_all {A : Type} (p : A -> bool) (l : list A) :
  (forall x, p x = true) -> filter p l = l.
Proof.
  intros Hp. induction l as [|x l IH]; cbn; [reflexivity|].
  rewrite Hp, IH. reflexivity.
Qed.

Lemma filter_length_le {A : Type} (p : A -> bool) (l : list A) :
  length (filter p l) <= length l.
Proof.
  induction l as [|x l IH]; cbn; [lia|]. destruct (p x); cbn; lia.
Qed.

(** With a directory, the effect runs the search on the directory. *)
Lemma searchEffect_directory st :
  allSystemsBasicInfo st <> [] ->
  searchEffect r h st = applySearchFilter r h st (searchQuery st) st.
Proof.
  intros Hd. unfold searchEffect.
  destruct (allSystemsBasicInfo st); [congruence | reflexivity].
Qed.

(** Without a directory, it filters the loaded list by the lower-cased
    query as it is. *)
Lemma searchEffect_fallback st :
  allSystemsBasicInfo st = [] ->
  pvSystems st <> [] ->
  displayed (searchEffect r h st)
  = filter (matchesEnhanced (Js.toLowerCase (searchQuery st))) (pvSystems st).
Proof.
  intros Hd Hp. unfold searchEffect. rewrite Hd. cbn [length Nat.ltb Nat.leb].
  destruct (pvSystems st); [congruence | reflexivity].
Qed.

(** With a directory, a query that trims to nothing brings the paginated
    list back as it is. *)
Lemma blank_query_restores_with_directory st :
  allSystemsBasicInfo st <> [] ->
  Js.trim (searchQuery st) = "" ->
  displayed (searchEffect r h st) = pvSystems st.
Proof.
  intros Hd Hq. rewrite searchEffect_directory by assumption.
  unfold applySearchFilter. rewrite Hq. reflexivity.
Qed.

(** Without a directory, the empty query does so too: every record
    includes the empty string. *)
Lemma empty_query_restores_without_directory st :
  allSystemsBasicInfo st = [] ->
  pvSystems st <> [] ->
  searchQuery st = "" ->
  displayed (searchEffect r h st) = pvSystems st.
Proof.
  intros Hd Hp Hq. rewrite searchEffect_fallback by assumption.
  apply filter_all. intros x. unfold matchesEnhanced.
  rewrite Hq. cbn [Js.toLowerCase]. rewrite includes_empty. reflexivity.
Qed.

End Search.

(** What the search effect shows.  With a directory, a search for a query
    that does not trim to nothing shows the enriched records of the first 20
    matching directory entries, so at most 20 records however many entries
    match.  Without a directory the loaded list is filtered and nothing is
    cut: what is shown is every loaded record that matches.  An entry
    matches when the lower-cased query occurs in its lower-cased name, id
    or address. *)
Lemma searchEffect_shown :
  forall (r : Remote.t) (h : Host.t) (st : Dashboard.State),
    let q := Js.toLowerCase (Dashboard.searchQuery st) in
    let shown := Dashboard.displayed (Dashboard.searchEffect r h st) in
    (Dashboard.allSystemsBasicInfo st <> [] ->
     Js.trim (Dashboard.searchQuery st) <> "" ->
     shown
     = map (Dashboard.enrichSearchResult r h (Dashboard.pvSystems st))
         (firstn 20
            (filter (Dashboard.matchesBasic q)
               (Dashboard.allSystemsBasicInfo st)))
     /\ length shown <= 20)
    /\ (Dashboard.allSystemsBasicInfo st = [] ->
        Dashboard.pvSystems st <> [] ->
        shown = filter (Dashboard.matchesEnhanced q) (Dashboard.pvSystems st)
        /\ length shown <= length (Dashboard.pvSystems st))
    /\ (forall b,
           Dashboard.matchesBasic q b = true
           <-> Props.Occurs q (Js.toLowerCase (Dashboard.BasicPvSystem.name b))
               \/ Props.Occurs q
                    (Js.toLowerCase (Dashboard.BasicPvSystem.id b))
               \/ Props.Occurs q
                    (Js.toLowerCase (Dashboard.BasicPvSystem.address b))).
Proof.
  intros r h st q shown. split; [|split].
  - intros Hd Hq. subst shown.
    rewrite searchEffect_directory by assumption.
    rewrite applySearchFilter_displayed by assumption.
    split; [reflexivity|].
    rewrite length_map. unfold Js.slice0. apply firstn_le_length.
  - intros Hd Hp. subst shown. rewrite searchEffect_fallback by assumption.
    split; [reflexivity | apply filter_length_le].
  - intros b. unfold Dashboard.matchesBasic.
    rewrite !orb_true_iff, !includes_spec. tauto.
Qed.

(** C4, at the inputs where the code leaves it.  First, twenty-one systems
    are loaded, the directory is empty, and the query "plant" matches all
    of them: the fallback of the search effect shows twenty-one records, and
    the footer under them says that up to 20 matching systems are shown.
    With the same twenty-one names in the directory the search shows
    twenty.  Second, with the directory loaded: the first page is loaded,
    the end of the list is reached and, while the second page is on its
    way, "plant" is typed; the search shows twenty records; then the page
    arrives and is put behind them: thirty records are shown under the
    query. *)
Theorem C4_search_shows_more_than_twenty :
  (let st :=
     Dashboard.typeQuery Sample.remoteDown Sample.host "plant"
       Sample.twentyOneLoaded in
   Dashboard.allSystemsBasicInfo st = []
   /\ Dashboard.searchQuery st = "plant"
   /\ length (Dashboard.displayed st) = 21
   /\ DashboardView.renderFooter st = DashboardView.EndOfSearchResults true
   /\ length
        (Dashboard.displayed
           (Dashboard.typeQuery Sample.remoteDown Sample.host "plant"
              (Dashboard.setAllSystemsBasicInfo
                 (map
                    (fun e =>
                       Dashboard.BasicPvSystem.mk
                         (Dashboard.EnhancedPvSystem.id e)
                         (Dashboard.EnhancedPvSystem.name e)
                         (Dashboard.EnhancedPvSystem.address e) None)
                    (Dashboard.pvSystems Sample.twentyOneLoaded))
                 Sample.twentyOneLoaded)))
      = 20)
  /\ (let before :=
        Dashboard.run Sample.remoteDown Sample.host
          [ Dashboard.PageSettled (Fulfilled (Some Sample.pageOne));
            Dashboard.DirectorySettled (Fulfilled (Some Sample.plantDirectory));
            Dashboard.EndReached;
            Dashboard.Typed "plant" ] in
      let after :=
        Dashboard.step Sample.remoteDown Sample.host
          (Dashboard.PageSettled (Fulfilled (Some Sample.pageTwo))) before in
      length (Dashboard.allSystemsBasicInfo (Dashboard.ui before)) = 25
      /\ Dashboard.pagesInFlight before = [1]
      /\ length (Dashboard.displayed (Dashboard.ui before)) = 20
      /\ Dashboard.searchQuery (Dashboard.ui after) = "plant"
      /\ length (Dashboard.allSystemsBasicInfo (Dashboard.ui after)) = 25
      /\ Dashboard.inflight after = []
      /\ length (Dashboard.displayed (Dashboard.ui after)) = 30
      /\ DashboardView.renderFooter (Dashboard.ui after)
         = DashboardView.EndOfSearchResults true).
Proof. vm_compute. repeat split. Qed.

(** The search on the directory itself stops at twenty: of twenty-five
    matching entries twenty are shown. *)
Example search_capped_with_directory :
  length
    (filter (Dashboard.matchesBasic "plant")
       (Dashboard.allSystemsBasicInfo Sample.bigDirectory)) = 25
  /\ length
       (Dashboard.displayed
          (Dashboard.searchEffect Sample.remoteDown Sample.host
             (Dashboard.setSearchQuery "Plant" Sample.bigDirectory))) = 20.
Proof. vm_compute. split; reflexivity. Qed.

(** C5, at the input where the code leaves it: one system is loaded, the
    directory is empty, and the query is one space.  The query trims to
    nothing, so the footer and load-more take the list for the paginated one,
    but the list shown was filtered by the space and is empty; the
    paginated list of one record is not restored.  Going on to the empty
    query restores it, and with a directory the space restores it too
    ([empty_query_restores_without_directory],
    [blank_query_restores_with_directory]). *)
Theorem C5_blank_query_without_directory :
  let st :=
    Dashboard.typeQuery Sample.remoteDown Sample.host " " Sample.oneLoaded in
  Js.trim (Dashboard.searchQuery st) = ""
  /\ Dashboard.allSystemsBasicInfo st = []
  /\ Dashboard.pvSystems st = [Sample.alphaLoaded]
  /\ Dashboard.displayed st = []
  /\ Dashboard.handleLoadMore st = Some (1, false)
  /\ Dashboard.displayed
       (Dashboard.typeQuery Sample.remoteDown Sample.host "" st)
     = [Sample.alphaLoaded]
  /\ Dashboard.displayed
       (Dashboard.typeQuery Sample.remoteDown Sample.host " "
          (Dashboard.setAllSystemsBasicInfo [Sample.alphaBasic]
             Sample.oneLoaded))
     = [Sample.alphaLoaded].
Proof. vm_compute. repeat split. Qed.

(** ** Status *)

Section StatusList.

Import Dashboard.

Variables (r : Remote.t) (h : Host.t).

Lemma determineStatus_online fd :
  determineStatus fd = online
  <-> exists f s,
      fd = Some f /\ FlowDataResponse.status f = Some s
      /\ FlowDataResponse.isOnline s = true.
Proof.
  unfold determineStatus. split.
  - destruct fd as [f|]; [|discriminate].
    destruct (FlowDataResponse.status f) as [s|] eqn:Es; [|discriminate].
    destruct (FlowDataResponse.isOnline s) eqn:Eo; [|discriminate].
    intros _. exists f, s. repeat split; assumption.
  - intros (f & s & -> & Hs & Ho). rewrite Hs, Ho. reflexivity.
Qed.

Lemma determineStatus_not_warning fd : determineStatus fd <> warning.
Proof.
  unfold determineStatus. destruct fd as [f|]; [|discriminate].
  destruct (FlowDataResponse.status f) as [s|]; [|discriminate].
  destruct (FlowDataResponse.isOnline s); discriminate.
Qed.

Lemma determineStatus_flowOnline fd :
  determineStatus fd = online <-> Props.flowOnline (Fulfilled fd).
Proof.
  rewrite determineStatus_online. unfold Props.flowOnline. split.
  - intros (f & s & -> & Hs & Ho). exists f, s. repeat split; assumption.
  - intros (f & s & Hf & Hs & Ho). inversion Hf; subst.
    exists f, s. repeat split; assumption.
Qed.

Lemma rejected_not_flowOnline reason :
  ~ Props.flowOnline (@Rejected (option FlowDataResponse.t) reason).
Proof. intros (f & s & Hf & _). discriminate Hf. Qed.

(** A page record is online exactly when the telemetry fetch succeeded and
    reported the system online, whatever the aggregate fetch did. *)
Lemma enrichPageItem_status sys :
  let e := enrichPageItem r h sys in
  (EnhancedPvSystem.status e = online
   <-> Props.flowOnline
         (Remote.getPvSystemFlowData r (PvSystemMetadata.pvSystemId sys)))
  /\ EnhancedPvSystem.status e <> warning.
Proof.
  cbn zeta. unfold enrichPageItem.
  destruct (Remote.getPvSystemFlowData r (PvSystemMetadata.pvSystemId sys))
    as [fd|reason].
  - destruct (Remote.getPvSystemAggregatedData r _);
      cbn [formatPvSystemData EnhancedPvSystem.status];
      (split; [apply determineStatus_flowOnline
              | apply determineStatus_not_warning]).
  - cbn. split; [|discriminate]. split; [discriminate|].
    intros H. destruct (rejected_not_flowOnline reason H).
Qed.

(** A search record fetched afresh is online exactly when all three fetches
    succeeded and the telemetry reported the system online. *)
Lemma enrichSearchResult_status loaded b :
  Js.find (fun sys => String.eqb (EnhancedPvSystem.id sys) (BasicPvSystem.id b))
    loaded = None ->
  let e := enrichSearchResult r h loaded b in
  (EnhancedPvSystem.status e = online
   <-> Props.flowOnline (Remote.getPvSystemFlowData r (BasicPvSystem.id b))
       /\ Props.fulfilled (Remote.getPvSystemDetails r (BasicPvSystem.id b))
       /\ Props.fulfilled
            (Remote.getPvSystemAggregatedData r (BasicPvSystem.id b)))
  /\ EnhancedPvSystem.status e <> warning.
Proof.
  intros Hf. cbn zeta. unfold enrichSearchResult. rewrite Hf.
  destruct (Remote.getPvSystemFlowData r (BasicPvSystem.id b)) as [fd|reason].
  - destruct (Remote.getPvSystemDetails r (BasicPvSystem.id b));
      [destruct (Remote.getPvSystemAggregatedData r (BasicPvSystem.id b))|];
      cbn [formatPvSystemData partialSystem EnhancedPvSystem.status
             Props.fulfilled].
    + split; [|apply determineStatus_not_warning].
      rewrite determineStatus_flowOnline. tauto.
    + split; [|discriminate]. split; [discriminate | tauto].
    + split; [|discriminate]. split; [discriminate | tauto].
  - cbn. split; [|discriminate]. split; [discriminate|].
    intros [H _]. destruct (rejected_not_flowOnline reason H).
Qed.

(** The list view never makes a warning: a search shows no warning if the
    loaded list has none. *)
Lemma search_no_warning cl q st :
  Forall (fun e => EnhancedPvSystem.status e <> warning) (pvSystems cl) ->
  Forall (fun e => EnhancedPvSystem.status e <> warning)
    (displayed (applySearchFilter r h cl q st)).
Proof.
  intros Hl. unfold applySearchFilter.
  destruct (negb (Js.truthy (Js.trim q))); [exact Hl|].
  destruct (length _ =? 0)%nat; [constructor|].
  cbn. apply Forall_map, Forall_forall. intros b _.
  unfold enrichSearchResult, Js.find.
  destruct (find _ (pvSystems cl)) as [e|] eqn:Ef.
  - apply find_some in Ef. destruct Ef as [Hin _].
    rewrite Forall_forall in Hl. apply Hl, Hin.
  - destruct (Remote.getPvSystemFlowData r _); [|discriminate].
    destruct (Remote.getPvSystemDetails r _); [|discriminate].
    destruct (Remote.getPvSystemAggregatedData r _); [|discriminate].
    apply determineStatus_not_warning.
Qed.

End StatusList.

Section NoWarning.

Import Dashboard.

Variables (r : Remote.t) (h : Host.t).

Lemma enrichPageItem_not_warning sys :
  EnhancedPvSystem.status (enrichPageItem r h sys) <> warning.
Proof. apply (enrichPageItem_status r h sys). Qed.

Lemma sorted_page_no_warning systems :
  Forall Props.NotWarning
    (Js.sort (compareSystems h) (map (enrichPageItem r h) systems)).
Proof.
  eapply Permutation_Forall; [apply Permutation_sym, sort_perm|].
  apply Forall_map, Forall_forall. intros sys _.
  apply enrichPageItem_not_warning.
Qed.

Lemma searchEffect_no_warning st :
  Props.NoWarning st -> Props.NoWarning (searchEffect r h st).
Proof.
  intros [Hp Hf]. unfold searchEffect.
  destruct (0 <? length (allSystemsBasicInfo st))%nat.
  - split.
    + rewrite (proj2 (proj2 (proj2 (proj2
                (applySearchFilter_paging r h st (searchQuery st) st))))).
      exact Hp.
    + apply search_no_warning, Hp.
  - destruct (0 <? length (pvSystems st))%nat; [|split; assumption].
    split; [exact Hp|]. cbn.
    apply Forall_forall. intros e He. apply filter_In in He.
    rewrite Forall_forall in Hp. apply Hp, He.
Qed.

Lemma resume_no_warning cl page fetched st :
  Props.NoWarning cl -> Props.NoWarning st ->
  Props.NoWarning (loadPvSystemsPage_resume r h cl page fetched st).
Proof.
  intros [Hcp Hcf] [Hp Hf].
  unfold loadPvSystemsPage_resume.
  destruct fetched as [[[|x l]|]|]; try (destruct (page =? 0)%nat; split; assumption);
    try (split; assumption).
  set (sorted := Js.sort (compareSystems h) (map (enrichPageItem r h) (x :: l))).
  assert (Hs : Forall Props.NotWarning sorted) by apply sorted_page_no_warning.
  assert (Hnew : Forall Props.NotWarning
                   (if (page =? 0)%nat then sorted else pvSystems st ++ sorted)%list).
  { destruct (page =? 0)%nat; [exact Hs|]. apply Forall_app. split; assumption. }
  destruct (Js.truthy (Js.trim (searchQuery cl))).
  - split.
    + cbn [pvSystems setIsLoadingMore setLoading setCurrentPage].
      rewrite (proj2 (proj2 (proj2 (proj2
                (applySearchFilter_paging r h cl (searchQuery cl) _))))).
      exact Hnew.
    + cbn [filteredSystems setIsLoadingMore setLoading setCurrentPage].
      apply (search_no_warning r h cl (searchQuery cl)). exact Hcp.
  - split; [exact Hnew|]. cbn.
    destruct (page =? 0)%nat; [exact Hs|]. apply Forall_app. split; assumption.
Qed.

Lemma step_no_warning ev sc :
  Props.NoWarning (ui sc) ->
  Forall (fun p => Props.NoWarning (closure p)) (inflight sc) ->
  Props.NoWarning (ui (step r h ev sc))
  /\ Forall (fun p => Props.NoWarning (closure p)) (inflight (step r h ev sc)).
Proof.
  intros Hu Hi. destruct ev as [| |q|fetched|fetched]; cbn [step].
  - split; [rewrite onEndReached_ui; exact Hu|].
    unfold onEndReached. destruct (handleLoadMore (ui sc)) as [[p b]|];
      [|exact Hi].
    cbn. apply Forall_app. split; [exact Hi|]. constructor; [exact Hu|constructor].
  - split; [exact Hu|]. cbn. apply Forall_app. split; [exact Hi|].
    constructor; [|constructor]. split; constructor.
  - split; [|exact Hi]. cbn [ui]. unfold typeQuery.
    destruct (String.eqb q _); [exact Hu|].
    apply searchEffect_no_warning. exact Hu.
  - unfold settle. destruct (inflight sc) as [|p rest] eqn:E.
    { split; [exact Hu | rewrite E; constructor]. }
    inversion Hi as [|? ? Hp Hrest]; subst.
    split; [|exact Hrest]. cbn [ui].
    pose proof (resume_no_warning (closure p) (page p) fetched (ui sc) Hp Hu)
      as Hn.
    destruct (viaRefresh p); exact Hn.
  - unfold directoryLoaded.
    assert (Hl : Props.NoWarning (loadAllSystemsBasicInfo_resume fetched (ui sc))).
    { unfold loadAllSystemsBasicInfo_resume.
      destruct fetched as [[[|x l]|]|]; exact Hu. }
    destruct fetched as [[[|x l]|]|]; cbn [ui inflight]; split;
      try exact Hi; try exact Hl.
    apply searchEffect_no_warning, Hl.
Qed.

(** In no run of the dashboard is a record with status "warning" loaded or
    shown. *)
Lemma run_no_warning evs : Props.NoWarning (ui (run r h evs)).
Proof.
  unfold run.
  assert (H : forall sc,
             Props.NoWarning (ui sc) ->
             Forall (fun p => Props.NoWarning (closure p)) (inflight sc) ->
             Props.NoWarning
               (ui (fold_left (fun sc ev => step r h ev sc) evs sc))).
  { induction evs as [|ev evs IH]; intros sc Hu Hi; [exact Hu|].
    cbn [fold_left]. destruct (step_no_warning ev sc Hu Hi) as [Hu' Hi'].
    apply IH; assumption. }
  apply H.
  - split; constructor.
  - cbn. constructor; [split; constructor | constructor].
Qed.

End NoWarning.

Section StatusDetail.

Import Detail.

Lemma latestErrorMessages_nonempty st :
  (0 <? length (latestErrorMessages st))%nat = true
  <-> exists m, In m (messages st) /\ SystemMessage.stateSeverity m = "Error".
Proof.
  unfold latestErrorMessages. split.
  - destruct (filter _ (messages st)) as [|m l] eqn:Ef; [discriminate|].
    intros _. exists m.
    assert (Hin : In m (filter
                          (fun m => String.eqb (SystemMessage.stateSeverity m)
                                      "Error") (messages st)))
      by (rewrite Ef; left; reflexivity).
    apply filter_In in Hin. destruct Hin as [Hin Heq].
    split; [exact Hin | apply String.eqb_eq, Heq].
  - intros (m & Hin & Hs).
    assert (Hf : In m (filter
                         (fun m => String.eqb (SystemMessage.stateSeverity m)
                                     "Error") (messages st))).
    { apply filter_In. split; [exact Hin | apply String.eqb_eq, Hs]. }
    destruct (filter _ (messages st)); [contradiction | reflexivity].
Qed.

(** The three cases of the detail view's status. *)
Lemma systemStatus_cases st :
  (systemStatus st = offline <-> systemIsOnline st = false)
  /\ (systemStatus st = warning
      <-> systemIsOnline st = true
          /\ exists m, In m (messages st)
                       /\ SystemMessage.stateSeverity m = "Error")
  /\ (systemStatus st = online
      <-> systemIsOnline st = true
          /\ forall m, In m (messages st) ->
                       SystemMessage.stateSeverity m <> "Error").
Proof.
  unfold systemStatus.
  pose proof (latestErrorMessages_nonempty st) as Hm.
  destruct (systemIsOnline st); cbn [negb].
  - destruct (0 <? length (latestErrorMessages st))%nat.
    + assert (He : exists m, In m (messages st)
                             /\ SystemMessage.stateSeverity m = "Error")
        by (apply Hm; reflexivity).
      split; [split; discriminate|]. split.
      * split; [intros _; split; [reflexivity | exact He] | reflexivity].
      * split; [discriminate|]. intros [_ Hn].
        destruct He as (m & Hin & Hs). destruct (Hn m Hin Hs).
    + split; [split; discriminate|]. split.
      * split; [discriminate|]. intros [_ He].
        apply Hm in He. discriminate He.
      * split; [|reflexivity]. intros _. split; [reflexivity|].
        intros m Hin Hs.
        assert (Ht : false = true) by (apply Hm; exists m; split; assumption).
        discriminate Ht.
  - split; [split; reflexivity|]. split; split; try discriminate.
    + intros [H _]. discriminate H.
    + intros [H _]. discriminate H.
Qed.

End StatusDetail.

(** C6, as the code has it.  The list view gives "online" or "offline",
    never "warning": in no run of the dashboard is a record with a warning
    shown.  A record of a page is online exactly when the live
    telemetry fetch succeeded and reported [isOnline] true: a failed fetch,
    a [null] answer, a missing status or a disconnected system give
    "offline", and the aggregate fetch plays no part.  A search record that
    is fetched afresh is online exactly when, besides, the details and the
    aggregate fetches succeeded: a failure of any of the three gives
    "offline".  In the detail view the status is "offline" when the system
    is not online, "warning" when it is online with at least one message of
    severity "Error", and "online" otherwise. *)
Theorem C6_status_of_a_system :
  forall (r : Remote.t) (h : Host.t),
    (forall fd,
        (Dashboard.determineStatus fd = Dashboard.online
         <-> exists f s,
             fd = Some f /\ FlowDataResponse.status f = Some s
             /\ FlowDataResponse.isOnline s = true)
        /\ Dashboard.determineStatus fd <> Dashboard.warning)
    /\ (forall sys,
           let e := Dashboard.enrichPageItem r h sys in
           (Dashboard.EnhancedPvSystem.status e = Dashboard.online
            <-> Props.flowOnline
                  (Remote.getPvSystemFlowData r
                     (PvSystemMetadata.pvSystemId sys)))
           /\ Dashboard.EnhancedPvSystem.status e <> Dashboard.warning)
    /\ (forall loaded b,
           Js.find
             (fun sys =>
                String.eqb (Dashboard.EnhancedPvSystem.id sys)
                  (Dashboard.BasicPvSystem.id b)) loaded = None ->
           let id := Dashboard.BasicPvSystem.id b in
           let e := Dashboard.enrichSearchResult r h loaded b in
           (Dashboard.EnhancedPvSystem.status e = Dashboard.online
            <-> Props.flowOnline (Remote.getPvSystemFlowData r id)
                /\ Props.fulfilled (Remote.getPvSystemDetails r id)
                /\ Props.fulfilled (Remote.getPvSystemAggregatedData r id))
           /\ Dashboard.EnhancedPvSystem.status e <> Dashboard.warning)
    /\ (forall evs,
           Forall Props.NotWarning
             (Dashboard.displayed (Dashboard.ui (Dashboard.run r h evs))))
    /\ (forall st,
           (Detail.systemStatus st = Detail.offline
            <-> Detail.systemIsOnline st = false)
           /\ (Detail.systemStatus st = Detail.warning
               <-> Detail.systemIsOnline st = true
                   /\ exists m, In m (Detail.messages st)
                                /\ SystemMessage.stateSeverity m = "Error")
           /\ (Detail.systemStatus st = Detail.online
               <-> Detail.systemIsOnline st = true
                   /\ forall m, In m (Detail.messages st) ->
                                SystemMessage.stateSeverity m <> "Error")).
Proof.
  intros r h. split; [|split; [|split; [|split]]].
  - intros fd. split;
      [apply determineStatus_online | apply determineStatus_not_warning].
  - intros sys. apply enrichPageItem_status.
  - intros loaded b Hf. apply enrichSearchResult_status, Hf.
  - intros evs. apply run_no_warning.
  - apply systemStatus_cases.
Qed.

Lemma C6_status_of_a_system_witness :
  let b := Dashboard.BasicPvSystem.mk "s21" "Barn s21" "" None in
  Js.find
    (fun sys =>
       String.eqb (Dashboard.EnhancedPvSystem.id sys)
         (Dashboard.BasicPvSystem.id b)) [] = None
  /\ Dashboard.EnhancedPvSystem.status
       (Dashboard.enrichSearchResult Sample.remoteOneOnline Sample.host [] b)
     = Dashboard.online.
Proof.
  intros b. split; [reflexivity|].
  destruct (proj1 (proj2 (proj2
              (C6_status_of_a_system Sample.remoteOneOnline Sample.host)))
              [] b eq_refl) as [[_ Hback] _].
  apply Hback. split; [|split; exact I].
  exists (Sample.onlineFlow 3200), (FlowDataResponse.mkStatus true).
  repeat split.
Defined.

(** C6 as stated fails in a search: the live telemetry of the matched
    system answers and reports it online, its details fetch is rejected,
    and the record shown is offline. *)
Lemma C6_search_record_offline_with_online_telemetry :
  Props.flowOnline (Remote.getPvSystemFlowData Sample.remoteNoDetails "s01")
  /\ map
       (fun e =>
          (Dashboard.EnhancedPvSystem.id e, Dashboard.EnhancedPvSystem.status e))
       (Dashboard.displayed
          (Dashboard.applySearchFilter Sample.remoteNoDetails Sample.host
             Sample.directoryOnly "alp" Sample.directoryOnly))
     = [("s01", Dashboard.offline)].
Proof.
  split; [|reflexivity].
  exists (Sample.onlineFlow 3200), (FlowDataResponse.mkStatus true).
  repeat split.
Qed.

(** ** The batch of the detail screen *)

Section Batch.

Import Detail.

Arguments whenFulfilled : simpl never.

Lemma whenFulfilled_frame {A B : Type} (proj : State -> B) (r : Settled A)
    (f : A -> State -> State) (st : State) :
  (forall v s, proj (f v s) = proj s) ->
  proj (whenFulfilled r f st) = proj st.
Proof. intros Hf. destruct r; [apply Hf | reflexivity]. Qed.

Lemma whenFulfilled_own {A B : Type} (proj : State -> B) (r : Settled A)
    (f : A -> State -> State) (g : A -> B) (st : State) :
  (forall v s, proj (f v s) = g v) ->
  proj (whenFulfilled r f st) = Props.kept r g (proj st).
Proof. intros Hf. destruct r; [apply Hf | reflexivity]. Qed.

Ltac peel :=
  repeat first
    [ rewrite whenFulfilled_frame by (intros; reflexivity)
    | match goal with
      | |- context [match msgs ?b with _ => _ end] =>
          destruct (msgs b) as [[?|]|?]
      end
    | progress cbn ].

Ltac untouched := peel; reflexivity.

Ltac own proj g :=
  peel; rewrite (whenFulfilled_own proj _ _ g) by (intros; reflexivity);
  unfold Props.kept; peel; reflexivity.

Lemma settle_fulfilled b st d :
  details b = Fulfilled d ->
  let st' := fetchAllData_settle b st in
  (pvSystemDetails st' = Some d
   /\ error st' = error st
   /\ loading st' = false
   /\ refreshing st' = false
   /\ hasAccess st' = hasAccess st
   /\ checkingAccess st' = checkingAccess st)
  /\ flowData st' = Props.kept (flow b) (fun v => v) (flowData st)
  /\ aggregatedDataToday st'
     = Props.kept (aggrToday b) Some (aggregatedDataToday st)
  /\ weeklyEnergyProduction st'
     = Props.kept (aggrWeek b)
         (fun v => Some (sumChannel "EnergyProductionTotal"
                           (AggregatedDataResponse.data v)))
         (weeklyEnergyProduction st)
  /\ monthlyEnergyProduction st'
     = Props.kept (aggrMonth b)
         (fun v => Some (sumChannel "EnergyProductionTotal"
                           (AggregatedDataResponse.data v)))
         (monthlyEnergyProduction st)
  /\ yearlyEnergyProduction st'
     = Props.kept (aggrYear b)
         (fun v => Some (sumChannel "EnergyProductionTotal"
                           (AggregatedDataResponse.data v)))
         (yearlyEnergyProduction st)
  /\ dailyCo2Savings st'
     = Props.kept (aggrCo2Today b)
         (fun v => findChannelValue (firstRowChannels v) "SavingsCO2")
         (dailyCo2Savings st)
  /\ weeklyCo2Savings st'
     = Props.kept (aggrCo2Week b)
         (fun v => Some (sumChannel "SavingsCO2"
                           (AggregatedDataResponse.data v)))
         (weeklyCo2Savings st)
  /\ monthlyCo2Savings st'
     = Props.kept (aggrCo2Month b)
         (fun v => Some (sumChannel "SavingsCO2"
                           (AggregatedDataResponse.data v)))
         (monthlyCo2Savings st)
  /\ yearlyCo2Savings st'
     = Props.kept (aggrCo2Year b)
         (fun v => Some (sumChannel "SavingsCO2"
                           (AggregatedDataResponse.data v)))
         (yearlyCo2Savings st)
  /\ aggregatedDataTotal st'
     = Props.kept (aggrTotal b) Some (aggregatedDataTotal st)
  /\ weatherData st' = Props.kept (weather b) Some (weatherData st)
  /\ messages st'
     = match msgs b with Fulfilled (Some l) => l | _ => [] end
  /\ devices st'
     = Props.kept (devs b)
         (fun v => match v with Some l => l | None => [] end) (devices st).
Proof.
  intros Hd. unfold fetchAllData_settle. rewrite Hd. cbn zeta.
  split; [repeat split; untouched|].
  split; [own flowData (fun v : option FlowDataResponse.t => v)|].
  split; [own aggregatedDataToday (@Some AggregatedDataResponse.t)|].
  split; [own weeklyEnergyProduction
            (fun v => Some (sumChannel "EnergyProductionTotal"
                              (AggregatedDataResponse.data v)))|].
  split; [own monthlyEnergyProduction
            (fun v => Some (sumChannel "EnergyProductionTotal"
                              (AggregatedDataResponse.data v)))|].
  split; [own yearlyEnergyProduction
            (fun v => Some (sumChannel "EnergyProductionTotal"
                              (AggregatedDataResponse.data v)))|].
  split; [own dailyCo2Savings
            (fun v => findChannelValue (firstRowChannels v) "SavingsCO2")|].
  split; [own weeklyCo2Savings
            (fun v => Some (sumChannel "SavingsCO2"
                              (AggregatedDataResponse.data v)))|].
  split; [own monthlyCo2Savings
            (fun v => Some (sumChannel "SavingsCO2"
                              (AggregatedDataResponse.data v)))|].
  split; [own yearlyCo2Savings
            (fun v => Some (sumChannel "SavingsCO2"
                              (AggregatedDataResponse.data v)))|].
  split; [own aggregatedDataTotal (@Some AggregatedDataResponse.t)|].
  split; [own weatherData (@Some CurrentWeatherResponse.t)|].
  split; [untouched|].
  own devices
    (fun v : option (list DeviceMetadata.t) =>
       match v with Some l => l | None => [] end).
Qed.


(** A rejected system details fetch: the error is set, no other result of
    the batch is looked at. *)
Lemma settle_rejected b st reason :
  details b = Rejected reason ->
  fetchAllData_settle b st
  = setRefreshing false
      (setLoading false
         (setError (Some ("Failed to load system data: " ++ reason)) st)).
Proof. intros Hd. unfold fetchAllData_settle. rewrite Hd. reflexivity. Qed.

(** The error view, with its Retry, is what a screen with an error shows
    once access is checked and not refused and nothing is loading. *)
Lemma render_error st e :
  hasAccess st <> Some false ->
  checkingAccess st = false ->
  loading st = false ->
  error st = Some e ->
  Js.truthy e = true ->
  render st = ErrorView e true.
Proof.
  intros Ha Hc Hl He Ht. unfold render. rewrite Hc, Hl, He, Ht.
  destruct (hasAccess st) as [[|]|]; try reflexivity. congruence.
Qed.



End Batch.

(** C7, as the code has it.  The batch settles as a whole and each result
    is looked at on its own.  When the system details fetch is rejected the
    error is set, no cell of data is touched, and the screen shows the error
    view with its Retry.  When it is fulfilled, every cell is made from its
    own result alone: from the value of a fulfilled fetch, and for a
    rejected fetch the cell keeps what it held before the batch (nothing on
    a first load, the last value on a refresh), except the messages, which
    become empty. *)
Theorem C7_batch_settles_independently :
  forall (b : Detail.Batch) (st : Detail.State),
    let st' := Detail.fetchAllData_settle b st in
    (forall reason,
        Detail.details b = Rejected reason ->
        st' = Detail.setRefreshing false
                (Detail.setLoading false
                   (Detail.setError
                      (Some ("Failed to load system data: " ++ reason)) st))
        /\ (Detail.hasAccess st <> Some false ->
            Detail.checkingAccess st = false ->
            Detail.render st'
            = Detail.ErrorView ("Failed to load system data: " ++ reason)
                true))
    /\ (forall d,
           Detail.details b = Fulfilled d ->
           (Detail.pvSystemDetails st' = Some d
            /\ Detail.error st' = Detail.error st)
           /\ Detail.flowData st'
              = Props.kept (Detail.flow b) (fun v => v) (Detail.flowData st)
           /\ Detail.aggregatedDataToday st'
              = Props.kept (Detail.aggrToday b) Some
                  (Detail.aggregatedDataToday st)
           /\ Detail.weeklyEnergyProduction st'
              = Props.kept (Detail.aggrWeek b)
                  (fun v =>
                     Some (Detail.sumChannel "EnergyProductionTotal"
                             (AggregatedDataResponse.data v)))
                  (Detail.weeklyEnergyProduction st)
           /\ Detail.monthlyEnergyProduction st'
              = Props.kept (Detail.aggrMonth b)
                  (fun v =>
                     Some (Detail.sumChannel "EnergyProductionTotal"
                             (AggregatedDataResponse.data v)))
                  (Detail.monthlyEnergyProduction st)
           /\ Detail.yearlyEnergyProduction st'
              = Props.kept (Detail.aggrYear b)
                  (fun v =>
                     Some (Detail.sumChannel "EnergyProductionTotal"
                             (AggregatedDataResponse.data v)))
                  (Detail.yearlyEnergyProduction st)
           /\ Detail.dailyCo2Savings st'
              = Props.kept (Detail.aggrCo2Today b)
                  (fun v =>
                     Detail.findChannelValue (Detail.firstRowChannels v)
                       "SavingsCO2")
                  (Detail.dailyCo2Savings st)
           /\ Detail.weeklyCo2Savings st'
              = Props.kept (Detail.aggrCo2Week b)
                  (fun v =>
                     Some (Detail.sumChannel "SavingsCO2"
                             (AggregatedDataResponse.data v)))
                  (Detail.weeklyCo2Savings st)
           /\ Detail.monthlyCo2Savings st'
              = Props.kept (Detail.aggrCo2Month b)
                  (fun v =>
                     Some (Detail.sumChannel "SavingsCO2"
                             (AggregatedDataResponse.data v)))
                  (Detail.monthlyCo2Savings st)
           /\ Detail.yearlyCo2Savings st'
              = Props.kept (Detail.aggrCo2Year b)
                  (fun v =>
                     Some (Detail.sumChannel "SavingsCO2"
                             (AggregatedDataResponse.data v)))
                  (Detail.yearlyCo2Savings st)
           /\ Detail.aggregatedDataTotal st'
              = Props.kept (Detail.aggrTotal b) Some
                  (Detail.aggregatedDataTotal st)
           /\ Detail.weatherData st'
              = Props.kept (Detail.weather b) Some (Detail.weatherData st)
           /\ Detail.messages st'
              = match Detail.msgs b with
                | Fulfilled (Some l) => l
                | _ => []
                end
           /\ Detail.devices st'
              = Props.kept (Detail.devs b)
                  (fun v => match v with Some l => l | None => [] end)
                  (Detail.devices st)).
Proof.
  intros b st st'. split.
  - intros reason Hd. subst st'. rewrite (settle_rejected b st reason Hd).
    split; [reflexivity|].
    intros Ha Hc. apply render_error; try reflexivity; assumption.
  - intros d Hd.
    destruct (settle_fulfilled b st d Hd) as ((H1 & H2 & _) & H).
    split; [split; assumption | exact H].
Qed.

Lemma C7_batch_settles_independently_witness :
  Detail.render
    (Detail.fetchAllData_settle SampleDetail.detailsFailedBatch
       SampleDetail.granted)
  = Detail.ErrorView "Failed to load system data: timeout" true
  /\ Detail.flowData
       (Detail.fetchAllData_settle SampleDetail.flowFailedBatch
          SampleDetail.granted) = None
  /\ Detail.weeklyEnergyProduction
       (Detail.fetchAllData_settle SampleDetail.flowFailedBatch
          SampleDetail.granted)
     = Some (Detail.sumChannel "EnergyProductionTotal"
               (SampleDetail.rows "EnergyProductionTotal"
                  SampleDetail.weekValues)).
Proof.
  split; [|split].
  - apply (proj2 (proj1 (C7_batch_settles_independently
                           SampleDetail.detailsFailedBatch SampleDetail.granted)
                    "timeout" eq_refl)).
    + discriminate.
    + reflexivity.
  - apply (proj1 (proj2 (proj2 (C7_batch_settles_independently
                           SampleDetail.flowFailedBatch SampleDetail.granted)
                          (Sample.system "s01" "Alpha Roof") eq_refl))).
  - apply (proj1 (proj2 (proj2 (proj2 (proj2
             (C7_batch_settles_independently
                SampleDetail.flowFailedBatch SampleDetail.granted)
             (Sample.system "s01" "Alpha Roof") eq_refl))))).
Defined.

(** C7 as stated fails on a refresh: the first batch loaded the live
    telemetry (3200 W, online), in the second batch that fetch is rejected;
    the current power is still shown as "3.2 kW" and the status as online,
    not as unavailable. *)
Lemma C7_rejected_fetch_on_refresh_keeps_old_value :
  let first :=
    Detail.fetchAllData_settle SampleDetail.goodBatch SampleDetail.granted in
  let second := Detail.fetchAllData_settle SampleDetail.flowFailedBatch first in
  Props.rejected (Detail.flow SampleDetail.flowFailedBatch)
  /\ Detail.metric "today" "Current Power" second = Some "3.2 kW"
  /\ Detail.systemStatus second = Detail.online.
Proof. vm_compute. split; [exact I | split; reflexivity]. Qed.



(** ** The access check *)

Section Access.

Import Detail.

(** With access refused, none of the functions that fetch lets a request
    out. *)
Lemma refused_no_request pvSystemId p st :
  hasAccess st = Some false ->
  snd (fetchAllData_begin pvSystemId st) = []
  /\ snd (fetchHistoricalData_begin pvSystemId p st) = []
  /\ snd (dataLoadEffect pvSystemId st) = []
  /\ snd (historicalEffect pvSystemId st) = []
  /\ snd (onRefresh pvSystemId st) = [].
Proof.
  intros Ha.
  assert (H1 : forall s, hasAccess s = Some false ->
                         fetchAllData_begin pvSystemId s = (s, [])).
  { intros s Hs. unfold fetchAllData_begin. rewrite Hs. reflexivity. }
  assert (H2 : forall q s, hasAccess s = Some false ->
                           fetchHistoricalData_begin pvSystemId q s = (s, [])).
  { intros q s Hs. unfold fetchHistoricalData_begin. rewrite Hs.
    destruct (validId pvSystemId); reflexivity. }
  split; [rewrite H1 by assumption; reflexivity|].
  split; [rewrite H2 by assumption; reflexivity|].
  split.
  - unfold dataLoadEffect. destruct (checkingAccess st); [reflexivity|].
    rewrite Ha. reflexivity.
  - split.
    + unfold historicalEffect. rewrite Ha. reflexivity.
    + unfold onRefresh. rewrite H1 by exact Ha. rewrite H2 by exact Ha.
      reflexivity.
Qed.

Lemma guarded_render st :
  Props.Guarded st -> render st = AccessDenied \/ render st = LoadingView.
Proof.
  unfold render. intros [Ha | [Ha Hc]]; rewrite Ha.
  - destruct (checkingAccess st); [|left; reflexivity].
    right. rewrite orb_true_r. reflexivity.
  - rewrite Hc, orb_true_r. right. reflexivity.
Qed.

Lemma settle_access b st :
  hasAccess (fetchAllData_settle b st) = hasAccess st
  /\ checkingAccess (fetchAllData_settle b st) = checkingAccess st.
Proof.
  destruct (details b) as [d|reason] eqn:Hd.
  - destruct (settle_fulfilled b st d Hd) as ((_ & _ & _ & _ & H1 & H2) & _).
    split; assumption.
  - rewrite (settle_rejected b st reason Hd). split; reflexivity.
Qed.

Lemma chart_settle_access a st :
  hasAccess (fetchHistoricalData_settle a st) = hasAccess st
  /\ checkingAccess (fetchHistoricalData_settle a st) = checkingAccess st.
Proof.
  unfold fetchHistoricalData_settle.
  destruct a as [[[e|]|]|[[e|]|]]; try (split; reflexivity).
  - destruct (HistoricalDataResponse.data e); split; reflexivity.
  - destruct (AggregatedDataResponse.data e); split; reflexivity.
Qed.

Lemma checkAccess_denied auth id user st :
  Props.denies auth id user = true ->
  Props.Refused (checkAccess_settle auth id user st).
Proof.
  unfold Props.denies, checkAccess_settle, Props.Refused.
  destruct user as [[u|]|]; try (intros _; split; reflexivity).
  intros Hd. apply negb_true_iff in Hd. rewrite Hd. split; reflexivity.
Qed.

Lemma access_eq st st' :
  hasAccess st' = hasAccess st ->
  checkingAccess st' = checkingAccess st ->
  (Props.Guarded st -> Props.Guarded st')
  /\ (Props.Refused st -> Props.Refused st').
Proof.
  unfold Props.Guarded, Props.Refused. intros -> ->. tauto.
Qed.

(** One event of a run in which every access check refuses: no request
    leaves, and the screen stays guarded. *)
Lemma step_guarded auth id ev st :
  Props.Guarded st ->
  Props.deniedRun auth id [ev] = true ->
  snd (step auth id ev st) = []
  /\ Props.Guarded (fst (step auth id ev st))
  /\ (Props.Refused st -> Props.Refused (fst (step auth id ev st)))
  /\ (Props.accessChecked [ev] = true ->
      Props.Refused (fst (step auth id ev st))).
Proof.
  intros Hg Hden.
  assert (Hoff : forall e, enabled e st = false ->
                           Props.accessChecked [e] = false ->
                           snd (step auth id e st) = []
                           /\ Props.Guarded (fst (step auth id e st))
                           /\ (Props.Refused st ->
                               Props.Refused (fst (step auth id e st)))
                           /\ (Props.accessChecked [e] = true ->
                               Props.Refused (fst (step auth id e st)))).
  { intros e He Hc. unfold step. rewrite He, Hc. cbn [negb fst snd].
    split; [reflexivity|]. split; [exact Hg|].
    split; [tauto | intros H; discriminate H]. }
  assert (Hview : forall e,
             enabled e st
             = match e with
               | Refresh | SelectChartPeriod _ | DemoError _ => false
               | _ => true
               end).
  { intros e. unfold enabled.
    destruct (guarded_render st Hg) as [Hr | Hr]; rewrite Hr;
      destruct e; reflexivity. }
  destruct ev as [|user| |p|b|a|m];
    try (apply Hoff; [apply Hview | reflexivity]);
    unfold step; rewrite Hview; cbn [negb].
  - (* the effects *)
    assert (Hd : dataLoadEffect (Some id) st
                 = (if checkingAccess st then st else setLoading false st, [])).
    { unfold dataLoadEffect. destruct (checkingAccess st) eqn:Hc; [reflexivity|].
      destruct Hg as [Ha | [_ Hc']]; [rewrite Ha; reflexivity | congruence]. }
    rewrite Hd.
    set (st1 := if checkingAccess st then st else setLoading false st).
    assert (Ha1 : hasAccess st1 = hasAccess st)
      by (subst st1; destruct (checkingAccess st); reflexivity).
    assert (Hc1 : checkingAccess st1 = checkingAccess st)
      by (subst st1; destruct (checkingAccess st) eqn:E; exact E).
    assert (Hh : historicalEffect (Some id) st1 = (st1, [])).
    { unfold historicalEffect. rewrite Ha1.
      destruct Hg as [Ha | [Ha _]]; rewrite Ha; reflexivity. }
    rewrite Hh. cbn [fst snd app].
    destruct (access_eq st st1 Ha1 Hc1) as [G R].
    split; [reflexivity|]. split; [apply G, Hg|].
    split; [exact R | intros H; discriminate H].
  - (* the access check settles *)
    cbn [fst snd].
    assert (Hr : Props.Refused (checkAccess_settle auth id user st)).
    { apply checkAccess_denied. cbn in Hden.
      rewrite andb_true_r in Hden. exact Hden. }
    split; [reflexivity|]. split; [left; apply Hr|].
    split; intros _; exact Hr.
  - (* the batch settles *)
    cbn [fst snd]. destruct (settle_access b st) as [Ha Hc].
    destruct (access_eq st _ Ha Hc) as [G R].
    split; [reflexivity|]. split; [apply G, Hg|].
    split; [exact R | intros H; discriminate H].
  - (* the chart's request settles *)
    cbn [fst snd]. destruct (chart_settle_access a st) as [Ha Hc].
    destruct (access_eq st _ Ha Hc) as [G R].
    split; [reflexivity|]. split; [apply G, Hg|].
    split; [exact R | intros H; discriminate H].
Qed.

(** A whole run. *)
Lemma run_guarded auth id evs st :
  Props.Guarded st ->
  Props.deniedRun auth id evs = true ->
  snd (run auth id evs st) = []
  /\ Props.Guarded (fst (run auth id evs st))
  /\ (Props.Refused st \/ Props.accessChecked evs = true ->
      Props.Refused (fst (run auth id evs st))).
Proof.
  revert st. induction evs as [|ev evs IH]; intros st Hg Hden.
  - cbn. split; [reflexivity|]. split; [exact Hg|].
    intros [Hr | Hc]; [exact Hr | discriminate Hc].
  - assert (Hd1 : Props.deniedRun auth id [ev] = true).
    { cbn in *. apply andb_true_iff in Hden. rewrite (proj1 Hden).
      reflexivity. }
    assert (Hd2 : Props.deniedRun auth id evs = true).
    { cbn in Hden. apply andb_true_iff in Hden. apply Hden. }
    destruct (step_guarded auth id ev st Hg Hd1) as (Hs & Hg1 & Hr1 & Hc1).
    cbn [run]. destruct (step auth id ev st) as [st1 r1].
    cbn [fst snd] in *.
    destruct (IH st1 Hg1 Hd2) as (Hs2 & Hg2 & Hr2).
    destruct (run auth id evs st1) as [st2 r2]. cbn [fst snd] in *.
    subst r1 r2. split; [reflexivity|]. split; [exact Hg2|].
    intros [Hr | Hc].
    + apply Hr2. left. apply Hr1, Hr.
    + apply Hr2. cbn in Hc.
      destruct ev; cbn in Hc; try (right; exact Hc).
      left. apply Hc1. reflexivity.
Qed.

Lemma refused_render st : Props.Refused st -> render st = AccessDenied.
Proof. intros [Ha Hc]. unfold render. rewrite Ha, Hc. reflexivity. Qed.

Lemma initial_guarded : Props.Guarded initial.
Proof. right. split; reflexivity. Qed.

End Access.

(** C9.  When access is refused, none of the functions that fetch lets a
    request out, whatever the route parameter and the chart period.  And in
    every run of the screen from its first render in which the access check
    settles on "no access", no request leaves at all, neither for the batch
    nor for the chart; once the check has settled the screen shows the
    access-denied view. *)
Theorem C9_no_fetch_without_access :
  (forall pvSystemId p st,
      Detail.hasAccess st = Some false ->
      snd (Detail.fetchAllData_begin pvSystemId st) = []
      /\ snd (Detail.fetchHistoricalData_begin pvSystemId p st) = []
      /\ snd (Detail.dataLoadEffect pvSystemId st) = []
      /\ snd (Detail.historicalEffect pvSystemId st) = []
      /\ snd (Detail.onRefresh pvSystemId st) = [])
  /\ (forall auth id evs,
         Props.deniedRun auth id evs = true ->
         snd (Detail.run auth id evs Detail.initial) = []
         /\ (Props.accessChecked evs = true ->
             Detail.render (fst (Detail.run auth id evs Detail.initial))
             = Detail.AccessDenied)).
Proof.
  split.
  - intros pvSystemId p st Ha. apply refused_no_request, Ha.
  - intros auth id evs Hden.
    destruct (run_guarded auth id evs Detail.initial initial_guarded Hden)
      as (Hs & _ & Hr).
    split; [exact Hs|]. intros Hc. apply refused_render, Hr. right. exact Hc.
Qed.

Lemma C9_no_fetch_without_access_witness :
  snd (Detail.run SampleDetail.noAccess "s01" SampleDetail.deniedEvents
         Detail.initial) = []
  /\ Detail.render
       (fst (Detail.run SampleDetail.noAccess "s01" SampleDetail.deniedEvents
               Detail.initial))
     = Detail.AccessDenied.
Proof.
  destruct (proj2 C9_no_fetch_without_access SampleDetail.noAccess "s01"
              SampleDetail.deniedEvents eq_refl) as [Hs Hr].
  split; [exact Hs | exact (Hr eq_refl)].
Defined.

(** ** Decimal notation and earnings *)

Section Decimal.

Import Js.

Lemma digit_char_val d : (d < 10)%N -> digit_val (digit_char d) = d.
Proof.
  intros Hd. unfold digit_val, digit_char.
  rewrite N_ascii_embedding by lia. lia.
Qed.

Lemma digit_char_is_digit d : (d < 10)%N -> is_digit (digit_char d) = true.
Proof.
  intros Hd. unfold is_digit, digit_char.
  rewrite N_ascii_embedding by lia.
  apply andb_true_iff. split; apply N.leb_le; lia.
Qed.

Lemma fold_digits l a :
  fold_left (fun acc c => 10 * acc + digit_val c)%N l a
  = (a * 10 ^ N.of_nat (length l) + digits_val l)%N.
Proof.
  unfold digits_val. revert a.
  induction l as [|c l IH]; intros a; cbn [fold_left length].
  - cbn. lia.
  - rewrite (IH (10 * a + digit_val c)%N), (IH (10 * 0 + digit_val c)%N).
    rewrite Nat2N.inj_succ, N.pow_succ_r'.
    generalize (10 ^ N.of_nat (length l))%N (digit_val c)
      (fold_left (fun acc c0 => 10 * acc + digit_val c0)%N l 0%N).
    intros p d x. clear IH. nia.
Qed.

Lemma digits_val_cons c l :
  digits_val (c :: l)
  = (digit_val c * 10 ^ N.of_nat (length l) + digits_val l)%N.
Proof.
  unfold digits_val at 1. cbn [fold_left]. rewrite fold_digits.
  generalize (10 ^ N.of_nat (length l))%N (digit_val c) (digits_val l).
  intros p d x. nia.
Qed.

Lemma digits_acc_val fuel n acc :
  (n < 2 ^ N.of_nat fuel)%N ->
  digits_val (digits_acc fuel n acc)
  = (n * 10 ^ N.of_nat (length acc) + digits_val acc)%N.
Proof.
  revert n acc. induction fuel as [|k IH]; intros n acc Hn.
  - cbn in Hn. assert (n = 0%N) by lia. subst.
    rewrite N.mul_0_l, N.add_0_l. reflexivity.
  - cbn [digits_acc].
    assert (Hmod : (n mod 10 < 10)%N) by (apply N.mod_lt; lia).
    pose proof (N.div_mod n 10 ltac:(lia)) as Hdm.
    destruct (N.eqb_spec (n / 10) 0) as [Hz | Hz].
    + rewrite digits_val_cons, digit_char_val by assumption.
      rewrite Hz in Hdm. replace (n mod 10)%N with n by lia. reflexivity.
    + rewrite IH.
      * rewrite digits_val_cons, digit_char_val by assumption.
        cbn [length]. rewrite Nat2N.inj_succ, N.pow_succ_r'.
        generalize (10 ^ N.of_nat (length acc))%N (digits_val acc).
        intros p x. clear IH. nia.
      * rewrite Nat2N.inj_succ, N.pow_succ_r' in Hn.
        apply N.Div0.div_lt_upper_bound. lia.
Qed.

Lemma digits_acc_digits fuel n acc :
  Forall (fun c => is_digit c = true) acc ->
  Forall (fun c => is_digit c = true) (digits_acc fuel n acc).
Proof.
  revert n acc. induction fuel as [|k IH]; intros n acc Ha; cbn [digits_acc].
  - exact Ha.
  - assert (Hc : Forall (fun c => is_digit c = true)
                   (digit_char (n mod 10) :: acc)).
    { constructor; [|exact Ha]. apply digit_char_is_digit, N.mod_lt. lia. }
    destruct (n / 10 =? 0)%N; [exact Hc | apply IH, Hc].
Qed.

Lemma digits_acc_length fuel n acc :
  length acc <= length (digits_acc fuel n acc).
Proof.
  revert n acc. induction fuel as [|k IH]; intros n acc; cbn [digits_acc].
  - lia.
  - destruct (n / 10 =? 0)%N; [cbn; lia|].
    specialize (IH (n / 10)%N (digit_char (n mod 10) :: acc)). cbn in IH. lia.
Qed.

Lemma digits_val_digits n : digits_val (digits n) = n.
Proof.
  unfold digits. rewrite digits_acc_val.
  - cbn. lia.
  - rewrite Nat2N.inj_succ, N2Nat.id.
    destruct n as [|p]; [cbn; lia|].
    apply N.log2_spec. lia.
Qed.

Lemma digits_are_digits n : Forall (fun c => is_digit c = true) (digits n).
Proof. apply digits_acc_digits. constructor. Qed.

Lemma digits_nonempty n : 1 <= length (digits n).
Proof.
  unfold digits. cbn [digits_acc].
  destruct (n / 10 =? 0)%N; [cbn; lia|].
  pose proof (digits_acc_length (N.to_nat (N.log2 n)) (n / 10)
                [digit_char (n mod 10)]) as H. cbn in H. lia.
Qed.

Lemma digits_val_zeros k l :
  digits_val (repeat "0"%char k ++ l) = digits_val l.
Proof.
  induction k as [|k IH]; [reflexivity|].
  cbn [repeat app]. rewrite digits_val_cons, IH. cbn. lia.
Qed.

(** The fixed notation with two decimals: digits, a point, two digits; read
    without the point it is the number. *)
Lemma fixed_digits_two n :
  exists a b,
    fixed_digits 2 n = (a ++ "."%char :: b)%list
    /\ a <> []
    /\ length b = 2
    /\ Forall (fun c => is_digit c = true) (a ++ b)
    /\ digits_val (a ++ b) = n.
Proof.
  unfold fixed_digits.
  set (m0 := digits n).
  set (m := if (length m0 <=? 2)%nat
            then (repeat "0"%char (3 - length m0) ++ m0)%list else m0).
  assert (Hlen : 3 <= length m).
  { subst m. destruct (Nat.leb_spec (length m0) 2).
    - rewrite length_app, repeat_length. lia.
    - lia. }
  assert (Hdig : Forall (fun c => is_digit c = true) m).
  { subst m. destruct (length m0 <=? 2)%nat; [|apply digits_are_digits].
    apply Forall_app. split; [|apply digits_are_digits].
    apply Forall_forall. intros c Hc. apply repeat_spec in Hc. subst c.
    reflexivity. }
  assert (Hval : digits_val m = n).
  { subst m. destruct (length m0 <=? 2)%nat;
      [rewrite digits_val_zeros|]; apply digits_val_digits. }
  exists (firstn (length m - 2) m), (skipn (length m - 2) m).
  split; [reflexivity|]. split.
  - intros Hnil. apply (f_equal (@length ascii)) in Hnil.
    rewrite length_firstn in Hnil. cbn in Hnil. lia.
  - split; [rewrite length_skipn; lia|].
    rewrite firstn_skipn. split; assumption.
Qed.

(** The scaled rounding is to the nearest integer, upwards from a half. *)
Lemma round_scaled_two x :
  (0 <= Qnum x)%Z ->
  (inject_Z (Z.of_N (round_scaled 2 x)) - (1 # 2) <= x * 100)%Q
  /\ (x * 100 < inject_Z (Z.of_N (round_scaled 2 x)) + (1 # 2))%Q.
Proof.
  intros Hp. unfold round_scaled. destruct x as [p q]. cbn [Qnum Qden] in *.
  change (10 ^ Z.of_nat 2)%Z with 100%Z.
  set (z := ((2 * p * 100 + Z.pos q) / (2 * Z.pos q))%Z).
  assert (Hz : (0 <= z)%Z) by (apply Z.div_pos; lia).
  rewrite Z2N.id by exact Hz.
  pose proof (Z.mul_div_le (2 * p * 100 + Z.pos q) (2 * Z.pos q) ltac:(lia))
    as Hlo.
  pose proof (Z.mul_succ_div_gt (2 * p * 100 + Z.pos q) (2 * Z.pos q)
                ltac:(lia)) as Hhi.
  fold z in Hlo, Hhi.
  unfold Qle, Qlt, Qminus, Qplus, Qopp, Qmult, inject_Z. cbn [Qnum Qden].
  rewrite !Pos2Z.inj_mul. split; nia.
Qed.

Lemma toFixed_two v :
  (Qabs v < inject_Z (10 ^ 21))%Q ->
  exists a b,
    toFixed 2 v
    = (if Qlt_le_dec v 0 then "-" else "")
      ++ string_of_list_ascii (a ++ "."%char :: b)
    /\ a <> []
    /\ length b = 2
    /\ Forall (fun c => is_digit c = true) (a ++ b)
    /\ (inject_Z (Z.of_N (digits_val (a ++ b))) - (1 # 2) <= Qabs v * 100)%Q
    /\ (Qabs v * 100 < inject_Z (Z.of_N (digits_val (a ++ b))) + (1 # 2))%Q.
Proof.
  intros Hlt. unfold toFixed.
  assert (Hb : Qle_bool (inject_Z (10 ^ 21)) (Qabs v) = false).
  { destruct (Qle_bool (inject_Z (10 ^ 21)) (Qabs v)) eqn:E; [|reflexivity].
    apply Qle_bool_iff in E. exfalso.
    apply (Qlt_irrefl (Qabs v)). eapply Qlt_le_trans; eassumption. }
  rewrite Hb.
  destruct (fixed_digits_two (round_scaled 2 (Qabs v)))
    as (a & b & Hf & Ha & Hlen & Hd & Hv).
  exists a, b. rewrite Hf, Hv.
  split; [reflexivity|]. split; [exact Ha|]. split; [exact Hlen|].
  split; [exact Hd|].
  apply round_scaled_two. destruct v as [p q]. cbn. apply Z.abs_nonneg.
Qed.

End Decimal.

(** C10, as the code has it.  Without an energy value the earnings read
    "N/A".  With an energy value [e] the amount is [e / 1000 * 0.4] as the
    code computes it, in doubles.  When the amount is below 10^21 in
    absolute value the earnings read: a dollar sign, a minus sign for a
    negative amount, at least one digit, a point, and exactly two digits,
    and the hundredths so written are the nearest to the amount, the larger
    of two.  Every card shows the earnings of its own energy value. *)
Theorem C10_earnings_display :
  Detail.calculateEarnings None = "N/A"
  /\ (forall e : Q,
         let v := Js.mul (Js.div e 1000) (Js.double (4 # 10)) in
         (Qabs v < inject_Z (10 ^ 21))%Q ->
         exists a b : list ascii,
           Detail.calculateEarnings (Some e)
           = "$" ++ (if Qlt_le_dec v 0 then "-" else "")
                 ++ string_of_list_ascii (a ++ "."%char :: b)
           /\ a <> []
           /\ length b = 2
           /\ Forall (fun c => Js.is_digit c = true) (a ++ b)
           /\ (inject_Z (Z.of_N (Js.digits_val (a ++ b))) - (1 # 2)
               <= Qabs v * 100)%Q
           /\ (Qabs v * 100
               < inject_Z (Z.of_N (Js.digits_val (a ++ b))) + (1 # 2))%Q)
  /\ (forall st,
         Detail.metric "today" "Earnings" st
         = Some (Detail.calculateEarnings (Detail.dailyEnergyProduction st))
         /\ Detail.metric "week" "Earnings" st
            = Some (Detail.calculateEarnings (Detail.weeklyEnergyProduction st))
         /\ Detail.metric "month" "Earnings" st
            = Some (Detail.calculateEarnings
                      (Detail.monthlyEnergyProduction st))
         /\ Detail.metric "year" "Earnings" st
            = Some (Detail.calculateEarnings
                      (Detail.yearlyEnergyProduction st))).
Proof.
  split; [reflexivity|]. split.
  - intros e v Hlt.
    destruct (toFixed_two v Hlt) as (a & b & Hf & H).
    exists a, b. split; [|exact H].
    unfold Detail.calculateEarnings. fold v. rewrite Hf. reflexivity.
  - intros st. repeat split.
Qed.

Lemma C10_earnings_display_witness :
  Detail.calculateEarnings (Some 6200%Q) = "$2.48"
  /\ exists a b : list ascii,
       Detail.calculateEarnings (Some 6200%Q)
       = "$" ++ string_of_list_ascii (a ++ "."%char :: b)
       /\ length b = 2
       /\ Js.digits_val (a ++ b) = 248%N.
Proof.
  split; [vm_compute; reflexivity|].
  assert (Hlt : (Qabs (Js.mul (Js.div 6200 1000) (Js.double (4 # 10)))
                 < inject_Z (10 ^ 21))%Q)
    by (vm_compute; reflexivity).
  destruct (proj1 (proj2 C10_earnings_display) 6200%Q Hlt)
    as (a & b & Hs & _ & Hlen & _ & Hlo & Hhi).
  exists a, b. split; [exact Hs|]. split; [exact Hlen|].
  revert Hlo Hhi. generalize (Js.digits_val (a ++ b)). intros n Hlo Hhi.
  assert (E : Js.mul (Js.div 6200 1000) (Js.double (4 # 10))
              = (5584463537939416 # 2251799813685248)%Q)
    by (vm_compute; reflexivity).
  rewrite E in Hlo, Hhi.
  unfold Qle, Qlt, Qminus, Qplus, Qopp, Qmult, Qabs, inject_Z in Hlo, Hhi.
  cbn in Hlo, Hhi. lia.
Defined.

(** C10 as stated fails for an energy value so large that the amount
    reaches 10^21: for 10^25 Wh the amount is 4 * 10^21 dollars and the
    earnings read "$4e+21", with no decimal places. *)
Lemma C10_earnings_in_exponent_notation :
  Detail.calculateEarnings (Some (inject_Z (10 ^ 25))) = "$4e+21".
Proof. vm_compute. reflexivity. Qed.

(** ** Checks of the embedding on the specification's examples *)

Example toFixed_one_decimal : Js.toFixed 1 (6200 / 1000)%Q = "6.2".
Proof. vm_compute. reflexivity. Qed.

Example toFixed_negative : Js.toFixed 2 (- (1 # 1000))%Q = "-0.00".
Proof. vm_compute. reflexivity. Qed.

Example toFixed_half_up : Js.toFixed 2 (5 # 1000)%Q = "0.01".
Proof. vm_compute. reflexivity. Qed.

Example toFixed_exponent :
  Js.toFixed 2 (Js.double (inject_Z (125 * 10 ^ 20))) = "1.25e+22".
Proof. vm_compute. reflexivity. Qed.

(** The rounding of the doubles: to the nearest, and to the even
    significand of two. *)
Example double_nearest :
  (Js.double (1 # 10) == 3602879701896397 # 36028797018963968)%Q
  /\ (Js.double (inject_Z (2 ^ 53 + 1)) == inject_Z (2 ^ 53))%Q
  /\ (Js.double (inject_Z (2 ^ 53 + 3)) == inject_Z (2 ^ 53 + 4))%Q
  /\ (Js.double (1 # 2 ^ 1075) == 0)%Q
  /\ (Js.double (3 # 2 ^ 1075) == 2 # 2 ^ 1074)%Q.
Proof. vm_compute. repeat split; reflexivity. Qed.

(** A division gives a double before [toFixed] reads it: 1450 / 1000 is
    the double just below 1.45, and 37.5 / 1000 * 0.4 the one just below
    0.015. *)
Example division_rounds :
  Js.toFixed 1 (Js.div 1450 1000) = "1.4"
  /\ Dashboard.extractPower (Some (Sample.onlineFlow 1450)) = "1.4 kW"
  /\ Detail.calculateEarnings (Some (375 # 10)%Q) = "$0.01".
Proof. vm_compute. repeat split. Qed.

(** A [PowerPV] channel without a value: the list prints what [Number]
    makes of it. *)
Example power_without_value :
  Dashboard.extractPower
    (Some
       (FlowDataResponse.mk None
          (Some
             (FlowDataResponse.mkData None
                (Some [Channel.mk "PowerPV" Channel.undefined])))))
  = "NaN kW".
Proof. reflexivity. Qed.

Example trim_spaces : Js.trim "  a b  " = "a b" /\ Js.trim "   " = "".
Proof. split; reflexivity. Qed.

(** The directory example of the specification: of "Alpha Roof", "Beta
    Barn" and "Gamma Garage" the query "ba" matches "Beta Barn" only. *)
Example search_ba :
  let directory :=
    Dashboard.setAllSystemsBasicInfo
      [ Dashboard.BasicPvSystem.mk "1" "Alpha Roof" "" None;
        Dashboard.BasicPvSystem.mk "2" "Beta Barn" "" None;
        Dashboard.BasicPvSystem.mk "3" "Gamma Garage" "" None ]
      Dashboard.initial in
  map Dashboard.EnhancedPvSystem.name
    (Dashboard.displayed
       (Dashboard.typeQuery Sample.remoteDown Sample.host "ba" directory))
  = ["Beta Barn"].
Proof. vm_compute. reflexivity. Qed.

(** The pagination example of the specification: ten items on page 0 keep
    [hasMorePages] up, four items on page 1 take it down, fourteen records
    are shown. *)
Example pages_ten_and_four :
  let one :=
    Dashboard.settle Sample.remoteDown Sample.host
      (Fulfilled (Some Sample.pageOne)) Dashboard.mount in
  let two :=
    Dashboard.settle Sample.remoteDown Sample.host
      (Fulfilled (Some (firstn 4 Sample.pageTwo))) (Dashboard.onEndReached one)
  in
  Dashboard.hasMorePages (Dashboard.ui one) = true
  /\ Dashboard.hasMorePages (Dashboard.ui two) = false
  /\ length (Dashboard.displayed (Dashboard.ui two)) = 14
  /\ Dashboard.onEndReached two = two.
Proof. vm_compute. repeat split. Qed.

(** With access granted the same run of the detail screen does fetch: the
    batch of fourteen requests and the chart's request leave. *)
Example granted_run_fetches :
  let auth := Detail.Auth.mk (fun _ _ => true) in
  snd (Detail.run auth "s01"
         [Detail.RunEffects;
          Detail.AccessChecked (Fulfilled (Some SampleDetail.visitor));
          Detail.RunEffects] Detail.initial)
  = (Detail.batchRequests "s01"
     ++ [Detail.GetPvSystemHistoricalData "s01" "EnergyProductionTotal"])%list.
Proof. vm_compute. reflexivity. Qed.

(** * Further properties *)

(** ** Further properties of the dashboard's helpers *)

Section DashboardHelpers.

Import Dashboard.

(** X1 ([formatAddress]): the formatted address is empty exactly when every
    one of street, city, state and country is missing or empty; a part that
    is there is never dropped, and with all four there they are joined by a
    comma and a space in that order. *)
Theorem X1_formatAddress_empty_iff_no_part (a : Address.t) :
  (formatAddress a = ""
   <-> Forall (fun p => p = None \/ p = Some "")
         [Address.street a; Address.city a; Address.state a;
          Address.country a])
  /\ (forall s c t k,
        Js.truthy s = true -> Js.truthy c = true -> Js.truthy t = true ->
        Js.truthy k = true ->
        a = Address.mk (Some s) (Some c) (Some t) (Some k) ->
        formatAddress a = s ++ ", " ++ c ++ ", " ++ t ++ ", " ++ k).
Proof.
  split.
  - destruct a as [[[|c1 s1]|] [[|c2 s2]|] [[|c3 s3]|] [[|c4 s4]|]];
      cbn; split; intros H;
      try discriminate H; try reflexivity;
      try (repeat constructor; auto; fail);
      exfalso;
      repeat match goal with
        | H : Forall _ (_ :: _) |- _ => inversion H; subst; clear H
        | H : _ \/ _ |- _ => destruct H
        | H : Some _ = None |- _ => discriminate H
        | H : Some (String _ _) = Some "" |- _ => discriminate H
        end.
  - intros s c t k Hs Hc Ht Hk ->.
    destruct s, c, t, k; try discriminate; reflexivity.
Qed.

Lemma X1_formatAddress_empty_iff_no_part_witness :
  formatAddress (Address.mk (Some "1 Main St") (Some "Oslo") (Some "O") (Some "NO"))
  = "1 Main St, Oslo, O, NO".
Proof.
  apply (proj2 (X1_formatAddress_empty_iff_no_part
                  (Address.mk (Some "1 Main St") (Some "Oslo") (Some "O") (Some "NO")))
           "1 Main St" "Oslo" "O" "NO"); reflexivity.
Defined.

(** X2 ([extractPower], and the "Current Power" of the detail screen): for
    the same flow data the list and the detail screen show the same power
    when the first [PowerPV] channel has a number as its value.  When its
    value is [null], or there is no such channel, the list shows "0 kW" and
    the detail screen "N/A"; when the channel has no value at all the list
    shows "NaN kW" and the detail screen "N/A". *)
Theorem X2_power_on_list_and_detail (st : Detail.State) :
  let list := extractPower (Detail.flowData st) in
  let detail := Detail.metric "today" "Current Power" st in
  match Detail.flowChannels st with
  | Some channels =>
      match Js.find (channelNamed "PowerPV") channels with
      | Some c =>
          match Channel.value c with
          | Channel.number v =>
              list = Js.toFixed 1 (Js.div v 1000) ++ " kW"
              /\ detail = Some list
          | Channel.null => list = "0 kW" /\ detail = Some "N/A"
          | Channel.undefined => list = "NaN kW" /\ detail = Some "N/A"
          end
      | None => list = "0 kW" /\ detail = Some "N/A"
      end
  | None => list = "0 kW" /\ detail = Some "N/A"
  end.
Proof.
  cbv zeta.
  unfold Detail.flowChannels, extractPower, Detail.metric, channelNamed.
  cbn [Detail.dashboardData List.find Detail.card_id String.eqb Ascii.eqb
       Bool.eqb Detail.metrics fst snd option_map].
  unfold Detail.currentPowerOutput, Detail.flowChannels,
    Detail.findChannelValue, Detail.kilo, Js.find.
  destruct (Detail.flowData st) as [[s [[t [cs|]]|]]|]; cbn;
    try (split; reflexivity).
  destruct (find _ cs) as [[n [v| |]]|]; cbn; split; reflexivity.
Qed.

(** X3 ([formatLastUpdated]): for a date the host can read, less than a
    minute ago (or in the future) reads "just now"; up to an hour, the whole
    minutes elapsed, between 1 and 59; up to a day, the whole hours elapsed,
    between 1 and 23; from a day on, the host's notation of the date. *)
Theorem X3_formatLastUpdated_elapsed (h : Host.t) (s : string) (d : Z) :
  Host.parseDate h s = Some d ->
  let elapsed := (Host.now h - d)%Z in
  ((elapsed < 60000)%Z -> formatLastUpdated h s = "just now")
  /\ ((60000 <= elapsed < 3600000)%Z ->
      exists m : Z,
        formatLastUpdated h s
        = string_of_list_ascii (Js.digits (Z.to_N m)) ++ " min ago"
        /\ (1 <= m <= 59)%Z
        /\ (m * 60000 <= elapsed < (m + 1) * 60000)%Z)
  /\ ((3600000 <= elapsed < 86400000)%Z ->
      exists k : Z,
        formatLastUpdated h s
        = string_of_list_ascii (Js.digits (Z.to_N k)) ++ " hr ago"
        /\ (1 <= k <= 23)%Z
        /\ (k * 3600000 <= elapsed < (k + 1) * 3600000)%Z)
  /\ ((86400000 <= elapsed)%Z ->
      formatLastUpdated h s = Host.toLocaleDateString h (Some d)).
Proof.
  intros Hp elapsed. unfold formatLastUpdated. rewrite Hp. fold elapsed.
  set (mins := (elapsed / 60000)%Z).
  assert (Hm : (mins * 60000 <= elapsed < (mins + 1) * 60000)%Z).
  { unfold mins.
    pose proof (Z.div_mod elapsed 60000 ltac:(lia)).
    pose proof (Z.mod_pos_bound elapsed 60000 ltac:(lia)). lia. }
  set (hrs := (mins / 60)%Z).
  assert (Hh : (hrs * 60 <= mins < (hrs + 1) * 60)%Z).
  { unfold hrs.
    pose proof (Z.div_mod mins 60 ltac:(lia)).
    pose proof (Z.mod_pos_bound mins 60 ltac:(lia)). lia. }
  repeat split.
  - intros H. destruct (Z.ltb_spec mins 1); [reflexivity | lia].
  - intros H. exists mins.
    destruct (Z.ltb_spec mins 1); [lia|].
    destruct (Z.ltb_spec mins 60); [|lia].
    repeat split; lia.
  - intros H. exists hrs.
    destruct (Z.ltb_spec mins 1); [lia|].
    destruct (Z.ltb_spec mins 60); [lia|].
    destruct (Z.ltb_spec mins 1440); [|lia].
    repeat split; lia.
  - intros H.
    destruct (Z.ltb_spec mins 1); [lia|].
    destruct (Z.ltb_spec mins 60); [lia|].
    destruct (Z.ltb_spec mins 1440); [lia|reflexivity].
Qed.

Lemma X3_formatLastUpdated_elapsed_witness :
  formatLastUpdated SampleMore.host "2500000" = "2 hr ago".
Proof.
  destruct (X3_formatLastUpdated_elapsed SampleMore.host "2500000" 2500000
              eq_refl) as (_ & _ & H & _).
  destruct (H ltac:(vm_compute; split; [discriminate | reflexivity]))
    as (k & E & Hk & Hb).
  rewrite E. cbn in Hb.
  assert (k = 2%Z) as -> by lia.
  reflexivity.
Defined.

End DashboardHelpers.

(** ** Further properties of the dashboard screen *)

Section DashboardRuns.

Import Dashboard.

Variables (r : Remote.t) (h : Host.t).

(** A search writes [filteredSystems] and [isSearching] only. *)
Lemma applySearchFilter_frame cl q st :
  let st' := applySearchFilter r h cl q st in
  loading st' = loading st
  /\ refreshing st' = refreshing st
  /\ error st' = error st
  /\ totalSystems st' = totalSystems st
  /\ allSystemsBasicInfo st' = allSystemsBasicInfo st.
Proof.
  unfold applySearchFilter.
  destruct (negb (Js.truthy (Js.trim q))); [repeat split|].
  destruct (length _ =? 0)%nat; repeat split.
Qed.

Lemma searchEffect_frame st :
  let st' := searchEffect r h st in
  loading st' = loading st
  /\ refreshing st' = refreshing st
  /\ error st' = error st
  /\ totalSystems st' = totalSystems st
  /\ allSystemsBasicInfo st' = allSystemsBasicInfo st
  /\ hasMorePages st' = hasMorePages st
  /\ isLoadingMore st' = isLoadingMore st
  /\ searchQuery st' = searchQuery st
  /\ currentPage st' = currentPage st
  /\ pvSystems st' = pvSystems st.
Proof.
  unfold searchEffect.
  destruct (0 <? length (allSystemsBasicInfo st))%nat.
  - pose proof (applySearchFilter_frame st (searchQuery st) st) as F.
    pose proof (applySearchFilter_paging r h st (searchQuery st) st) as P.
    cbv zeta in F. intuition.
  - destruct (0 <? length (pvSystems st))%nat; repeat split.
Qed.

Lemma typeQuery_frame q st :
  let st' := typeQuery r h q st in
  loading st' = loading st
  /\ refreshing st' = refreshing st
  /\ error st' = error st
  /\ totalSystems st' = totalSystems st
  /\ allSystemsBasicInfo st' = allSystemsBasicInfo st
  /\ hasMorePages st' = hasMorePages st
  /\ isLoadingMore st' = isLoadingMore st
  /\ searchQuery st' = q
  /\ currentPage st' = currentPage st
  /\ pvSystems st' = pvSystems st.
Proof.
  unfold typeQuery.
  destruct (String.eqb_spec q (searchQuery st)) as [E|E].
  - repeat split; auto.
  - pose proof (searchEffect_frame (setSearchQuery q st)) as F.
    cbv zeta in F. cbn [loading refreshing error totalSystems allSystemsBasicInfo
      hasMorePages isLoadingMore searchQuery currentPage pvSystems
      setSearchQuery] in F. exact F.
Qed.

(** What a settled page load writes besides the lists. *)
Lemma resume_frame cl page fetched st :
  let st' := loadPvSystemsPage_resume r h cl page fetched st in
  loading st' = false
  /\ isLoadingMore st' = false
  /\ refreshing st' = refreshing st
  /\ totalSystems st' = totalSystems st
  /\ allSystemsBasicInfo st' = allSystemsBasicInfo st
  /\ searchQuery st' = searchQuery st.
Proof.
  unfold loadPvSystemsPage_resume.
  destruct fetched as [[[|x l]|]|reason];
    try (destruct (page =? 0)%nat; repeat split).
  all: destruct (Js.truthy (Js.trim (searchQuery cl)));
    cbn [loading isLoadingMore refreshing totalSystems allSystemsBasicInfo
         searchQuery setIsLoadingMore setLoading setCurrentPage];
    try (repeat split; fail).
  all: match goal with
       | |- context [applySearchFilter r h ?c ?q ?s] =>
           pose proof (applySearchFilter_frame c q s) as F;
           pose proof (applySearchFilter_paging r h c q s) as P;
           cbv zeta in F
       end; repeat split; intuition.
Qed.

(** The error of a settled page load: the old one, or one of the two
    messages; once there it stays. *)
Lemma resume_error cl page fetched st :
  let st' := loadPvSystemsPage_resume r h cl page fetched st in
  (error st' = error st
   \/ error st' = Some "No PV systems found"
   \/ error st' = Some "Failed to load PV systems. Please try again.").
Proof.
  unfold loadPvSystemsPage_resume.
  destruct fetched as [[[|x l]|]|reason];
    try (destruct (page =? 0)%nat; cbn; auto; fail); cbn; auto.
  destruct (Js.truthy (Js.trim (searchQuery cl)));
    cbn [error setIsLoadingMore setLoading setCurrentPage]; auto.
  match goal with
  | |- context [applySearchFilter r h ?c ?q ?s] =>
      pose proof (applySearchFilter_frame c q s) as F; cbv zeta in F
  end.
  left. destruct F as (_ & _ & -> & _). reflexivity.
Qed.

Lemma directory_frame fetched st :
  let st' := loadAllSystemsBasicInfo_resume fetched st in
  loading st' = loading st
  /\ refreshing st' = refreshing st
  /\ error st' = error st
  /\ pvSystems st' = pvSystems st.
Proof.
  destruct fetched as [[[|x l]|]|reason]; repeat split.
Qed.

(** The error of the screen after one event. *)
Lemma step_error ev sc :
  error (ui (step r h ev sc)) = error (ui sc)
  \/ error (ui (step r h ev sc)) = Some "No PV systems found"
  \/ error (ui (step r h ev sc))
     = Some "Failed to load PV systems. Please try again.".
Proof.
  destruct ev as [| |q|f|f]; cbn [step].
  - unfold onEndReached. destruct (handleLoadMore (ui sc)) as [[p b]|]; auto.
    unfold call_loadPvSystemsPage, loadPvSystemsPage_begin. cbn [ui].
    destruct b; [destruct (p =? 0)%nat|]; auto.
  - left. reflexivity.
  - left. cbn [ui]. apply (typeQuery_frame q (ui sc)).
  - unfold settle. destruct (inflight sc) as [|p rest]; auto.
    cbn [ui].
    pose proof (resume_error (closure p) (page p) f (ui sc)) as E.
    cbv zeta in E. destruct (viaRefresh p); exact E.
  - left. unfold directoryLoaded.
    pose proof (directory_frame f (ui sc)) as (_ & _ & E & _).
    destruct f as [[[|x l]|]|reason]; cbn [ui]; try exact E.
    rewrite (proj1 (proj2 (proj2 (searchEffect_frame _)))). exact E.
Qed.

Lemma run_app evs1 evs2 :
  run r h (evs1 ++ evs2)
  = fold_left (fun sc ev => step r h ev sc) evs2 (run r h evs1).
Proof. unfold run. apply fold_left_app. Qed.

Lemma run_snoc evs ev :
  run r h (evs ++ [ev]) = step r h ev (run r h evs).
Proof. rewrite run_app. reflexivity. Qed.

(** The error the screen holds is always one of the two messages, or none. *)
Lemma run_knownError evs : MoreProps.knownError (error (ui (run r h evs))).
Proof.
  induction evs as [|ev evs IH] using rev_ind.
  - left. reflexivity.
  - rewrite run_snoc.
    destruct (step_error ev (run r h evs)) as [E|[E|E]];
      unfold MoreProps.knownError in *; rewrite E; auto.
Qed.

Lemma steps_keep_error evs sc :
  error (ui sc) <> None ->
  error (ui (fold_left (fun sc ev => step r h ev sc) evs sc)) <> None.
Proof.
  revert sc. induction evs as [|ev evs IH]; intros sc H; [exact H|].
  cbn [fold_left]. apply IH.
  destruct (step_error ev sc) as [E|[E|E]]; rewrite E;
    [exact H | discriminate | discriminate].
Qed.

(** X4 ([renderFooter], [handleLoadMore]): the footer shows the Load More
    button exactly when a press of it, or the end of the list, starts a
    page load, and that load asks for the page after the current one. *)
Theorem X4_load_more_button_iff_load (st : State) :
  DashboardView.renderFooter st = DashboardView.LoadMoreButton
  <-> handleLoadMore st = Some (currentPage st + 1, false).
Proof.
  unfold DashboardView.renderFooter, handleLoadMore.
  destruct (Js.truthy (Js.trim (searchQuery st))), (isLoadingMore st),
    (hasMorePages st), (0 <? length (pvSystems st))%nat; cbn;
    split; intros H; try discriminate H; reflexivity.
Qed.

(** X5 (the dashboard's [error]): in every run the error is one of the two
    messages the screen sets; nothing clears it, so once a page load failed
    or the first page came back empty, the screen shows the error and not
    the list, whatever happens next, a successful Retry included. *)
Theorem X5_dashboard_error_never_cleared (evs1 evs2 : list Event) :
  error (ui (run r h evs1)) <> None ->
  MoreProps.knownError (error (ui (run r h (evs1 ++ evs2))))
  /\ error (ui (run r h (evs1 ++ evs2))) <> None
  /\ MoreProps.showsList (DashboardView.render (ui (run r h (evs1 ++ evs2))))
     = false.
Proof.
  intros H.
  pose proof (run_knownError (evs1 ++ evs2)) as K.
  assert (N : error (ui (run r h (evs1 ++ evs2))) <> None).
  { rewrite run_app. apply steps_keep_error. exact H. }
  split; [exact K|]. split; [exact N|].
  unfold DashboardView.render.
  destruct (loading _); [reflexivity|].
  destruct K as [K|[K|K]]; rewrite K in *; [congruence | reflexivity | reflexivity].
Qed.

(** In every run [totalSystems] counts the directory. *)
Lemma step_totalSystems ev sc :
  totalSystems (ui sc) = length (allSystemsBasicInfo (ui sc)) ->
  totalSystems (ui (step r h ev sc))
  = length (allSystemsBasicInfo (ui (step r h ev sc))).
Proof.
  intros H. destruct ev as [| |q|f|f]; cbn [step].
  - unfold onEndReached. destruct (handleLoadMore (ui sc)) as [[p b]|]; auto.
    unfold call_loadPvSystemsPage, loadPvSystemsPage_begin. cbn [ui].
    destruct b; [destruct (p =? 0)%nat|]; exact H.
  - exact H.
  - cbn [ui]. pose proof (typeQuery_frame q (ui sc)) as F. cbv zeta in F.
    destruct F as (_ & _ & _ & -> & -> & _). exact H.
  - unfold settle. destruct (inflight sc) as [|p rest]; auto. cbn [ui].
    pose proof (resume_frame (closure p) (page p) f (ui sc)) as F.
    cbv zeta in F. destruct F as (_ & _ & _ & Ft & Fa & _).
    destruct (viaRefresh p);
      cbn [totalSystems allSystemsBasicInfo setRefreshing];
      rewrite Ft, Fa; exact H.
  - unfold directoryLoaded.
    destruct f as [[[|x l]|]|reason]; cbn [ui]; try exact H.
    pose proof (searchEffect_frame
                  (loadAllSystemsBasicInfo_resume (Fulfilled (Some (x :: l)))
                     (ui sc))) as F.
    cbv zeta in F. destruct F as (_ & _ & _ & -> & -> & _). reflexivity.
Qed.

(** X6 ([loadAllSystemsBasicInfo]): in every run of the screen
    [totalSystems] is the number of entries of the search directory; a
    directory load that fails or brings nothing leaves the directory as it
    was, and one that brings systems makes the directory their ids, names
    and formatted addresses, in the order received. *)
Theorem X6_directory_and_total (evs : list Event)
    (fetched : Settled (option (list PvSystemMetadata.t))) (st : State) :
  totalSystems (ui (run r h evs))
  = length (allSystemsBasicInfo (ui (run r h evs)))
  /\ isLoadingAllSystems (loadAllSystemsBasicInfo_resume fetched st) = false
  /\ match fetched with
     | Fulfilled (Some (x :: l)) =>
         allSystemsBasicInfo (loadAllSystemsBasicInfo_resume fetched st)
         = map (fun s =>
                  BasicPvSystem.mk (PvSystemMetadata.pvSystemId s)
                    (PvSystemMetadata.name s)
                    (formatAddress (PvSystemMetadata.address s))
                    (PvSystemMetadata.pictureURL s)) (x :: l)
     | _ =>
         allSystemsBasicInfo (loadAllSystemsBasicInfo_resume fetched st)
         = allSystemsBasicInfo st
         /\ totalSystems (loadAllSystemsBasicInfo_resume fetched st)
            = totalSystems st
     end.
Proof.
  split; [|split].
  - induction evs as [|ev evs IH] using rev_ind; [reflexivity|].
    rewrite run_snoc. apply step_totalSystems. exact IH.
  - destruct fetched as [[[|x l]|]|reason]; reflexivity.
  - destruct fetched as [[[|x l]|]|reason];
      first [reflexivity | split; reflexivity].
Qed.

(** The paginated list after one event is not empty if it was not. *)
Lemma resume_pvSystems_nonempty cl page fetched st :
  pvSystems st <> [] ->
  pvSystems (loadPvSystemsPage_resume r h cl page fetched st) <> [].
Proof.
  intros H. unfold loadPvSystemsPage_resume.
  destruct fetched as [[[|x l]|]|reason];
    try (destruct (page =? 0)%nat; exact H); try exact H.
  assert (S : Js.sort (compareSystems h) (map (enrichPageItem r h) (x :: l))
              <> []).
  { intros E.
    pose proof (sort_perm _ (compareSystems h)
                  (map (enrichPageItem r h) (x :: l))) as P.
    rewrite E in P. apply Permutation_nil in P. discriminate P. }
  assert (N : (if (page =? 0)%nat
               then Js.sort (compareSystems h)
                      (map (enrichPageItem r h) (x :: l))
               else pvSystems st
                    ++ Js.sort (compareSystems h)
                         (map (enrichPageItem r h) (x :: l)))%list <> []).
  { destruct (page =? 0)%nat; [exact S|].
    intros E. apply app_eq_nil in E. destruct E as [E _]. exact (H E). }
  destruct (Js.truthy (Js.trim (searchQuery cl)));
    cbn [pvSystems setIsLoadingMore setLoading setCurrentPage].
  - rewrite (proj2 (proj2 (proj2 (proj2 (applySearchFilter_paging r h _ _ _))))).
    exact N.
  - exact N.
Qed.

Lemma step_pvSystems_nonempty ev sc :
  pvSystems (ui sc) <> [] -> pvSystems (ui (step r h ev sc)) <> [].
Proof.
  intros H. destruct ev as [| |q|f|f]; cbn [step].
  - unfold onEndReached. destruct (handleLoadMore (ui sc)) as [[p b]|]; auto.
    unfold call_loadPvSystemsPage, loadPvSystemsPage_begin. cbn [ui].
    destruct b; [destruct (p =? 0)%nat|]; exact H.
  - exact H.
  - cbn [ui]. pose proof (typeQuery_frame q (ui sc)) as F. cbv zeta in F.
    destruct F as (_ & _ & _ & _ & _ & _ & _ & _ & _ & ->). exact H.
  - unfold settle. destruct (inflight sc) as [|p rest]; auto. cbn [ui].
    pose proof (resume_pvSystems_nonempty (closure p) (page p) f (ui sc) H).
    destruct (viaRefresh p); assumption.
  - unfold directoryLoaded.
    pose proof (directory_frame f (ui sc)) as (_ & _ & _ & E).
    destruct f as [[[|x l]|]|reason]; cbn [ui]; try (rewrite E; exact H).
    pose proof (searchEffect_frame
                  (loadAllSystemsBasicInfo_resume (Fulfilled (Some (x :: l)))
                     (ui sc))) as F.
    cbv zeta in F. destruct F as (_ & _ & _ & _ & _ & _ & _ & _ & _ & ->).
    exact H.
Qed.

(** X7 ([loadPvSystemsPage]): once the paginated list holds a system it is
    never empty again: a page that fails or comes back empty leaves it as it
    is, and a refresh replaces it only by a page with systems. *)
Theorem X7_loaded_list_never_emptied (evs1 evs2 : list Event) :
  pvSystems (ui (run r h evs1)) <> [] ->
  pvSystems (ui (run r h (evs1 ++ evs2))) <> [].
Proof.
  intros H. rewrite run_app.
  generalize dependent (run r h evs1). induction evs2 as [|ev evs IH];
    intros sc H; [exact H|].
  cbn [fold_left]. apply IH. apply step_pvSystems_nonempty. exact H.
Qed.

(** No page load in flight: [loading] is down, and [refreshing] is down
    unless a load started by a refresh is in flight. *)
Lemma step_spinners ev sc :
  (loading (ui sc) = true -> inflight sc <> [])
  /\ (refreshing (ui sc) = true -> existsb viaRefresh (inflight sc) = true) ->
  (loading (ui (step r h ev sc)) = true -> inflight (step r h ev sc) <> [])
  /\ (refreshing (ui (step r h ev sc)) = true ->
      existsb viaRefresh (inflight (step r h ev sc)) = true).
Proof.
  intros [HL HR]. destruct ev as [| |q|f|f]; cbn [step].
  - unfold onEndReached. destruct (handleLoadMore (ui sc)) as [[p b]|];
      [|split; assumption].
    unfold call_loadPvSystemsPage, loadPvSystemsPage_begin.
    cbn [ui inflight]. split.
    + intros _ E. apply app_eq_nil in E. destruct E as [_ E]. discriminate E.
    + intros H. rewrite existsb_app. apply orb_true_iff. left. apply HR.
      destruct b; [destruct (p =? 0)%nat|]; exact H.
  - unfold onRefresh, onRefresh_begin, loadPvSystemsPage_begin.
    cbn [ui inflight]. split.
    + intros _ E. apply app_eq_nil in E. destruct E as [_ E]. discriminate E.
    + intros _. rewrite existsb_app. cbn. apply orb_true_r.
  - cbn [ui inflight]. pose proof (typeQuery_frame q (ui sc)) as F.
    cbv zeta in F. destruct F as (-> & -> & _). split; assumption.
  - unfold settle. destruct (inflight sc) as [|p rest] eqn:E;
      [rewrite E; split; assumption|].
    cbn [ui inflight].
    pose proof (resume_frame (closure p) (page p) f (ui sc)) as F.
    cbv zeta in F. destruct F as (FL & _ & FR & _).
    destruct (viaRefresh p) eqn:V.
    + cbn [loading refreshing setRefreshing]. rewrite FL.
      split; intros H; discriminate H.
    + rewrite FL, FR. split; [intros H; discriminate H|].
      intros H. specialize (HR H). cbn in HR. rewrite V in HR. exact HR.
  - unfold directoryLoaded.
    pose proof (directory_frame f (ui sc)) as (EL & ER & _).
    destruct f as [[[|x l]|]|reason]; cbn [ui inflight];
      try (rewrite EL, ER; split; assumption).
    pose proof (searchEffect_frame
                  (loadAllSystemsBasicInfo_resume (Fulfilled (Some (x :: l)))
                     (ui sc))) as F.
    cbv zeta in F. destruct F as (-> & -> & _).
    rewrite EL, ER. split; assumption.
Qed.

Lemma run_spinners evs :
  (loading (ui (run r h evs)) = true -> inflight (run r h evs) <> [])
  /\ (refreshing (ui (run r h evs)) = true ->
      existsb viaRefresh (inflight (run r h evs)) = true).
Proof.
  induction evs as [|ev evs IH] using rev_ind.
  - split; [intros _ E; discriminate E | intros H; discriminate H].
  - rewrite run_snoc. apply step_spinners. exact IH.
Qed.

(** X8 (the spinners of the dashboard): in every run, when no page load is
    waiting for its answer the full-screen spinner and the pull-to-refresh
    spinner are both off: no load ends without taking them down. *)
Theorem X8_no_spinner_when_idle (evs : list Event) :
  inflight (run r h evs) = [] ->
  loading (ui (run r h evs)) = false
  /\ refreshing (ui (run r h evs)) = false.
Proof.
  intros E. destruct (run_spinners evs) as [HL HR]. rewrite E in HL, HR.
  split.
  - destruct (loading _); [exfalso; apply HL; reflexivity | reflexivity].
  - destruct (refreshing _); [specialize (HR eq_refl); discriminate HR
                             | reflexivity].
Qed.

End DashboardRuns.

Lemma X5_dashboard_error_never_cleared_witness :
  MoreProps.showsList
    (DashboardView.render
       (Dashboard.ui
          (Dashboard.run Sample.remoteDown Sample.host
             ([Dashboard.PageSettled (Rejected "offline")]
              ++ [Dashboard.Refreshed;
                  Dashboard.PageSettled (Fulfilled (Some Sample.pageOne))]))))
  = false.
Proof.
  apply (X5_dashboard_error_never_cleared Sample.remoteDown Sample.host
           [Dashboard.PageSettled (Rejected "offline")]
           [Dashboard.Refreshed;
            Dashboard.PageSettled (Fulfilled (Some Sample.pageOne))]).
  vm_compute. discriminate.
Defined.

Lemma X7_loaded_list_never_emptied_witness :
  Dashboard.pvSystems
    (Dashboard.ui
       (Dashboard.run Sample.remoteDown Sample.host
          ([Dashboard.PageSettled (Fulfilled (Some Sample.pageOne))]
           ++ [Dashboard.Refreshed;
               Dashboard.PageSettled (Fulfilled (Some []))])))
  <> [].
Proof.
  apply (X7_loaded_list_never_emptied Sample.remoteDown Sample.host
           [Dashboard.PageSettled (Fulfilled (Some Sample.pageOne))]
           [Dashboard.Refreshed; Dashboard.PageSettled (Fulfilled (Some []))]).
  vm_compute. discriminate.
Defined.

Lemma X8_no_spinner_when_idle_witness :
  Dashboard.loading
    (Dashboard.ui
       (Dashboard.run Sample.remoteDown Sample.host
          [Dashboard.Refreshed;
           Dashboard.PageSettled (Rejected "offline");
           Dashboard.PageSettled (Fulfilled (Some Sample.pageOne))]))
  = false
  /\ Dashboard.refreshing
       (Dashboard.ui
          (Dashboard.run Sample.remoteDown Sample.host
             [Dashboard.Refreshed;
              Dashboard.PageSettled (Rejected "offline");
              Dashboard.PageSettled (Fulfilled (Some Sample.pageOne))]))
     = false.
Proof.
  apply (X8_no_spinner_when_idle Sample.remoteDown Sample.host
           [Dashboard.Refreshed;
            Dashboard.PageSettled (Rejected "offline");
            Dashboard.PageSettled (Fulfilled (Some Sample.pageOne))]).
  vm_compute. reflexivity.
Defined.

(** ** Further properties of the search *)

Section SearchMore.

Import Dashboard.

Variables (r : Remote.t) (h : Host.t).

Lemma is_white_lower c : Js.is_white (Js.lower_ascii c) = Js.is_white c.
Proof. destruct c as [[] [] [] [] [] [] [] []]; reflexivity. Qed.

Lemma nonBlank_lower s :
  MoreProps.nonBlank (Js.toLowerCase s) = MoreProps.nonBlank s.
Proof.
  induction s as [|c s IH]; [reflexivity|].
  cbn [Js.toLowerCase MoreProps.nonBlank]. rewrite is_white_lower, IH.
  reflexivity.
Qed.

Lemma nonBlank_trimStart s :
  MoreProps.nonBlank (Js.trimStart s) = MoreProps.nonBlank s.
Proof.
  induction s as [|c s IH]; [reflexivity|].
  cbn [Js.trimStart]. destruct (Js.is_white c) eqn:W.
  - rewrite IH. cbn [MoreProps.nonBlank]. rewrite W. reflexivity.
  - reflexivity.
Qed.

Lemma truthy_trimEnd s : Js.truthy (Js.trimEnd s) = MoreProps.nonBlank s.
Proof.
  induction s as [|c s IH]; [reflexivity|].
  cbn [Js.trimEnd MoreProps.nonBlank].
  destruct (Js.trimEnd s) eqn:E; cbn [Js.truthy] in *; rewrite <- IH.
  - destruct (Js.is_white c); reflexivity.
  - rewrite orb_true_r. reflexivity.
Qed.

(** The trimmed string is not empty exactly when the string has a character
    that is not white space. *)
Lemma truthy_trim s : Js.truthy (Js.trim s) = MoreProps.nonBlank s.
Proof. unfold Js.trim. rewrite truthy_trimEnd. apply nonBlank_trimStart. Qed.

Lemma truthy_trim_lower q1 q2 :
  Js.toLowerCase q1 = Js.toLowerCase q2 ->
  Js.truthy (Js.trim q1) = Js.truthy (Js.trim q2).
Proof.
  intros E. rewrite !truthy_trim, <- (nonBlank_lower q1), <- (nonBlank_lower q2).
  rewrite E. reflexivity.
Qed.

(** X9 ([applySearchFilter], the search effect): the search does not see
    the case of the letters of the query: two queries that differ in case
    only show the same list, with a directory and without one. *)
Theorem X9_search_ignores_case_of_query (q1 q2 : string) (st : State) :
  Js.toLowerCase q1 = Js.toLowerCase q2 ->
  displayed (searchEffect r h (setSearchQuery q1 st))
  = displayed (searchEffect r h (setSearchQuery q2 st)).
Proof.
  intros E. unfold searchEffect, displayed.
  cbn [allSystemsBasicInfo pvSystems searchQuery setSearchQuery].
  destruct (0 <? length (allSystemsBasicInfo st))%nat.
  - unfold applySearchFilter.
    rewrite (truthy_trim_lower q1 q2 E), E.
    cbn [allSystemsBasicInfo pvSystems setSearchQuery].
    destruct (negb (Js.truthy (Js.trim q2))); [reflexivity|].
    destruct (length _ =? 0)%nat; reflexivity.
  - destruct (0 <? length (pvSystems st))%nat; [|reflexivity].
    cbn [filteredSystems setFilteredSystems]. rewrite E. reflexivity.
Qed.

(** X10 (the search field and the pagination): typing in the search field
    leaves the paginated list, the current page and [hasMorePages] alone.
    While the query has a character that is not white space, load-more
    starts nothing and the footer says the search results end; with a blank
    query load-more asks for the page after the current one, as before the
    search. *)
Theorem X10_typing_suspends_pagination (q : string) (st : State) :
  let st' := typeQuery r h q st in
  pvSystems st' = pvSystems st
  /\ currentPage st' = currentPage st
  /\ hasMorePages st' = hasMorePages st
  /\ (if MoreProps.nonBlank q
      then handleLoadMore st' = None
           /\ exists b,
                DashboardView.renderFooter st'
                = DashboardView.EndOfSearchResults b
      else handleLoadMore st'
           = (if negb (isLoadingMore st) && hasMorePages st
              then Some (currentPage st + 1, false) else None)).
Proof.
  intros st'. pose proof (typeQuery_frame r h q st) as F. cbv zeta in F.
  fold st' in F.
  destruct F as (_ & _ & _ & _ & _ & Fh & Fl & Fq & Fc & Fp).
  split; [exact Fp|]. split; [exact Fc|]. split; [exact Fh|].
  unfold handleLoadMore, DashboardView.renderFooter.
  rewrite Fq, Fh, Fl, Fc, truthy_trim.
  destruct (MoreProps.nonBlank q).
  - split; [rewrite andb_false_r; reflexivity|]. eexists. reflexivity.
  - rewrite andb_true_r. reflexivity.
Qed.

End SearchMore.

Lemma X9_search_ignores_case_of_query_witness :
  Dashboard.displayed
    (Dashboard.searchEffect Sample.remoteDown Sample.host
       (Dashboard.setSearchQuery "ALPHA" Sample.directoryOnly))
  = Dashboard.displayed
      (Dashboard.searchEffect Sample.remoteDown Sample.host
         (Dashboard.setSearchQuery "alpha" Sample.directoryOnly)).
Proof.
  apply (X9_search_ignores_case_of_query Sample.remoteDown Sample.host
           "ALPHA" "alpha" Sample.directoryOnly).
  reflexivity.
Defined.

Section RefreshMore.

Import Dashboard.

Variables (r : Remote.t) (h : Host.t).

(** X11 ([onRefresh]): the page load of a pull-to-refresh is the one of the
    first render, which knows no search query.  When it brings systems,
    the screen shows that whole page, sorted, whatever is typed in the
    search field; the paginated list is that page, the current page is
    the first and the refresh spinner is off. *)
Theorem X11_refresh_shows_first_page_unfiltered
    (sc : Screen) (l : list PvSystemMetadata.t) :
  inflight sc = [] ->
  l <> [] ->
  let sorted := Js.sort (compareSystems h) (map (enrichPageItem r h) l) in
  let sc' := settle r h (Fulfilled (Some l)) (onRefresh sc) in
  displayed (ui sc') = sorted
  /\ pvSystems (ui sc') = sorted
  /\ currentPage (ui sc') = 0
  /\ hasMorePages (ui sc') = (length l =? SYSTEMS_PER_PAGE)%nat
  /\ refreshing (ui sc') = false
  /\ searchQuery (ui sc') = searchQuery (ui sc)
  /\ inflight sc' = [].
Proof.
  intros Hi Hl sorted sc'. subst sc' sorted.
  unfold onRefresh, onRefresh_begin, loadPvSystemsPage_begin, settle.
  cbn [inflight ui]. rewrite Hi. cbn [app closure page viaRefresh].
  destruct l as [|x l]; [congruence|].
  unfold loadPvSystemsPage_resume.
  cbn [searchQuery initial Js.trim Js.trimStart Js.trimEnd Js.truthy Nat.eqb].
  repeat split.
Qed.

End RefreshMore.

Lemma X11_refresh_shows_first_page_unfiltered_witness :
  let searching :=
    Dashboard.mkScreen
      (Dashboard.setSearchQuery "no such system" Sample.oneLoaded) [] in
  length
    (Dashboard.displayed
       (Dashboard.ui
          (Dashboard.settle Sample.remoteDown Sample.host
             (Fulfilled (Some Sample.pageOne))
             (Dashboard.onRefresh searching))))
  = 10.
Proof.
  intros searching.
  rewrite (proj1 (X11_refresh_shows_first_page_unfiltered Sample.remoteDown
                    Sample.host searching Sample.pageOne eq_refl
                    ltac:(discriminate))).
  vm_compute. reflexivity.
Defined.

(** ** Further properties of the detail screen *)

Section DetailMore.

Import Detail.

(** X12 ([findChannelValue]): the value is that of the first channel of the
    name ([null] when that channel has no value), later channels of the same
    name are not read; without a channel of the name, and without a channel
    list, the value is [null]. *)
Theorem X12_findChannelValue_first_match
    (pre post : list Channel.t) (c : Channel.t) (name : string) :
  Forall (fun c' => Channel.channelName c' <> name) pre ->
  (Channel.channelName c = name ->
   findChannelValue (Some (pre ++ c :: post)%list) name
   = Channel.orNull (Channel.value c))
  /\ findChannelValue (Some pre) name = None
  /\ findChannelValue None name = None.
Proof.
  intros Hpre. unfold findChannelValue, Js.find.
  induction Hpre as [|x pre Hx Hpre IH].
  - repeat split. intros E. cbn. rewrite (proj2 (String.eqb_eq _ _) E).
    reflexivity.
  - cbn [app List.find].
    destruct (String.eqb_spec (Channel.channelName x) name) as [E|E];
      [contradiction|].
    exact IH.
Qed.

Lemma X12_findChannelValue_first_match_witness :
  findChannelValue
    (Some ([Channel.mk "PowerLoad" (Channel.number 7)]
           ++ Channel.mk "PowerPV" (Channel.number 5)
              :: [Channel.mk "PowerPV" (Channel.number 9)])%list) "PowerPV"
  = Some 5%Q.
Proof.
  apply (X12_findChannelValue_first_match
           [Channel.mk "PowerLoad" (Channel.number 7)]
           [Channel.mk "PowerPV" (Channel.number 9)]
           (Channel.mk "PowerPV" (Channel.number 5)) "PowerPV").
  - repeat constructor. cbn. discriminate.
  - reflexivity.
Defined.

End DetailMore.

Section ChartMore.

Import Detail.



Lemma filter_map_length {A B : Type} (p : B -> bool) (f : A -> B) (l : list A) :
  length (filter p (map f l)) = length (filter (fun x => p (f x)) l).
Proof.
  induction l as [|x l IH]; cbn; [reflexivity|].
  destruct (p (f x)); cbn; rewrite IH; reflexivity.
Qed.

Lemma filter_length_impl {A : Type} (p q : A -> bool) (l : list A) :
  (forall x, p x = true -> q x = true) ->
  length (filter p l) <= length (filter q l).
Proof.
  intros H. induction l as [|x l IH]; cbn; [lia|].
  destruct (p x) eqn:P.
  - rewrite (H x P). cbn. lia.
  - destruct (q x); cbn; lia.
Qed.

Lemma filter_fst_combine {A B : Type} (q : A -> bool) (l1 : list A)
    (l2 : list B) :
  length (filter (fun p => q (fst p)) (combine l1 l2))
  <= length (filter q l1).
Proof.
  revert l2. induction l1 as [|x l1 IH]; intros l2; cbn; [lia|].
  destruct l2 as [|y l2]; cbn.
  - lia.
  - specialize (IH l2). destruct (q x); cbn; lia.
Qed.

Lemma filter_none {A : Type} (q : A -> bool) (l : list A) :
  (forall x, In x l -> q x = false) -> filter q l = [].
Proof.
  intros H. induction l as [|x l IH]; cbn; [reflexivity|].
  rewrite (H x (or_introl eq_refl)). apply IH.
  intros y Hy. apply H. right. exact Hy.
Qed.

(** Of [k] numbers in a row from a multiple of [k], the first only is a
    multiple of [k]. *)
Lemma one_multiple_per_stride k m :
  0 < k ->
  length (filter (fun i => (i mod k =? 0)%nat) (seq (m * k) k)) = 1.
Proof.
  intros Hk. destruct k as [|k]; [lia|].
  cbn [seq filter].
  rewrite Nat.Div0.mod_mul, Nat.eqb_refl. cbn [length]. f_equal.
  rewrite filter_none; [reflexivity|].
  intros i Hi. apply in_seq in Hi. apply Nat.eqb_neq.
  replace i with ((i - m * S k) + m * S k) by lia.
  rewrite Nat.Div0.mod_add, Nat.mod_small; lia.
Qed.

Lemma multiples_below k m :
  0 < k ->
  length (filter (fun i => (i mod k =? 0)%nat) (seq 0 (m * k))) = m.
Proof.
  intros Hk. induction m as [|m IH]; [reflexivity|].
  replace (S m * k) with (m * k + k) by lia.
  rewrite seq_app, filter_app, length_app, IH. cbn [Nat.add].
  rewrite one_multiple_per_stride by exact Hk. lia.
Qed.

(** At most six indexes below [total] keep their label. *)
Lemma labels_kept total :
  12 < total ->
  length (filter (fun i => negb (DetailView.labelSkipped i total))
            (seq 0 total)) <= 6.
Proof.
  intros H. unfold DetailView.labelSkipped.
  destruct (Nat.ltb_spec 12 total) as [_|]; [|lia]. cbn [andb].
  set (k := DetailView.labelStride total).
  assert (Hk : 0 < k /\ total <= 6 * k).
  { unfold k, DetailView.labelStride.
    pose proof (Nat.div_mod (total + 5) 6 ltac:(lia)).
    pose proof (Nat.mod_upper_bound (total + 5) 6 ltac:(lia)). lia. }
  destruct Hk as [Hk Hle].
  erewrite filter_ext by (intros i; apply negb_involutive).
  pose proof (multiples_below k 6 Hk) as M.
  replace (6 * k) with (total + (6 * k - total)) in M by lia.
  rewrite seq_app, filter_app, length_app in M. lia.
Qed.

Lemma max0_nonneg x : (0 <= DetailView.max0 x)%Q.
Proof.
  unfold DetailView.max0. destruct (Qlt_le_dec x 0); [apply Qle_refl | assumption].
Qed.

(** X16 ([EnergyChart]): the chart has one label per plotted value and
    plots no more points than the series has; no plotted value is negative;
    with more than twelve points at most six labels are written, the others
    are blank; the dots are drawn for up to 31 points. *)
Theorem X16_chart_labels_and_values
    (cal : DetailView.Calendar) (period : Period)
    (data : list HistoricalDataResponse.Point) :
  let c := DetailView.chartData cal period data in
  length (DetailView.labels c) = length (DetailView.values c)
  /\ length (DetailView.values c) <= length data
  /\ Forall (fun v => (0 <= v)%Q) (DetailView.values c)
  /\ (12 < length (DetailView.values c) ->
      length (filter MoreProps.labelled (DetailView.labels c)) <= 6)
  /\ (DetailView.withDots c = true <-> length (DetailView.values c) <= 31).
Proof.
  unfold DetailView.chartData.
  cbn [DetailView.labels DetailView.values DetailView.withDots].
  set (valid := DetailView.validData cal data).
  rewrite !length_map, length_combine, length_seq, Nat.min_id.
  split; [reflexivity|]. split; [|split; [|split]].
  - unfold valid, DetailView.validData.
    etransitivity; [apply filter_length_le|].
    rewrite (Permutation_length (sort_perm _ (DetailView.byTime cal) data)).
    lia.
  - apply Forall_map, Forall_forall. intros p _.
    unfold DetailView.chartValue.
    destruct (findChannelValue _ _); [apply max0_nonneg | apply Qle_refl].
  - intros H. rewrite filter_map_length.
    etransitivity; [|apply (labels_kept (length valid) H)].
    etransitivity;
      [|apply (filter_fst_combine
                 (fun i => negb (DetailView.labelSkipped i (length valid)))
                 (seq 0 (length valid)) valid)].
    apply filter_length_impl. intros [i p]. cbn [fst snd].
    unfold MoreProps.labelled, DetailView.getFormattedLabel.
    destruct (DetailView.labelSkipped i (length valid));
      [intros E; discriminate E | reflexivity].
  - apply Nat.leb_le.
Qed.

End ChartMore.

Lemma X16_chart_labels_and_values_witness :
  length
    (filter MoreProps.labelled
       (DetailView.labels
          (DetailView.chartData SampleMore.calendar Detail.day
             SampleMore.fourteenPoints)))
  <= 6.
Proof.
  apply (X16_chart_labels_and_values SampleMore.calendar Detail.day
           SampleMore.fourteenPoints).
  vm_compute. lia.
Defined.

Section WidgetsMore.

Import Detail.

Lemma Qle_bool_false x y : Qle_bool x y = false -> (y < x)%Q.
Proof.
  intros E. apply Qnot_le_lt. intros H. apply Qle_bool_iff in H. congruence.
Qed.

Lemma numeric_lt_finite q k :
  Js.numeric_lt (Js.finite q) k = true <-> (q < k)%Q.
Proof.
  cbn [Js.numeric_lt]. rewrite negb_true_iff. split.
  - apply Qle_bool_false.
  - intros H. destruct (Qle_bool k q) eqn:E; [|reflexivity].
    apply Qle_bool_iff in E. exfalso. apply (Qlt_irrefl q).
    eapply Qlt_le_trans; eassumption.
Qed.

(** The assessment by the cloud cover never gets better as the cover
    grows. *)
Lemma cover_monotone toNumber c1 c2 s1 s2 :
  (c1 <= c2)%Q ->
  MoreProps.rank
    (DetailView.getWeatherAssessment toNumber (WeatherChannel.number c1) s1)
  <= MoreProps.rank
       (DetailView.getWeatherAssessment toNumber (WeatherChannel.number c2)
          s2).
Proof.
  intros H. unfold DetailView.getWeatherAssessment.
  cbn [DetailView.asNumber].
  destruct (Js.numeric_lt (Js.finite c1) 30) eqn:A1,
    (Js.numeric_lt (Js.finite c1) 60) eqn:A2,
    (Js.numeric_lt (Js.finite c1) 80) eqn:A3,
    (Js.numeric_lt (Js.finite c2) 30) eqn:B1,
    (Js.numeric_lt (Js.finite c2) 60) eqn:B2,
    (Js.numeric_lt (Js.finite c2) 80) eqn:B3;
    cbn [MoreProps.rank]; try lia; exfalso;
    repeat match goal with
      | E : Js.numeric_lt (Js.finite _) _ = true |- _ =>
          apply numeric_lt_finite in E
      | E : Js.numeric_lt (Js.finite ?q) ?k = false |- _ =>
          assert (k <= q)%Q
            by (apply Qnot_lt_le; intros L; apply numeric_lt_finite in L;
                congruence);
          clear E
      end; lra.
Qed.

(** Without a cloud cover the assessment never gets better as the number
    of the symbol grows. *)
Lemma symbol_monotone toNumber s1 s2 a b :
  DetailView.truthyValue s1 = true ->
  DetailView.truthyValue s2 = true ->
  DetailView.asNumber toNumber s1 = Js.finite a ->
  DetailView.asNumber toNumber s2 = Js.finite b ->
  (a <= b)%Q ->
  MoreProps.rank
    (DetailView.getWeatherAssessment toNumber WeatherChannel.null s1)
  <= MoreProps.rank
       (DetailView.getWeatherAssessment toNumber WeatherChannel.null s2).
Proof.
  intros T1 T2 N1 N2 H. unfold DetailView.getWeatherAssessment.
  rewrite T1, T2, N1, N2. cbn [Js.numeric_le].
  destruct (Qle_bool a 1) eqn:A1, (Qle_bool a 3) eqn:A3,
    (Qle_bool a 5) eqn:A5, (Qle_bool b 1) eqn:B1, (Qle_bool b 3) eqn:B3,
    (Qle_bool b 5) eqn:B5; cbn [MoreProps.rank]; try lia; exfalso;
    repeat match goal with
      | E : Qle_bool _ _ = true |- _ => apply Qle_bool_iff in E
      | E : Qle_bool _ _ = false |- _ => apply Qle_bool_false in E
      end; lra.
Qed.

(** X17 ([getWeatherAssessment]): with a cloud cover the assessment never
    reads "Unknown", does not look at the weather symbol, and never gets
    better when the cloud cover grows.  Without a cloud cover it reads
    "Unknown" exactly when the symbol is falsy ([null], the empty string or
    the number zero); a symbol that is a string with a character in it is
    assessed, the string "0" too; and the assessment never gets better when
    the number the symbol stands for grows. *)
Theorem X17_weather_assessment_monotone
    (toNumber : string -> Js.Numeric) (c1 c2 a b : Q) (code : string)
    (cover symbol s1 s2 : WeatherChannel.Value) :
  (cover <> WeatherChannel.null ->
   MoreProps.rank (DetailView.getWeatherAssessment toNumber cover symbol) <= 3
   /\ DetailView.getWeatherAssessment toNumber cover symbol
      = DetailView.getWeatherAssessment toNumber cover WeatherChannel.null)
  /\ ((c1 <= c2)%Q ->
      MoreProps.rank
        (DetailView.getWeatherAssessment toNumber (WeatherChannel.number c1)
           s1)
      <= MoreProps.rank
           (DetailView.getWeatherAssessment toNumber
              (WeatherChannel.number c2) s2))
  /\ (DetailView.getWeatherAssessment toNumber WeatherChannel.null symbol
      = DetailView.Unknown
      <-> DetailView.truthyValue symbol = false)
  /\ (code <> "" ->
      DetailView.getWeatherAssessment toNumber WeatherChannel.null
        (WeatherChannel.text code)
      <> DetailView.Unknown)
  /\ (DetailView.truthyValue s1 = true ->
      DetailView.truthyValue s2 = true ->
      DetailView.asNumber toNumber s1 = Js.finite a ->
      DetailView.asNumber toNumber s2 = Js.finite b ->
      (a <= b)%Q ->
      MoreProps.rank
        (DetailView.getWeatherAssessment toNumber WeatherChannel.null s1)
      <= MoreProps.rank
           (DetailView.getWeatherAssessment toNumber WeatherChannel.null s2)).
Proof.
  assert (U : forall v,
             DetailView.getWeatherAssessment toNumber WeatherChannel.null v
             = DetailView.Unknown
             <-> DetailView.truthyValue v = false).
  { intros v. unfold DetailView.getWeatherAssessment. cbv zeta.
    destruct (DetailView.truthyValue v); [|split; reflexivity].
    destruct (Js.numeric_le (DetailView.asNumber toNumber v) 1),
      (Js.numeric_le (DetailView.asNumber toNumber v) 3),
      (Js.numeric_le (DetailView.asNumber toNumber v) 5);
      split; intros E; discriminate E. }
  split; [|split; [|split; [|split]]].
  - intros Hc. unfold DetailView.getWeatherAssessment. cbv zeta.
    destruct cover as [q|t|]; [| |congruence];
      match goal with
      | |- context [Js.numeric_lt ?x 30] =>
          destruct (Js.numeric_lt x 30), (Js.numeric_lt x 60),
            (Js.numeric_lt x 80)
      end; cbn [MoreProps.rank]; split; first [lia | reflexivity].
  - apply cover_monotone.
  - apply U.
  - intros Hc E. apply U in E. destruct code; [congruence | discriminate E].
  - apply symbol_monotone.
Qed.

Lemma X17_weather_assessment_monotone_witness :
  MoreProps.rank
    (DetailView.getWeatherAssessment SampleMore.toNumber WeatherChannel.null
       (WeatherChannel.text "2"))
  <= MoreProps.rank
       (DetailView.getWeatherAssessment SampleMore.toNumber
          WeatherChannel.null (WeatherChannel.text "6"))
  /\ DetailView.getWeatherAssessment SampleMore.toNumber WeatherChannel.null
       (WeatherChannel.text "0")
     <> DetailView.Unknown
  /\ MoreProps.rank
       (DetailView.getWeatherAssessment SampleMore.toNumber
          (WeatherChannel.number 25) WeatherChannel.null)
     <= MoreProps.rank
          (DetailView.getWeatherAssessment SampleMore.toNumber
             (WeatherChannel.number 85) (WeatherChannel.text "1")).
Proof.
  destruct (X17_weather_assessment_monotone SampleMore.toNumber 25 85 2 6 "0"
              (WeatherChannel.number 25) WeatherChannel.null
              (WeatherChannel.text "2") (WeatherChannel.text "6"))
    as (_ & _ & _ & H0 & Hs).
  split; [|split].
  - apply Hs; try reflexivity. vm_compute. discriminate.
  - apply H0. discriminate.
  - apply (proj1 (proj2
             (X17_weather_assessment_monotone SampleMore.toNumber 25 85 2 6
                "0" (WeatherChannel.number 25) WeatherChannel.null
                WeatherChannel.null (WeatherChannel.text "1")))).
    vm_compute. discriminate.
Defined.

(** The symbol code "0" is a string with a character in it: the widget
    assesses it. *)
Example symbol_zero_as_string :
  DetailView.weatherAssessment SampleMore.toNumber
    (setWeatherData (Some (SampleMore.symbolOnly "0")) initial)
  = Some DetailView.Excellent
  /\ DetailView.weatherAssessment SampleMore.toNumber
       (setWeatherData (Some (SampleMore.symbolOnly "4")) initial)
     = Some DetailView.Fair.
Proof. vm_compute. split; reflexivity. Qed.

(** X18 ([addDemoErrorMessage], [systemStatus]): outside demo mode the
    button changes nothing.  In demo mode the new message is one of the
    five canned errors, goes in front of the error messages, and turns the
    status of an online system to warning; an offline system stays
    offline. *)
Theorem X18_demo_error_message
    (id : string) (pick device : nat) (now : string) (st : State) :
  let m := DetailView.newErrorMessage id pick device now in
  let st' := addDemoErrorMessage m st in
  (demoMode st = false -> st' = st)
  /\ (demoMode st = true ->
      latestErrorMessages st' = m :: latestErrorMessages st
      /\ systemStatus st'
         = (if systemIsOnline st then warning else offline))
  /\ (pick < 5 ->
      exists code text,
        In (code, text) DetailView.errorCodes
        /\ SystemMessage.stateCode m = code
        /\ SystemMessage.text m = "Demo Error: " ++ text).
Proof.
  intros m st'. subst st'. unfold addDemoErrorMessage.
  split; [|split].
  - intros ->. reflexivity.
  - intros H. rewrite H. split; [reflexivity|].
    unfold systemStatus, systemIsOnline, latestErrorMessages.
    cbn [flowData messages setMessages negb filter]. subst m.
    cbn [DetailView.newErrorMessage SystemMessage.stateSeverity String.eqb
         Ascii.eqb Bool.eqb length Nat.ltb Nat.leb].
    destruct (flowData st) as [[[[[|]]|] d]|]; reflexivity.
  - intros H. subst m. unfold DetailView.newErrorMessage.
    cbn [SystemMessage.stateCode SystemMessage.text].
    exists (fst (nth pick DetailView.errorCodes (0%Z, ""))),
      (snd (nth pick DetailView.errorCodes (0%Z, ""))).
    split; [|split; reflexivity].
    rewrite <- surjective_pairing. apply nth_In. cbn. exact H.
Qed.

Lemma X18_demo_error_message_witness :
  systemStatus
    (addDemoErrorMessage
       (DetailView.newErrorMessage "s01" 3 42 "2025-01-01T10:00:00.000Z")
       SampleMore.demoOnline)
  = warning.
Proof.
  destruct (X18_demo_error_message "s01" 3 42 "2025-01-01T10:00:00.000Z"
              SampleMore.demoOnline) as (_ & H & _).
  destruct (H eq_refl) as [_ E]. exact E.
Defined.

(** X19 (Retry and pull-to-refresh on the detail screen): a refresh clears
    the error of an earlier load and sends the batch and the chart's
    request again; when the batch then settles with the system's details the
    screen shows the system, not the error. *)
Theorem X19_detail_refresh_recovers
    (id : string) (b : Batch) (d : PvSystemMetadata.t) (st : State) :
  validId (Some id) = Some id ->
  hasAccess st = Some true ->
  checkingAccess st = false ->
  details b = Fulfilled d ->
  let (st1, requests) := onRefresh (Some id) st in
  requests
  = (batchRequests id ++ [chartRequest id (selectedChartPeriod st)])%list
  /\ error st1 = None
  /\ error (fetchAllData_settle b st1) = None
  /\ render (fetchAllData_settle b st1) = MainView.
Proof.
  intros Hid Ha Hc Hd.
  unfold onRefresh, fetchAllData_begin, fetchHistoricalData_begin.
  cbn [hasAccess setRefreshing setError setLoading selectedChartPeriod].
  rewrite Ha, Hid. cbn [hasAccess setRefreshing setError setLoading].
  rewrite Ha.
  split; [reflexivity|]. split; [reflexivity|].
  set (st1 := setEnergyHistData None _).
  destruct (settle_fulfilled b st1 d Hd) as ((Ed & Ee & El & _ & Eh & Ec) & _).
  cbn [st1 error hasAccess checkingAccess setEnergyHistData setChartLoading
       setError setLoading setRefreshing] in Ee, Eh, Ec.
  rewrite Ha in Eh. rewrite Hc in Ec.
  split; [exact Ee|].
  unfold render. rewrite Eh, Ec, El, Ee, Ed. reflexivity.
Qed.

Lemma X19_detail_refresh_recovers_witness :
  render
    (fetchAllData_settle SampleDetail.goodBatch
       (fst (onRefresh (Some "s01") SampleMore.failedOnce)))
  = MainView.
Proof.
  pose proof (X19_detail_refresh_recovers "s01" SampleDetail.goodBatch
                (Sample.system "s01" "Alpha Roof") SampleMore.failedOnce
                eq_refl eq_refl eq_refl eq_refl) as H.
  destruct (onRefresh (Some "s01") SampleMore.failedOnce) as [st1 reqs].
  destruct H as (_ & _ & _ & H). exact H.
Defined.

(** X20 (the devices section): at most three device cards are shown, they
    are the first devices of the list, and the line below counts all the
    others; the line is there only when there are more than three. *)
Theorem X20_devices_preview (st : State) :
  let (cards, more) := DetailView.devicesSection st in
  length cards <= 3
  /\ (exists rest, devices st = (cards ++ rest)%list
        /\ length rest = match more with Some n => n | None => 0 end)
  /\ (more = None <-> length (devices st) <= 3)
  /\ more <> Some 0.
Proof.
  unfold DetailView.devicesSection, Js.slice0.
  split; [apply firstn_le_length|]. split; [|split].
  - exists (skipn 3 (devices st)). rewrite firstn_skipn. split; [reflexivity|].
    rewrite length_skipn.
    destruct (Nat.ltb_spec 3 (length (devices st))); lia.
  - destruct (Nat.ltb_spec 3 (length (devices st))); split; intros E;
      try discriminate E; try reflexivity; lia.
  - destruct (Nat.ltb_spec 3 (length (devices st))); intros E;
      [injection E; lia | discriminate E].
Qed.

End WidgetsMore.

(** ** The notation of a date for the remote data client *)

Section ApiDate.

Import Js.

Lemma digits_acc_small k n acc :
  (n < 10)%N -> digits_acc (S k) n acc = digit_char n :: acc.
Proof.
  intros H. cbn [digits_acc].
  rewrite N.div_small, N.mod_small by exact H. reflexivity.
Qed.

Lemma digits_acc_step k n acc :
  (10 <= n)%N ->
  digits_acc (S k) n acc = digits_acc k (n / 10) (digit_char (n mod 10) :: acc).
Proof.
  intros H. cbn [digits_acc].
  destruct (N.eqb_spec (n / 10) 0) as [E|E]; [|reflexivity].
  apply N.div_small_iff in E; lia.
Qed.

(** A number has fuel for as many digits as its binary logarithm. *)
Lemma digits_fuel n m :
  (2 ^ N.of_nat m <= n)%N -> exists k, N.to_nat (N.log2 n) = (m + k)%nat.
Proof.
  intros H. exists (N.to_nat (N.log2 n) - m)%nat.
  assert (N.of_nat m <= N.log2 n)%N.
  { apply N.log2_le_pow2; lia. }
  lia.
Qed.

Lemma digits_two n :
  (n < 100)%N ->
  (repeat "0"%char (2 - length (digits n)) ++ digits n)%list
  = [digit_char (n / 10); digit_char (n mod 10)].
Proof.
  intros H. unfold digits.
  destruct (N.lt_ge_cases n 10) as [L|L].
  - rewrite digits_acc_small by exact L.
    rewrite N.div_small, N.mod_small by exact L. reflexivity.
  - destruct (digits_fuel n 3 ltac:(cbn; lia)) as [k ->].
    cbn [Nat.add]. rewrite digits_acc_step by exact L.
    rewrite digits_acc_small; [|apply N.Div0.div_lt_upper_bound; lia].
    reflexivity.
Qed.

Lemma digits_four n :
  (1000 <= n < 10000)%N ->
  digits n
  = [digit_char (n / 1000); digit_char ((n / 100) mod 10);
     digit_char ((n / 10) mod 10); digit_char (n mod 10)].
Proof.
  intros H. unfold digits.
  destruct (digits_fuel n 9 ltac:(cbn; lia)) as [k ->].
  cbn [Nat.add].
  rewrite digits_acc_step by lia.
  rewrite digits_acc_step
    by (apply N.div_le_lower_bound; lia).
  rewrite digits_acc_step
    by (rewrite N.Div0.div_div; apply N.div_le_lower_bound; lia).
  rewrite digits_acc_small
    by (rewrite !N.Div0.div_div; apply N.Div0.div_lt_upper_bound; lia).
  rewrite !N.Div0.div_div. reflexivity.
Qed.

Lemma two_digits_val n :
  (n < 100)%N ->
  digits_val [digit_char (n / 10); digit_char (n mod 10)] = n.
Proof.
  intros H. unfold digits_val. cbn [fold_left].
  rewrite !digit_char_val
    by (try apply N.mod_lt; try apply N.Div0.div_lt_upper_bound; lia).
  pose proof (N.div_mod n 10 ltac:(lia)). lia.
Qed.

Lemma four_digits_val n :
  (n < 10000)%N ->
  digits_val
    [digit_char (n / 1000); digit_char ((n / 100) mod 10);
     digit_char ((n / 10) mod 10); digit_char (n mod 10)] = n.
Proof.
  intros H. unfold digits_val. cbn [fold_left].
  rewrite !digit_char_val
    by (try apply N.mod_lt; try apply N.Div0.div_lt_upper_bound; lia).
  pose proof (N.div_mod n 10 ltac:(lia)).
  pose proof (N.div_mod (n / 10) 10 ltac:(lia)).
  pose proof (N.div_mod (n / 100) 10 ltac:(lia)).
  assert (n / 10 / 10 = n / 100)%N by (rewrite N.Div0.div_div; reflexivity).
  assert (n / 100 / 10 = n / 1000)%N by (rewrite N.Div0.div_div; reflexivity).
  lia.
Qed.

(** X21 ([formatApiDateString]): for a date with a year of four digits the
    string has twenty characters, "YYYY-MM-DDThh:mm:ssZ": each field is
    written with its leading zeros at its place and reads back as the
    field, the month as its number from one, and the separators are at
    their places. *)
Theorem X21_formatApiDateString_reads_back (d : DetailView.DateFields) :
  MoreProps.wellFormed d ->
  let s := DetailView.formatApiDateString d in
  String.length s = 20
  /\ MoreProps.field 0 4 s = N.of_nat (DetailView.getFullYear d)
  /\ MoreProps.field 5 2 s = N.of_nat (DetailView.getMonth d + 1)
  /\ MoreProps.field 8 2 s = N.of_nat (DetailView.getDate d)
  /\ MoreProps.field 11 2 s = N.of_nat (DetailView.getHours d)
  /\ MoreProps.field 14 2 s = N.of_nat (DetailView.getMinutes d)
  /\ MoreProps.field 17 2 s = N.of_nat (DetailView.getSeconds d)
  /\ map (fun i => String.get i s) [4; 7; 10; 13; 16; 19]
     = map Some ["-"; "-"; "T"; ":"; ":"; "Z"]%char.
Proof.
  intros (Hy & Hm & Hd & Hh & Hi & Hs) s. subst s.
  unfold DetailView.formatApiDateString, DetailView.pad2.
  rewrite (digits_four _ Hy).
  rewrite !digits_two by lia.
  unfold MoreProps.field.
  cbn [app string_of_list_ascii String.length String.substring
       list_ascii_of_string map String.get].
  rewrite four_digits_val by lia.
  rewrite !two_digits_val by lia.
  repeat split.
Qed.

Lemma X21_formatApiDateString_reads_back_witness :
  DetailView.formatApiDateString SampleMore.newYear = "2025-01-01T09:05:00Z"
  /\ String.length (DetailView.formatApiDateString SampleMore.newYear) = 20.
Proof.
  split; [vm_compute; reflexivity|].
  apply (X21_formatApiDateString_reads_back SampleMore.newYear).
  vm_compute. repeat split; try discriminate; lia.
Defined.

End ApiDate.

(** ** The login page *)

Section LoginPage.

Import Login.

(** X22 ([validateForm], [handleLogin]): a press of the login button calls
    [signIn] exactly when the username has a character that is not white
    space and the password is not empty; the call carries the username as
    typed, not trimmed, no error is shown and the button is disabled while
    the call runs.  Otherwise nothing is sent, the page does not start
    loading and each missing field, and no other, gets its message. *)
Theorem X22_login_sends_only_valid_form (sessionLoading : bool) (st : State) :
  let (st', requests) := handleLogin_begin st in
  username st' = username st
  /\ password st' = password st
  /\ (if MoreProps.nonBlank (username st) && Js.truthy (password st)
      then requests = [SignIn (username st) (password st)]
           /\ errors st' = mkErrors "" ""
           /\ isLoading st' = true
           /\ loginEnabled sessionLoading st' = false
      else requests = []
           /\ isLoading st' = isLoading st
           /\ e_username (errors st')
              = (if MoreProps.nonBlank (username st) then ""
                 else "Username is required")
           /\ e_password (errors st')
              = (if Js.truthy (password st) then ""
                 else "Password is required")).
Proof.
  unfold handleLogin_begin, validateForm.
  rewrite truthy_trim.
  destruct (MoreProps.nonBlank (username st)), (Js.truthy (password st));
    cbn; repeat split.
Qed.

End LoginPage.

Lemma X22_login_sends_only_valid_form_witness :
  snd (Login.handleLogin_begin SampleMore.filledForm)
  = [Login.SignIn " ada " "secret"].
Proof.
  pose proof (X22_login_sends_only_valid_form false SampleMore.filledForm)
    as H.
  destruct (Login.handleLogin_begin SampleMore.filledForm) as [st' reqs].
  destruct H as (_ & _ & H). cbn in H. destruct H as [H _]. exact H.
Defined.

Section LoginAttempt.

Import Login.

(** X23 ([handleLogin], from the press to the end of the sign-in): with a
    form that is filled in, however the sign-in ends the page is left as it
    was with its messages cleared and not loading; one call was made, and
    the user goes to the dashboard exactly when it returned a user. *)
Theorem X23_login_attempt
    (user : Settled (option Detail.User.t)) (st : State) :
  MoreProps.nonBlank (username st) = true ->
  password st <> "" ->
  let (st1, requests) := handleLogin_begin st in
  let (st2, outcome) := handleLogin_settle user st1 in
  requests = [SignIn (username st) (password st)]
  /\ st2 = setIsLoading false (setErrors (mkErrors "" "") st)
  /\ ((exists u, user = Fulfilled (Some u))
      <-> outcome = Replace "/(tabs)/dashboard")
  /\ ((forall u, user <> Fulfilled (Some u))
      <-> exists title message, outcome = Alert title message).
Proof.
  intros Hu Hp. unfold handleLogin_begin, validateForm.
  rewrite truthy_trim, Hu.
  destruct (password st) as [|c p] eqn:E; [congruence|].
  cbn [Js.truthy negb andb username password setErrors].
  unfold handleLogin_settle. rewrite E.
  split; [reflexivity|]. split; [reflexivity|].
  destruct user as [[u|]|reason]; split; split;
    try (intros [x H]; discriminate H); try (intros H; discriminate H);
    try (intros _; eexists; reflexivity);
    try (intros _; eexists; eexists; reflexivity);
    try (intros _ x H; discriminate H).
  - intros H. exfalso. apply (H u). reflexivity.
  - intros [t [m H]]. discriminate H.
Qed.

End LoginAttempt.

Lemma X23_login_attempt_witness :
  snd (Login.handleLogin_settle (Fulfilled (Some SampleDetail.visitor))
         (fst (Login.handleLogin_begin SampleMore.filledForm)))
  = Login.Replace "/(tabs)/dashboard".
Proof.
  pose proof (X23_login_attempt (Fulfilled (Some SampleDetail.visitor))
                SampleMore.filledForm eq_refl ltac:(discriminate)) as H.
  destruct (Login.handleLogin_begin SampleMore.filledForm) as [st1 reqs].
  cbn [fst].
  destruct (Login.handleLogin_settle (Fulfilled (Some SampleDetail.visitor))
              st1) as [st2 out].
  destruct H as (_ & _ & H & _). cbn [snd].
  apply H. exists SampleDetail.visitor. reflexivity.
Defined.

(** ** The daily energy on the two screens *)

Section DailyEnergy.

Import Dashboard.

(** The first element that passes the test is the one found. *)
Lemma find_first {A : Type} (p : A -> bool) (pre post : list A) (c : A) :
  Forall (fun x => p x = false) pre ->
  p c = true ->
  List.find p (pre ++ c :: post) = Some c.
Proof.
  intros Hpre Hc. induction Hpre as [|x pre Hx Hpre IH]; cbn.
  - rewrite Hc. reflexivity.
  - rewrite Hx. exact IH.
Qed.

Lemma find_nothing {A : Type} (p : A -> bool) (l : list A) :
  Forall (fun x => p x = false) l -> List.find p l = None.
Proof.
  intros H. induction H as [|x l Hx Hl IH]; cbn; [reflexivity|].
  rewrite Hx. exact IH.
Qed.

(** X24 ([extractDailyEnergy], and the "Energy" of the detail screen): the
    list reads the first row of the aggregate answer only, and there the
    first channel named [EnergyProductionTotal], [EnergyProduction] or
    [EnergyDay], in the order of the answer: it shows that channel's value
    in kWh, "0 kWh" for [null] and "NaN kWh" for a channel without a value;
    without an answer, a row or such a channel it shows "0 kWh".  When that
    channel is an [EnergyProductionTotal], the Today card of the detail
    screen shows the same text for the same answer if the value is a
    number, and "N/A" if it is not. *)
Theorem X24_daily_energy_on_list_and_detail
    (st : Detail.State) (a : AggregatedDataResponse.t)
    (row : AggregatedDataResponse.Row) (rest : list AggregatedDataResponse.Row)
    (pre post : list Channel.t) (c : Channel.t) :
  (isEnergyChannel c = true
   <-> Channel.channelName c = "EnergyProductionTotal"
       \/ Channel.channelName c = "EnergyProduction"
       \/ Channel.channelName c = "EnergyDay")
  /\ extractDailyEnergy None = "0 kWh"
  /\ (AggregatedDataResponse.data a = [] ->
      extractDailyEnergy (Some a) = "0 kWh")
  /\ (AggregatedDataResponse.data a = row :: rest ->
      Forall (fun c' => isEnergyChannel c' = false)
        (AggregatedDataResponse.channels row) ->
      extractDailyEnergy (Some a) = "0 kWh")
  /\ (AggregatedDataResponse.data a = row :: rest ->
      AggregatedDataResponse.channels row = (pre ++ c :: post)%list ->
      Forall (fun c' => isEnergyChannel c' = false) pre ->
      isEnergyChannel c = true ->
      extractDailyEnergy (Some a)
      = match Channel.value c with
        | Channel.number v => Js.toFixed 1 (Js.div v 1000) ++ " kWh"
        | Channel.null => "0 kWh"
        | Channel.undefined => "NaN kWh"
        end
      /\ (Detail.aggregatedDataToday st = Some a ->
          Channel.channelName c = "EnergyProductionTotal" ->
          Detail.metric "today" "Energy" st
          = Some
              match Channel.value c with
              | Channel.number v => extractDailyEnergy (Some a)
              | Channel.null | Channel.undefined => "N/A"
              end)).
Proof.
  split; [|split; [reflexivity|split; [|split]]].
  - unfold isEnergyChannel, channelNamed.
    rewrite !orb_true_iff, !String.eqb_eq. tauto.
  - intros Hd. unfold extractDailyEnergy. rewrite Hd. reflexivity.
  - intros Hd Hn. unfold extractDailyEnergy, Js.find.
    rewrite Hd, (find_nothing _ _ Hn). reflexivity.
  - intros Hd Hc Hpre Hen.
    assert (L : extractDailyEnergy (Some a)
                = match Channel.value c with
                  | Channel.number v =>
                      Js.toFixed 1 (Js.div v 1000) ++ " kWh"
                  | Channel.null => "0 kWh"
                  | Channel.undefined => "NaN kWh"
                  end).
    { unfold extractDailyEnergy, Js.find.
      rewrite Hd, Hc, (find_first _ _ _ _ Hpre Hen).
      destruct (Channel.value c); reflexivity. }
    split; [exact L|].
    intros Ha Hn.
    assert (F : List.find
                  (fun c => String.eqb (Channel.channelName c)
                              "EnergyProductionTotal")
                  (pre ++ c :: post) = Some c).
    { apply find_first.
      - eapply Forall_impl; [|exact Hpre]. intros x Hx.
        unfold isEnergyChannel, channelNamed in Hx.
        apply orb_false_iff in Hx. destruct Hx as [Hx _].
        apply orb_false_iff in Hx. destruct Hx as [Hx _]. exact Hx.
      - rewrite Hn. reflexivity. }
    rewrite L. unfold Detail.metric.
    cbn [Detail.dashboardData List.find Detail.card_id String.eqb Ascii.eqb
         Bool.eqb Detail.metrics fst snd option_map].
    unfold Detail.dailyEnergyProduction, Detail.firstRowChannels,
      Detail.findChannelValue, Js.find.
    rewrite Ha, Hd, Hc, F.
    destruct (Channel.value c); reflexivity.
Qed.

End DailyEnergy.

Lemma X24_daily_energy_on_list_and_detail_witness :
  Dashboard.extractDailyEnergy
    (Some (SampleDetail.aggregate "EnergyDay" [Some 12500%Q])) = "12.5 kWh"
  /\ Detail.metric "today" "Energy"
       (Detail.fetchAllData_settle SampleDetail.goodBatch SampleDetail.granted)
     = Some "12.5 kWh".
Proof.
  split.
  - rewrite (proj1
               (proj2 (proj2 (proj2 (proj2
                  (X24_daily_energy_on_list_and_detail
                     Detail.initial
                     (SampleDetail.aggregate "EnergyDay" [Some 12500%Q])
                     (AggregatedDataResponse.mkRow "2025-01-01"
                        [Channel.mk "EnergyDay" (Channel.number 12500)])
                     [] [] []
                     (Channel.mk "EnergyDay" (Channel.number 12500))))))
               eq_refl eq_refl (Forall_nil _) eq_refl)).
    vm_compute. reflexivity.
  - rewrite (proj2
               (proj2 (proj2 (proj2 (proj2
                  (X24_daily_energy_on_list_and_detail
                     (Detail.fetchAllData_settle SampleDetail.goodBatch
                        SampleDetail.granted)
                     (SampleDetail.aggregate "EnergyProductionTotal"
                        [Some 12500%Q])
                     (AggregatedDataResponse.mkRow "2025-01-01"
                        [Channel.mk "EnergyProductionTotal"
                           (Channel.number 12500)])
                     [] [] []
                     (Channel.mk "EnergyProductionTotal"
                        (Channel.number 12500))))))
               eq_refl eq_refl (Forall_nil _) eq_refl) eq_refl eq_refl).
    vm_compute. reflexivity.
Defined.
